(** * sprockets.mixins.mediatype: content registry, negotiation cache and
      request/response integration

    A shallow embedding of [sprockets/mixins/mediatype/content.py] together
    with the helpers of [tests.py] that the canonical binary codec is checked
    against, the codec itself as the specification describes it, and
    [make_application] of [examples.py].  Python text is embedded as [string] (the UTF-8 octets of the
    text, ASCII for every header value used here), byte strings as
    [list Byte.byte], [dict]s whose iteration order is observable as
    insertion-ordered association lists, the handler table as a [gmap], and
    raised exceptions as the [Raise] branch of a small error monad. *)

From Stdlib Require Import ZArith Ascii String List Bool Lia Permutation.
From Stdlib Require Import Sorting.Sorted.
From Stdlib Require Strings.Byte.
From stdpp Require Import base option list strings gmap sorting.

Local Open Scope string_scope.

(** ** Exceptions and the error monad *)

Inductive exn : Type :=
| KeyError
| ValueError
| IndexError
| TypeError
| HTTPError (status : Z)
| Failure (what : string).

Inductive result (A : Type) : Type :=
| Ok (a : A)
| Raise (e : exn).

Arguments Ok {A} a.
Arguments Raise {A} e.

Definition rbind {A B : Type} (r : result A) (k : A -> result B) : result B :=
  match r with
  | Ok a => k a
  | Raise e => Raise e
  end.

#[global] Instance result_ret : MRet result := fun _ a => Ok a.
#[global] Instance result_bind : MBind result := fun _ _ k r => rbind r k.

(** ** Python [str] methods used by the media type parser *)

Module PyStr.

(** [str.isspace] on the ASCII code points: TAB..CR, FS..US and SPACE. *)
Definition is_space (c : ascii) : bool :=
  let n := nat_of_ascii c in
  ((9 <=? n)%nat && (n <=? 13)%nat) || ((28 <=? n)%nat && (n <=? 32)%nat).

Definition is_upper (c : ascii) : bool :=
  let n := nat_of_ascii c in (65 <=? n)%nat && (n <=? 90)%nat.

Definition lower_char (c : ascii) : ascii :=
  if is_upper c then ascii_of_nat (nat_of_ascii c + 32) else c.

Fixpoint lower (s : string) : string :=
  match s with
  | EmptyString => EmptyString
  | String c s' => String (lower_char c) (lower s')
  end.

Fixpoint lstrip (s : string) : string :=
  match s with
  | EmptyString => EmptyString
  | String c s' => if is_space c then lstrip s' else s
  end.

Fixpoint rstrip (s : string) : string :=
  match s with
  | EmptyString => EmptyString
  | String c s' =>
      match rstrip s' with
      | EmptyString => if is_space c then EmptyString else String c EmptyString
      | r => String c r
      end
  end.

Definition strip (s : string) : string := rstrip (lstrip s).

(** [s.split(sep)] for a one-character separator: never the empty list. *)
Fixpoint split (sep : ascii) (s : string) : list string :=
  match s with
  | EmptyString => [EmptyString]
  | String c s' =>
      if Ascii.eqb c sep then EmptyString :: split sep s'
      else match split sep s' with
           | [] => [String c EmptyString]
           | p :: ps => String c p :: ps
           end
  end.

(** [sep.join(parts)]. *)
Fixpoint join (sep : string) (parts : list string) : string :=
  match parts with
  | [] => EmptyString
  | [p] => p
  | p :: ps => p ++ sep ++ join sep ps
  end.

Fixpoint mem (c : ascii) (s : string) : bool :=
  match s with
  | EmptyString => false
  | String d s' => Ascii.eqb c d || mem c s'
  end.

Fixpoint last_char (s : string) : option ascii :=
  match s with
  | EmptyString => None
  | String c EmptyString => Some c
  | String _ s' => last_char s'
  end.

(** [s[:-1]]. *)
Fixpoint drop_last (s : string) : string :=
  match s with
  | EmptyString => EmptyString
  | String _ EmptyString => EmptyString
  | String c s' => String c (drop_last s')
  end.

(** Code point order of [str], as used by [sorted]. *)
Definition le (a b : string) : Prop := String.leb a b = true.

#[global] Instance le_dec (a b : string) : Decision (le a b).
Proof. unfold le. destruct (String.leb a b); [left | right]; congruence. Defined.

Definition sorted (l : list string) : list string := merge_sort le l.

End PyStr.

(** ** Python [dict] with string keys, in insertion order *)

Module PyDict.

Definition t (V : Type) : Type := list (string * V).

Fixpoint get {V : Type} (d : t V) (k : string) : option V :=
  match d with
  | [] => None
  | (k', v) :: d' => if String.eqb k k' then Some v else get d' k
  end.

(** [d[k] = v]: an existing key keeps its position. *)
Fixpoint set {V : Type} (d : t V) (k : string) (v : V) : t V :=
  match d with
  | [] => [(k, v)]
  | (k', v') :: d' =>
      if String.eqb k k' then (k', v) :: d' else (k', v') :: set d' k v
  end.

(** [dict(pairs)]. *)
Definition of_pairs {V : Type} (pairs : list (string * V)) : t V :=
  fold_left (fun d kv => set d (fst kv) (snd kv)) pairs [].

Definition keys {V : Type} (d : t V) : list string := map fst d.

(** [d.pop(k, None)], for its effect: the dictionary without the key. *)
Definition pop {V : Type} (d : t V) (k : string) : t V :=
  List.filter (fun kv => negb (String.eqb k (fst kv))) d.

End PyDict.

(** ** The media type parser of the ietfparse package *)

Module Ietfparse.

(** Modelled from the spec: ietfparse's [datastructures.ContentType] is
    imported by content.py but is not under src/.  Section 3 of the
    specification gives its fields: primary type, subtype, optional suffix
    and a parameter mapping whose keys are lower-cased. *)
Record ContentType : Type := mkContentType {
  content_type : string;
  content_subtype : string;
  content_suffix : option string;
  parameters : PyDict.t string
}.

(** Modelled from the spec: the constructor of [ContentType] (not under
    src/) strips and lower-cases type, subtype and suffix and re-keys the
    parameters under their lower-cased names, in iteration order. *)
Definition ContentType_init (ty sub : string) (params : PyDict.t string)
    (suffix : option string) : ContentType :=
  {| content_type := PyStr.lower (PyStr.strip ty);
     content_subtype := PyStr.lower (PyStr.strip sub);
     content_suffix := option_map (fun x => PyStr.lower (PyStr.strip x)) suffix;
     parameters :=
       fold_left (fun d kv => PyDict.set d (PyStr.lower (fst kv)) (snd kv))
                 params [] |}.

Definition render_parameter (d : PyDict.t string) (name : string) : string :=
  name ++ "=" ++ default "" (PyDict.get d name).

(** Modelled from the spec: [ContentType.__str__] (not under src/) renders
    [type/subtype+suffix; k1=v1; k2=v2] with the parameters in
    alphabetical order of their keys.  The suffix is a string or empty
    (section 3): an empty one is not written. *)
Definition ContentType_str (ct : ContentType) : string :=
  let main :=
    content_type ct ++ "/" ++ content_subtype ct ++
    match content_suffix ct with
    | Some x => if String.eqb x "" then "" else "+" ++ x
    | None => ""
    end in
  match parameters ct with
  | [] => main
  | _ => main ++ "; " ++
         PyStr.join "; "
           (map (render_parameter (parameters ct))
                (PyStr.sorted (PyDict.keys (parameters ct))))
  end.

(** Length of the prefix of [s] that ends at the last closing parenthesis
    of the first line of [s]. *)
Fixpoint last_close (s : string) : option nat :=
  match s with
  | EmptyString => None
  | String c s' =>
      if Ascii.eqb c "010" then None
      else match last_close s' with
           | Some n => Some (S n)
           | None => if Ascii.eqb c ")" then Some 1%nat else None
           end
  end.

Fixpoint remove_comments_from (skip : nat) (s : string) : string :=
  match s with
  | EmptyString => EmptyString
  | String c s' =>
      match skip with
      | S k => remove_comments_from k s'
      | O =>
          if Ascii.eqb c "(" then
            match last_close s' with
            | Some n => remove_comments_from n s'
            | None => String c (remove_comments_from 0 s')
            end
          else String c (remove_comments_from 0 s')
      end
  end.

(** Modelled from the spec: [headers._remove_comments] (not under src/).
    The parser of section 4.1 takes a raw header fragment; the package
    first deletes every parenthesised comment, from an opening parenthesis
    to the last closing one on the same line. *)
Definition remove_comments (s : string) : string := remove_comments_from 0 s.

(** Modelled from the spec: [headers._dequote] (not under src/) removes one
    pair of surrounding double quotes; it indexes the first character, so
    an empty value is an [IndexError]. *)
Definition dequote (value : string) : result string :=
  match value with
  | EmptyString => Raise IndexError
  | String c rest =>
      if Ascii.eqb c "034"%char &&
         match PyStr.last_char value with
         | Some d => Ascii.eqb d "034"%char
         | None => false
         end
      then Ok (PyStr.drop_last rest)
      else Ok value
  end.

(** One [name=value] element; [Ok None] for an element that is blank. *)
Definition parse_parameter (param : string) : result (option (string * string)) :=
  let param := PyStr.strip param in
  match param with
  | EmptyString => Ok None
  | _ =>
      match PyStr.split "=" param with
      | [name; value] =>
          let value := PyStr.lower value in
          v ← dequote (PyStr.strip value);
          Ok (Some (name, v))
      | _ => Raise ValueError
      end
  end.

(** Modelled from the spec: [headers._parse_parameter_list] (not under
    src/), with parameter values lower-cased as [parse_content_type] asks
    by default. *)
Fixpoint parse_parameter_list (parts : list string) : result (list (string * string)) :=
  match parts with
  | [] => Ok []
  | p :: ps =>
      r ← parse_parameter p;
      rest ← parse_parameter_list ps;
      Ok (match r with Some kv => kv :: rest | None => rest end)
  end.

(** The subtype and its structured-syntax suffix: [sub.split('+')] must
    give exactly two elements when a [+] is present. *)
Definition split_suffix (sub : string) : result (string * option string) :=
  if PyStr.mem "+" sub then
    match PyStr.split "+" sub with
    | [s; x] => Ok (s, Some x)
    | _ => Raise ValueError
    end
  else Ok (sub, None).

(** Modelled from the spec: [headers.parse_content_type] (not under src/)
    splits the header at [;], the first element at [/] and the subtype at
    [+]; a missing or repeated separator is a [ValueError]. *)
Definition parse_content_type (header : string) : result ContentType :=
  match PyStr.split ";" (remove_comments header) with
  | [] => Raise ValueError
  | first :: parts =>
      match PyStr.split "/" first with
      | [ty; sub] =>
          sub_suffix ← split_suffix sub;
          params ← parse_parameter_list parts;
          Ok (ContentType_init ty (fst sub_suffix) (PyDict.of_pairs params)
                               (snd sub_suffix))
      | _ => Raise ValueError
      end
  end.

End Ietfparse.

Import Ietfparse.

(** ** Structured values and transcoders *)

Definition bytes : Type := list Byte.byte.

(** The decoded/encoded payload, the structured value of section 3.
    [VNone] is Python's [None]; it is also the value the mixin stores in
    [_request_body] before anything was decoded.  A float is given by the 64
    bits of its IEEE 754 binary64 form, a unique identifier by its standard
    textual representation and a timestamp by its ISO 8601 representation
    (with the UTC offset when it is zone-aware); the elements of a set come
    in the order of its iteration.  [VObject] is any object of another type. *)
#[warnings="-register-all"]
Inductive Value : Type :=
| VNone
| VBool (b : bool)
| VInt (n : Z)
| VFloat (binary64 : Z)
| VStr (s : string)
| VBytes (b : bytes)
| VByteArray (b : bytes)
| VMemoryView (b : bytes)
| VUuid (text : string)
| VDatetime (isoformat : string)
| VList (items : list Value)
| VTuple (items : list Value)
| VSet (items : list Value)
| VDict (pairs : list (Value * Value))
| VObject.

(** [type_info.ContentHandlerProtocol]: what [add_transcoder] documents of a
    transcoder.  The optional second argument is the character encoding. *)
Record ContentHandler : Type := mkContentHandler {
  handler_content_type : string;
  to_bytes : Value -> option string -> result (string * bytes);
  from_bytes : bytes -> option string -> result Value
}.

(** [FakeContentHandler] of tests.py. *)
Definition FakeContentHandler : ContentHandler :=
  {| handler_content_type := "";
     to_bytes := fun _ _ => Ok ("", []);
     from_bytes := fun _ _ => Ok VNone |}.

(** ** ContentSettings *)

Record ContentSettings : Type := mkContentSettings {
  _handlers : gmap string ContentHandler;
  _available_types : list ContentType;
  default_content_type : option string;
  default_encoding : option string
}.

Module Settings.

(** [ContentSettings.__init__]. *)
Definition init : ContentSettings :=
  {| _handlers := ∅;
     _available_types := [];
     default_content_type := None;
     default_encoding := None |}.

(** [ContentSettings.__getitem__]. *)
Definition getitem (self : ContentSettings) (content_type : string)
    : result ContentHandler :=
  parsed ← parse_content_type content_type;
  match _handlers self !! ContentType_str parsed with
  | Some handler => Ok handler
  | None => Raise KeyError
  end.

(** [ContentSettings.__setitem__]; the warning that is logged when the key
    is taken is not part of the state. *)
Definition setitem (self : ContentSettings) (content_type : string)
    (handler : ContentHandler) : result ContentSettings :=
  parsed ← parse_content_type content_type;
  let content_type := ContentType_str parsed in
  match _handlers self !! content_type with
  | Some _ => Ok self
  | None =>
      Ok {| _handlers := <[content_type := handler]> (_handlers self);
            _available_types := (_available_types self ++ [parsed])%list;
            default_content_type := default_content_type self;
            default_encoding := default_encoding self |}
  end.

(** [ContentSettings.get]: a lookup under the string as given. *)
Definition get (self : ContentSettings) (content_type : string)
    (default : option ContentHandler) : option ContentHandler :=
  match _handlers self !! content_type with
  | Some handler => Some handler
  | None => default
  end.

Definition available_content_types (self : ContentSettings) : list ContentType :=
  _available_types self.

Definition set_defaults (self : ContentSettings)
    (content_type encoding : option string) : ContentSettings :=
  {| _handlers := _handlers self;
     _available_types := _available_types self;
     default_content_type := content_type;
     default_encoding := encoding |}.

End Settings.

(** ** The application and the module-level functions *)

Definition SETTINGS_KEY : string := "sprockets.mixins.mediatype.ContentSettings".

(** [type_info.ApplicationProtocol]: an object with a [settings] dictionary.
    The entries of interest hold [ContentSettings] objects; the object
    stored under a key is shared by every reference to it, so a function
    that mutates the settings it fetched writes them back under the key. *)
Record Application : Type := mkApplication {
  settings : gmap string ContentSettings
}.

Definition install (application : Application)
    (default_content_type encoding : option string)
    : Application * ContentSettings :=
  match settings application !! SETTINGS_KEY with
  | Some s => (application, s)
  | None =>
      let s := Settings.set_defaults Settings.init default_content_type encoding in
      ({| settings := <[SETTINGS_KEY := s]> (settings application) |}, s)
  end.

Definition get_settings (application : Application) (force_instance : bool)
    : Application * option ContentSettings :=
  match settings application !! SETTINGS_KEY with
  | Some s => (application, Some s)
  | None =>
      if negb force_instance then (application, None)
      else let '(app, s) := install application None None in (app, Some s)
  end.

(** The settings object is mutated in place: store the new state under the
    key the object lives at. *)
Definition store_settings (application : Application) (s : ContentSettings)
    : Application :=
  {| settings := <[SETTINGS_KEY := s]> (settings application) |}.

Definition add_transcoder (application : Application)
    (transcoder : ContentHandler) (content_type : option string)
    : result unit * Application :=
  match get_settings application true with
  | (app, Some s) =>
      let key :=
        match content_type with
        | Some ct => if String.eqb ct "" then handler_content_type transcoder else ct
        | None => handler_content_type transcoder
        end in
      match Settings.setitem s key transcoder with
      | Ok s' => (Ok tt, store_settings app s')
      | Raise e => (Raise e, app)
      end
  | (app, None) => (Raise (Failure "no settings"), app)
  end.

Definition set_default_content_type (application : Application)
    (content_type : string) (encoding : option string) : Application :=
  match get_settings application true with
  | (app, Some s) =>
      store_settings app (Settings.set_defaults s (Some content_type) encoding)
  | (app, None) => app
  end.

(** Modelled from the spec: [handlers.BinaryContentHandler] is not under
    src/.  Section 4.4: it wraps a byte-based pack/unpack pair, ignores the
    character encoding and returns the registered content type unchanged. *)
Definition BinaryContentHandler (content_type : string)
    (pack : Value -> result bytes) (unpack : bytes -> result Value)
    : ContentHandler :=
  {| handler_content_type := content_type;
     to_bytes := fun v _ => b ← pack v; Ok (content_type, b);
     from_bytes := fun b _ => unpack b |}.

Definition add_binary_content_type (application : Application)
    (content_type : string) (pack : Value -> result bytes)
    (unpack : bytes -> result Value) : result unit * Application :=
  add_transcoder application (BinaryContentHandler content_type pack unpack) None.

(** ** Content negotiation, as the mixin calls into it *)

(** [headers.parse_accept] and [algorithms.select_content_type] of the
    ietfparse package: the proactive content negotiation of RFC 7231.  The
    mixin only relies on their interface: the parsed [Accept] header is
    handed back to the selection, which returns one of the available types
    or raises [errors.NoMatch]. *)
Inductive selection : Type :=
| Selected (selected : ContentType)
| NoMatch
| SelectionError (e : exn).

Class Negotiator : Type := mkNegotiator {
  acceptable : Type;
  parse_accept : string -> result acceptable;
  select_content_type : acceptable -> list ContentType -> selection
}.

(** ** ContentMixin *)

(** [tornado.httputil.HTTPServerRequest], as far as the mixin reads it: the
    headers under their canonical names and the raw body. *)
Record HTTPServerRequest : Type := mkRequest {
  headers : gmap string string;
  body : bytes
}.

(** The request handler: the application, the request, the two per-request
    caches and the response under construction. *)
Record ContentMixin : Type := mkContentMixin {
  application : Application;
  request : HTTPServerRequest;
  _request_body : Value;
  _best_response_match : option string;
  _headers : PyDict.t (list string);
  _write_buffer : list bytes
}.

Module Mixin.

Definition with_application (self : ContentMixin) (app : Application) : ContentMixin :=
  {| application := app; request := request self;
     _request_body := _request_body self;
     _best_response_match := _best_response_match self;
     _headers := _headers self; _write_buffer := _write_buffer self |}.

Definition with_request (self : ContentMixin) (req : HTTPServerRequest) : ContentMixin :=
  {| application := application self; request := req;
     _request_body := _request_body self;
     _best_response_match := _best_response_match self;
     _headers := _headers self; _write_buffer := _write_buffer self |}.

Definition with_request_body (self : ContentMixin) (v : Value) : ContentMixin :=
  {| application := application self; request := request self;
     _request_body := v;
     _best_response_match := _best_response_match self;
     _headers := _headers self; _write_buffer := _write_buffer self |}.

Definition with_best_response_match (self : ContentMixin) (m : option string)
    : ContentMixin :=
  {| application := application self; request := request self;
     _request_body := _request_body self;
     _best_response_match := m;
     _headers := _headers self; _write_buffer := _write_buffer self |}.

(** [ContentMixin.initialize]. *)
Definition initialize (self : ContentMixin) : ContentMixin :=
  with_best_response_match (with_request_body self VNone) None.

(** [RequestHandler.set_header] of tornado: the header has this single
    value from now on. *)
Definition set_header (self : ContentMixin) (name value : string) : ContentMixin :=
  {| application := application self; request := request self;
     _request_body := _request_body self;
     _best_response_match := _best_response_match self;
     _headers := PyDict.set (_headers self) name [value];
     _write_buffer := _write_buffer self |}.

(** [RequestHandler.add_header] of tornado: one more value for the header. *)
Definition add_header (self : ContentMixin) (name value : string) : ContentMixin :=
  {| application := application self; request := request self;
     _request_body := _request_body self;
     _best_response_match := _best_response_match self;
     _headers := PyDict.set (_headers self) name
                   (default [] (PyDict.get (_headers self) name) ++ [value])%list;
     _write_buffer := _write_buffer self |}.

(** [RequestHandler.write] of tornado, for a byte string and a handler
    that has not finished: one more chunk of the response body. *)
Definition write (self : ContentMixin) (chunk : bytes) : ContentMixin :=
  {| application := application self; request := request self;
     _request_body := _request_body self;
     _best_response_match := _best_response_match self;
     _headers := _headers self;
     _write_buffer := (_write_buffer self ++ [chunk])%list |}.

(** [get_settings(self.application, force_instance=True)]. *)
Definition forced_settings (self : ContentMixin) : ContentMixin * ContentSettings :=
  match get_settings (application self) true with
  | (app, Some s) => (with_application self app, s)
  | (app, None) => (with_application self app, Settings.init)
  end.

(** Python truthiness of an [Optional[str]]. *)
Definition truthy (s : option string) : bool :=
  match s with
  | Some s => negb (String.eqb s "")
  | None => false
  end.

(** The text handed to [headers.parse_accept]:
    [headers.get('Accept', default_content_type if default_content_type else '*/*')]. *)
Definition accept_header (req : HTTPServerRequest) (s : ContentSettings) : string :=
  match headers req !! "Accept" with
  | Some value => value
  | None =>
      match default_content_type s with
      | Some d => if truthy (Some d) then d else "*/*"
      | None => "*/*"
      end
  end.

(** ['/'.join([type, subtype])], then ['+'.join([that, suffix])] when the
    suffix is not [None]. *)
Definition type_subtype_suffix (ct : ContentType) : string :=
  let joined := PyStr.join "/" [content_type ct; content_subtype ct] in
  match content_suffix ct with
  | Some suffix => PyStr.join "+" [joined; suffix]
  | None => joined
  end.

Section WithNegotiator.

Context {N : Negotiator}.

Definition get_response_content_type (self : ContentMixin)
    : result (option string) * ContentMixin :=
  match _best_response_match self with
  | None =>
      let '(self, s) := forced_settings self in
      match parse_accept (accept_header (request self) s) with
      | Raise e => (Raise e, self)
      | Ok acceptable =>
          match select_content_type acceptable (Settings.available_content_types s) with
          | Selected selected =>
              let best := Some (type_subtype_suffix selected) in
              (Ok best, with_best_response_match self best)
          | NoMatch =>
              let best := default_content_type s in
              (Ok best, with_best_response_match self best)
          | SelectionError e => (Raise e, self)
          end
      end
  | Some best => (Ok (Some best), self)
  end.

Definition send_response (self : ContentMixin) (body : Value)
    (set_content_type : bool) : result unit * ContentMixin :=
  let '(self, s) := forced_settings self in
  match get_response_content_type self with
  | (Raise e, self) => (Raise e, self)
  | (Ok response_type, self) =>
      if negb (truthy response_type) then (Raise (HTTPError 415), self)
      else
        match Settings.getitem s (default "" response_type) with
        | Raise e => (Raise e, self)
        | Ok handler =>
            match to_bytes handler body None with
            | Raise e => (Raise e, self)
            | Ok (content_type, data_bytes) =>
                let self :=
                  if set_content_type
                  then add_header (set_header self "Content-Type" content_type)
                                  "Vary" "Accept"
                  else self in
                (Ok tt, write self data_bytes)
            end
        end
  end.

End WithNegotiator.

(** The text handed to [headers.parse_content_type]:
    [headers.get('Content-Type', settings.default_content_type)]. *)
Definition content_type_header (req : HTTPServerRequest) (s : ContentSettings)
    : option string :=
  match headers req !! "Content-Type" with
  | Some value => Some value
  | None => default_content_type s
  end.

Definition get_request_body (self : ContentMixin) : result Value * ContentMixin :=
  match _request_body self with
  | VNone =>
      let '(self, s) := forced_settings self in
      match content_type_header (request self) s with
      | None => (Raise TypeError, self)
      | Some header =>
          match parse_content_type header with
          | Raise e => (Raise e, self)
          | Ok content_type_header =>
              let content_type := type_subtype_suffix content_type_header in
              match Settings.getitem s content_type with
              | Raise KeyError => (Raise (HTTPError 415), self)
              | Raise e => (Raise e, self)
              | Ok handler =>
                  match from_bytes handler (body (request self)) None with
                  | Raise _ => (Raise (HTTPError 400), self)
                  | Ok v => (Ok v, with_request_body self v)
                  end
              end
          end
      end
  | cached => (Ok cached, self)
  end.

End Mixin.

(** ** The canonical binary codec *)

Module MsgPack.

Local Open Scope Z_scope.

Definition byte_of_Z (z : Z) : Byte.byte :=
  default Byte.x00 (Byte.of_N (Z.to_N (z mod 256))).

(** The [w] low-order octets of [n], most significant first: the [>]
    formats of [struct.pack]. *)
Fixpoint big_endian (w : nat) (n : Z) : bytes :=
  match w with
  | O => []
  | S w' => byte_of_Z (n / 256 ^ Z.of_nat w') :: big_endian w' n
  end.

(** [str.encode]: the octets of the text. *)
Definition encode (s : string) : bytes := list_byte_of_string s.

Definition is_ascii (s : string) : bool :=
  forallb (fun b => (Z.of_N (Byte.to_N b) <? 128)) (encode s).

Definition len (b : bytes) : Z := Z.of_nat (length b).

(** [pack_string] of tests.py: the optimal packing of a string, which the
    tests compare the transcoder's output with.  [encode('ASCII')] fails on
    other text and [struct.pack] on a length that does not fit its field. *)
Definition pack_string (obj : string) : result bytes :=
  if negb (is_ascii obj) then Raise (Failure "UnicodeEncodeError") else
  let payload := encode obj in
  let pl := len payload in
  prefix ←
    (if pl <? 2 ^ 5 then Ok [byte_of_Z (Z.lor 160 pl)]
     else if pl <? 2 ^ 8 then Ok [byte_of_Z 217; byte_of_Z pl]
     else if pl <? 2 ^ 16 then Ok (byte_of_Z 218 :: big_endian 2 pl)
     else if pl <? 2 ^ 32 then Ok (byte_of_Z 219 :: big_endian 4 pl)
     else Raise (Failure "struct.error"));
  Ok (prefix ++ payload)%list.

(** [pack_bytes] of tests.py. *)
Definition pack_bytes (payload : bytes) : result bytes :=
  let pl := len payload in
  prefix ←
    (if pl <? 2 ^ 8 then Ok [byte_of_Z 196; byte_of_Z pl]
     else if pl <? 2 ^ 16 then Ok (byte_of_Z 197 :: big_endian 2 pl)
     else if pl <? 2 ^ 32 then Ok (byte_of_Z 198 :: big_endian 4 pl)
     else Raise (Failure "struct.error"));
  Ok (prefix ++ payload)%list.

(** The integer formats of the wire format: tag octet, representable
    range and encoded size in octets.  The two fixint formats carry the
    value in the tag octet itself. *)
Inductive int_format : Type :=
| positive_fixint | negative_fixint
| uint8 | uint16 | uint32 | uint64
| int8 | int16 | int32 | int64.

Definition format_min (f : int_format) : Z :=
  match f with
  | positive_fixint => 0
  | negative_fixint => -32
  | uint8 | uint16 | uint32 | uint64 => 0
  | int8 => - 2 ^ 7
  | int16 => - 2 ^ 15
  | int32 => - 2 ^ 31
  | int64 => - 2 ^ 63
  end.

Definition format_max (f : int_format) : Z :=
  match f with
  | positive_fixint => 127
  | negative_fixint => -1
  | uint8 => 2 ^ 8 - 1
  | uint16 => 2 ^ 16 - 1
  | uint32 => 2 ^ 32 - 1
  | uint64 => 2 ^ 64 - 1
  | int8 => 2 ^ 7 - 1
  | int16 => 2 ^ 15 - 1
  | int32 => 2 ^ 31 - 1
  | int64 => 2 ^ 63 - 1
  end.

Definition format_size (f : int_format) : nat :=
  match f with
  | positive_fixint | negative_fixint => 1
  | uint8 | int8 => 2
  | uint16 | int16 => 3
  | uint32 | int32 => 5
  | uint64 | int64 => 9
  end.

Definition represents (f : int_format) (n : Z) : Prop :=
  format_min f <= n <= format_max f.

(** Modelled from the spec: the integer rule of section 4.5 (the encoder,
    [transcoders.MsgPackTranscoder.packb], is not under src/): positive
    fixint, negative fixint and the 1/2/4/8-octet unsigned and signed
    forms, the smallest that holds the value, most significant octet
    first. *)
Definition pack_int (n : Z) : result bytes :=
  if 0 <=? n then
    if n <? 2 ^ 7 then Ok [byte_of_Z n]
    else if n <? 2 ^ 8 then Ok (byte_of_Z 204 :: big_endian 1 n)
    else if n <? 2 ^ 16 then Ok (byte_of_Z 205 :: big_endian 2 n)
    else if n <? 2 ^ 32 then Ok (byte_of_Z 206 :: big_endian 4 n)
    else if n <? 2 ^ 64 then Ok (byte_of_Z 207 :: big_endian 8 n)
    else Raise (Failure "UnsupportedTypeException")
  else
    if - 32 <=? n then Ok [byte_of_Z n]
    else if - 2 ^ 7 <=? n then Ok (byte_of_Z 208 :: big_endian 1 n)
    else if - 2 ^ 15 <=? n then Ok (byte_of_Z 209 :: big_endian 2 n)
    else if - 2 ^ 31 <=? n then Ok (byte_of_Z 210 :: big_endian 4 n)
    else if - 2 ^ 63 <=? n then Ok (byte_of_Z 211 :: big_endian 8 n)
    else Raise (Failure "UnsupportedTypeException").

(** Modelled from the spec: the string rule of section 4.5: fixstr (at
    most 31 octets), str8, str16, str32 by UTF-8 length, smallest first;
    the length prefix, then the octets. *)
Definition pack_str (s : string) : result bytes :=
  let payload := encode s in
  let pl := len payload in
  prefix ←
    (if pl <? 2 ^ 5 then Ok [byte_of_Z (160 + pl)]
     else if pl <? 2 ^ 8 then Ok (byte_of_Z 217 :: big_endian 1 pl)
     else if pl <? 2 ^ 16 then Ok (byte_of_Z 218 :: big_endian 2 pl)
     else if pl <? 2 ^ 32 then Ok (byte_of_Z 219 :: big_endian 4 pl)
     else Raise (Failure "UnsupportedTypeException"));
  Ok (prefix ++ payload)%list.

(** Modelled from the spec: the byte buffer rule: bin8, bin16, bin32. *)
Definition pack_bin (payload : bytes) : result bytes :=
  let pl := len payload in
  prefix ←
    (if pl <? 2 ^ 8 then Ok (byte_of_Z 196 :: big_endian 1 pl)
     else if pl <? 2 ^ 16 then Ok (byte_of_Z 197 :: big_endian 2 pl)
     else if pl <? 2 ^ 32 then Ok (byte_of_Z 198 :: big_endian 4 pl)
     else Raise (Failure "UnsupportedTypeException"));
  Ok (prefix ++ payload)%list.

(** The header of the array family ([fix = 144], [wide = 220]) and of the
    map family ([fix = 128], [wide = 222]) for [n] elements. *)
Definition family_header (fix_tag wide_tag : Z) (n : Z) : result bytes :=
  if n <? 2 ^ 4 then Ok [byte_of_Z (fix_tag + n)]
  else if n <? 2 ^ 16 then Ok (byte_of_Z wide_tag :: big_endian 2 n)
  else if n <? 2 ^ 32 then Ok (byte_of_Z (wide_tag + 1) :: big_endian 4 n)
  else Raise (Failure "UnsupportedTypeException").

(** Modelled from the spec: section 3 counts floats among the numbers and
    section 4.5 names no width rule for them; the wire format of section 6
    holds a float in its float 64 family: the tag and the eight octets of
    the binary64 form, most significant first. *)
Definition pack_float (binary64 : Z) : result bytes :=
  if (0 <=? binary64) && (binary64 <? 2 ^ 64)
  then Ok (byte_of_Z 203 :: big_endian 8 binary64)
  else Raise (Failure "UnsupportedTypeException").

(** The encoded elements of a sequence, one after the other, and the
    encoded keys and values of a mapping, each key followed by its value. *)
Section Elements.

Variable pack_one : Value -> result bytes.

Fixpoint pack_all (l : list Value) : result bytes :=
  match l with
  | [] => Ok []
  | x :: l' => a ← pack_one x; b ← pack_all l'; Ok (a ++ b)%list
  end.

Fixpoint pack_all_pairs (l : list (Value * Value)) : result bytes :=
  match l with
  | [] => Ok []
  | (k, x) :: l' =>
      a ← pack_one k; b ← pack_one x; c ← pack_all_pairs l'; Ok (a ++ b ++ c)%list
  end.

End Elements.

(** Modelled from the spec: the encoder of section 4.5,
    [transcoders.MsgPackTranscoder.packb], which is not under src/: nil
    and the booleans have fixed single-octet codes, integers, strings and
    byte buffers (of any of the three origins) follow the rules above,
    sequences (lists, tuples, sets) and mappings are a header with the
    element count followed by the encoded elements, unique identifiers and
    timestamps are written as their strings, and any other object is a
    [TypeError]. *)
Fixpoint packb (v : Value) : result bytes :=
  match v with
  | VNone => Ok [byte_of_Z 192]
  | VBool false => Ok [byte_of_Z 194]
  | VBool true => Ok [byte_of_Z 195]
  | VInt n => pack_int n
  | VFloat x => pack_float x
  | VStr s | VUuid s | VDatetime s => pack_str s
  | VBytes b | VByteArray b | VMemoryView b => pack_bin b
  | VList items | VTuple items | VSet items =>
      header ← family_header 144 220 (Z.of_nat (length items));
      payload ← pack_all packb items;
      Ok (header ++ payload)%list
  | VDict pairs =>
      header ← family_header 128 222 (Z.of_nat (length pairs));
      payload ← pack_all_pairs packb pairs;
      Ok (header ++ payload)%list
  | VObject => Raise TypeError
  end.

(** Modelled from the spec: what the codec takes a value as before it
    writes it (section 4.5): byte arrays and memory views as byte strings,
    unique identifiers and timestamps as their strings, tuples and sets as
    lists, elements and mapping entries alike. *)
Fixpoint normalized (v : Value) : Value :=
  match v with
  | VByteArray b | VMemoryView b => VBytes b
  | VUuid s | VDatetime s => VStr s
  | VList items | VTuple items | VSet items => VList (map normalized items)
  | VDict pairs =>
      VDict (map (fun kv => (normalized (fst kv), normalized (snd kv))) pairs)
  | v => v
  end.

(** *** The wire format

    Modelled from the spec: the format families of section 4.5 and the
    forms each of them has, by where the length (or the value) is held. *)
Inductive family : Type := str_family | bin_family | array_family | map_family.

Inductive width : Type := in_tag | one_octet | two_octets | four_octets.

(** The header of the form [w] of the family for [n] octets or elements,
    when that form can hold [n]. *)
Definition length_header (fam : family) (w : width) (n : Z) : option bytes :=
  match w, fam with
  | in_tag, str_family => if n <? 2 ^ 5 then Some [byte_of_Z (160 + n)] else None
  | in_tag, array_family => if n <? 2 ^ 4 then Some [byte_of_Z (144 + n)] else None
  | in_tag, map_family => if n <? 2 ^ 4 then Some [byte_of_Z (128 + n)] else None
  | in_tag, bin_family => None
  | one_octet, str_family =>
      if n <? 2 ^ 8 then Some (byte_of_Z 217 :: big_endian 1 n) else None
  | one_octet, bin_family =>
      if n <? 2 ^ 8 then Some (byte_of_Z 196 :: big_endian 1 n) else None
  | one_octet, _ => None
  | two_octets, fam =>
      if n <? 2 ^ 16
      then Some (byte_of_Z match fam with
                           | str_family => 218 | bin_family => 197
                           | array_family => 220 | map_family => 222
                           end :: big_endian 2 n)
      else None
  | four_octets, fam =>
      if n <? 2 ^ 32
      then Some (byte_of_Z match fam with
                           | str_family => 219 | bin_family => 198
                           | array_family => 221 | map_family => 223
                           end :: big_endian 4 n)
      else None
  end.

(** The octets of the integer [n] in the format [f]. *)
Definition int_octets (f : int_format) (n : Z) : bytes :=
  match f with
  | positive_fixint | negative_fixint => [byte_of_Z n]
  | uint8 => byte_of_Z 204 :: big_endian 1 n
  | uint16 => byte_of_Z 205 :: big_endian 2 n
  | uint32 => byte_of_Z 206 :: big_endian 4 n
  | uint64 => byte_of_Z 207 :: big_endian 8 n
  | int8 => byte_of_Z 208 :: big_endian 1 n
  | int16 => byte_of_Z 209 :: big_endian 2 n
  | int32 => byte_of_Z 210 :: big_endian 4 n
  | int64 => byte_of_Z 211 :: big_endian 8 n
  end.

(** The keys and values of a mapping in the order they are written. *)
Definition flat (pairs : list (Value * Value)) : list Value :=
  List.concat (map (fun kv => [fst kv; snd kv]) pairs).

(** [encodes v b]: the octets [b] are the value [v] in one of the forms of
    the wire format that can hold it, its elements in any such forms. *)
#[warnings="-register-all"]
Inductive encodes : Value -> bytes -> Prop :=
| encodes_nil : encodes VNone [byte_of_Z 192]
| encodes_false : encodes (VBool false) [byte_of_Z 194]
| encodes_true : encodes (VBool true) [byte_of_Z 195]
| encodes_int n f : represents f n -> encodes (VInt n) (int_octets f n)
| encodes_float x :
    0 <= x < 2 ^ 64 -> encodes (VFloat x) (byte_of_Z 203 :: big_endian 8 x)
| encodes_str s w h :
    length_header str_family w (len (encode s)) = Some h ->
    encodes (VStr s) (h ++ encode s)%list
| encodes_bin b w h :
    length_header bin_family w (len b) = Some h -> encodes (VBytes b) (h ++ b)%list
| encodes_array items w h chunks :
    length_header array_family w (Z.of_nat (length items)) = Some h ->
    Forall2 encodes items chunks ->
    encodes (VList items) (h ++ List.concat chunks)%list
| encodes_map pairs w h chunks :
    length_header map_family w (Z.of_nat (length pairs)) = Some h ->
    Forall2 encodes (flat pairs) chunks ->
    encodes (VDict pairs) (h ++ List.concat chunks)%list.

(** *** Decoding

    Modelled from the spec: decode of section 4.5,
    [transcoders.MsgPackTranscoder.unpackb], which is not under src/: it
    reads the leading tag octet, dispatches to the matching family and
    decodes recursively; truncated input and an unrecognized tag octet are
    a [DecodeError].  The families read are those the encoder writes; the
    tag octets of every other one are not recognized here. *)
Definition octet (b : Byte.byte) : Z := Z.of_N (Byte.to_N b).

Definition from_big_endian (l : bytes) : Z :=
  fold_left (fun acc b => acc * 256 + octet b) l 0.

(** The value of [w] octets read as a two's complement number. *)
Definition signed (w : nat) (u : Z) : Z :=
  if u <? 2 ^ (8 * Z.of_nat w - 1) then u else u - 2 ^ (8 * Z.of_nat w).

Definition DecodeError : exn := Failure "DecodeError".

(** The next [n] octets and what follows them. *)
Definition read_octets (n : nat) (data : bytes) : result (bytes * bytes) :=
  if (length data <? n)%nat then Raise DecodeError
  else Ok (firstn n data, skipn n data).

Definition read_number (w : nat) (data : bytes) : result (Z * bytes) :=
  '(l, rest) ← read_octets w data; Ok (from_big_endian l, rest).

(** What a tag octet announces. *)
Inductive form : Type :=
| nil_form | false_form | true_form
| fixint_form (n : Z) | uint_form (w : nat) | int_form (w : nat)
| float64_form
| fixstr_form (n : Z) | str_form (w : nat)
| bin_form (w : nat)
| fixarray_form (n : Z) | array_form (w : nat)
| fixmap_form (n : Z) | map_form (w : nat)
| unknown_form.

Definition form_of_tag (t : Z) : form :=
  if t <? 128 then fixint_form t
  else if t <? 144 then fixmap_form (t - 128)
  else if t <? 160 then fixarray_form (t - 144)
  else if t <? 192 then fixstr_form (t - 160)
  else if 224 <=? t then fixint_form (t - 256)
  else match t with
       | 192 => nil_form
       | 194 => false_form
       | 195 => true_form
       | 196 => bin_form 1 | 197 => bin_form 2 | 198 => bin_form 4
       | 203 => float64_form
       | 204 => uint_form 1 | 205 => uint_form 2 | 206 => uint_form 4 | 207 => uint_form 8
       | 208 => int_form 1 | 209 => int_form 2 | 210 => int_form 4 | 211 => int_form 8
       | 217 => str_form 1 | 218 => str_form 2 | 219 => str_form 4
       | 220 => array_form 2 | 221 => array_form 4
       | 222 => map_form 2 | 223 => map_form 4
       | _ => unknown_form
       end.

(** The entries of a mapping from its keys and values read in turn. *)
Fixpoint pair_up (l : list Value) : list (Value * Value) :=
  match l with
  | k :: x :: l' => (k, x) :: pair_up l'
  | _ => []
  end.

Section Items.

Variable unpack_one : bytes -> result (Value * bytes).

Fixpoint unpack_items (n : nat) (data : bytes) : result (list Value * bytes) :=
  match n with
  | O => Ok ([], data)
  | S n' =>
      '(x, data) ← unpack_one data;
      '(xs, data) ← unpack_items n' data;
      Ok (x :: xs, data)
  end.

Definition unpack_str (n : Z) (data : bytes) : result (Value * bytes) :=
  '(l, rest) ← read_octets (Z.to_nat n) data; Ok (VStr (string_of_list_byte l), rest).

Definition unpack_bin (n : Z) (data : bytes) : result (Value * bytes) :=
  '(l, rest) ← read_octets (Z.to_nat n) data; Ok (VBytes l, rest).

Definition unpack_array (n : Z) (data : bytes) : result (Value * bytes) :=
  '(xs, rest) ← unpack_items (Z.to_nat n) data; Ok (VList xs, rest).

(** A mapping of [n] entries: [2 n] values, each key followed by its
    value. *)
Definition unpack_map (n : Z) (data : bytes) : result (Value * bytes) :=
  '(xs, rest) ← unpack_items (2 * Z.to_nat n) data; Ok (VDict (pair_up xs), rest).

Definition unpack_form (f : form) (data : bytes) : result (Value * bytes) :=
  match f with
  | nil_form => Ok (VNone, data)
  | false_form => Ok (VBool false, data)
  | true_form => Ok (VBool true, data)
  | fixint_form n => Ok (VInt n, data)
  | uint_form w => '(u, rest) ← read_number w data; Ok (VInt u, rest)
  | int_form w => '(u, rest) ← read_number w data; Ok (VInt (signed w u), rest)
  | float64_form => '(u, rest) ← read_number 8 data; Ok (VFloat u, rest)
  | fixstr_form n => unpack_str n data
  | str_form w => '(n, rest) ← read_number w data; unpack_str n rest
  | bin_form w => '(n, rest) ← read_number w data; unpack_bin n rest
  | fixarray_form n => unpack_array n data
  | array_form w => '(n, rest) ← read_number w data; unpack_array n rest
  | fixmap_form n => unpack_map n data
  | map_form w => '(n, rest) ← read_number w data; unpack_map n rest
  | unknown_form => Raise DecodeError
  end.

End Items.

(** One value from the front of [data] and what follows it; [fuel] bounds
    the nesting. *)
Fixpoint unpack (fuel : nat) (data : bytes) : result (Value * bytes) :=
  match fuel, data with
  | S fuel, tag :: data => unpack_form (unpack fuel) (form_of_tag (octet tag)) data
  | _, _ => Raise DecodeError
  end.

(** The value that the whole of [data] holds. *)
Definition unpackb (data : bytes) : result Value :=
  '(v, rest) ← unpack (length data) data;
  match rest with
  | [] => Ok v
  | _ :: _ => Raise DecodeError
  end.

(** The header [h] is that of a form of the family that can hold [n],
    and no form that can is shorter. *)
Definition narrowest (fam : family) (n : Z) (h : bytes) : Prop :=
  exists w, length_header fam w n = Some h
            /\ forall w' h', length_header fam w' n = Some h' ->
                             (length h <= length h')%nat.

(** The values the codec has a rule for: integers of the 64-bit formats,
    floats, strings, byte buffers, sequences and mappings of fewer than 2^32
    octets or elements, elements included. *)
Fixpoint supported (v : Value) : bool :=
  match v with
  | VNone | VBool _ => true
  | VInt n => (- 2 ^ 63 <=? n) && (n <? 2 ^ 64)
  | VFloat x => (0 <=? x) && (x <? 2 ^ 64)
  | VStr s | VUuid s | VDatetime s => len (encode s) <? 2 ^ 32
  | VBytes b | VByteArray b | VMemoryView b => len b <? 2 ^ 32
  | VList items | VTuple items | VSet items =>
      (Z.of_nat (length items) <? 2 ^ 32) && forallb supported items
  | VDict pairs =>
      (Z.of_nat (length pairs) <? 2 ^ 32)
      && forallb (fun kv => supported (fst kv) && supported (snd kv)) pairs
  | VObject => false
  end.

End MsgPack.

(** ** Media type strings *)

Module MediaType.

(** [tchar] of RFC 7230: the characters of a token. *)
Definition is_tchar (c : ascii) : bool :=
  PyStr.mem c
    "!#$%&'*+-.^_`|~0123456789abcdefghijklmnopqrstuvwxyzABCDEFGHIJKLMNOPQRSTUVWXYZ".

Fixpoint all_chars (p : ascii -> bool) (s : string) : bool :=
  match s with
  | EmptyString => true
  | String c s' => p c && all_chars p s'
  end.

(** A token: one or more [tchar]. *)
Definition is_token (s : string) : bool :=
  negb (String.eqb s "") && all_chars is_tchar s.

(** The [type/subtype] part: token characters and the slash. *)
Definition is_essence (s : string) : bool :=
  all_chars (fun c => is_tchar c || Ascii.eqb c "/") s.

Definition well_formed (params : list (string * string)) : Prop :=
  Forall (fun kv => is_token (fst kv) = true /\ is_token (snd kv) = true) params.

(** [; k1=v1; k2=v2]: parameters written in the given order. *)
Fixpoint render_parameters (params : list (string * string)) : string :=
  match params with
  | [] => ""
  | kv :: params' => "; " ++ fst kv ++ "=" ++ snd kv ++ render_parameters params'
  end.

(** [essence; k1=v1; k2=v2]: a media type written with its parameters in
    the given order. *)
Definition render (essence : string) (params : list (string * string)) : string :=
  essence ++ render_parameters params.

(** A parameter up to letter case. *)
Definition fold_case (kv : string * string) : string * string :=
  (PyStr.lower (fst kv), PyStr.lower (snd kv)).

(** Parameter names are pairwise distinct, letter case ignored. *)
Definition distinct_names (params : list (string * string)) : Prop :=
  NoDup (map (fun kv => PyStr.lower (fst kv)) params).

(** The key [ContentSettings] files a media type string under. *)
Definition registry_key (s : string) : result string :=
  parsed ← parse_content_type s; Ok (ContentType_str parsed).

(** A registry key that was rendered from a media type with parameters. *)
Definition has_parameters (key : string) : Prop :=
  exists ct : ContentType, parameters ct <> [] /\ key = ContentType_str ct.

(** A media type reduced to [type/subtype], with [+suffix] when it has a
    suffix, and without its parameters. *)
Definition reduced (ct : ContentType) : string :=
  content_type ct ++ "/" ++ content_subtype ct ++
  match content_suffix ct with
  | Some suffix => "+" ++ suffix
  | None => ""
  end.

End MediaType.

(** ** A negotiator for single media ranges *)

Module SingleRange.

(** Does the media range [pattern] cover [candidate]?  A [*] covers every
    type or subtype. *)
Definition covers (pattern candidate : ContentType) : bool :=
  (String.eqb (content_type pattern) "*"
   || String.eqb (content_type candidate) (content_type pattern))
  && (String.eqb (content_subtype pattern) "*"
      || String.eqb (content_subtype candidate) (content_subtype pattern)).

(** Modelled from the spec: negotiation as section 4.7 describes it
    (ietfparse's [parse_accept] and [select_content_type] are not under
    src/), for an [Accept] value that holds one media range of full
    weight: the earliest registered type that the range covers, and no
    match when it covers none. *)
#[export] Instance negotiator : Negotiator :=
  {| acceptable := ContentType;
     parse_accept := parse_content_type;
     select_content_type := fun range available =>
       match List.find (covers range) available with
       | Some selected => Selected selected
       | None => NoMatch
       end |}.

End SingleRange.

(** ** Applications and requests used in the examples *)

Module Scenario.

Definition empty_application : Application := {| settings := ∅ |}.

Definition request_with (hdrs : list (string * string)) (b : bytes)
    : HTTPServerRequest :=
  {| headers := list_to_map hdrs; body := b |}.

(** A handler as the framework creates it, after [initialize]. *)
Definition handler_for (app : Application) (req : HTTPServerRequest) : ContentMixin :=
  Mixin.initialize
    {| application := app; request := req;
       _request_body := VNone; _best_response_match := None;
       _headers := [("Content-Type", ["text/html; charset=UTF-8"])];
       _write_buffer := [] |}.

(** A transcoder for the canonical binary codec that decodes nothing but
    the empty map: enough to tell a decoded body from a failure. *)
Definition msgpack_handler : ContentHandler :=
  BinaryContentHandler "application/msgpack" MsgPack.packb
    (fun b => match b with
              | [Byte.x80] => Ok (VDict [])
              | _ => Raise (Failure "UnpackException")
              end).

Definition registered (app : Application) (content_type : string)
    (transcoder : ContentHandler) : Application :=
  snd (add_transcoder app transcoder (Some content_type)).

Definition set_request (self : ContentMixin) (hdrs : list (string * string))
    : ContentMixin :=
  Mixin.with_request self (request_with hdrs (body (request self))).

(** One transcoder, registered for JSON; no default content type. *)
Definition json_only : Application :=
  registered empty_application "application/json" FakeContentHandler.

(** The application of examples.py: JSON is the default, the binary
    transcoder is registered first. *)
Definition example_application : Application :=
  registered
    (registered
       (set_default_content_type empty_application "application/json" (Some "utf-8"))
       "application/msgpack" msgpack_handler)
    "application/json" FakeContentHandler.

(** One transcoder, registered under a media type with a parameter. *)
Definition versioned_only : Application :=
  registered empty_application "application/json; version=1" FakeContentHandler.

(** A default content type that no transcoder is registered for. *)
Definition default_without_transcoder : Application :=
  set_default_content_type empty_application "application/xml" None.

Definition settings_of (app : Application) : ContentSettings :=
  default Settings.init (settings app !! SETTINGS_KEY).

End Scenario.

(** ** Negotiation in the words of the specification *)

Section Negotiated.

Context {N : Negotiator}.

(** Section 4.7: the [Accept] value [accept] is negotiated against the
    ordered availability list of the registry; when no range matches, the
    default content type of the registry is the answer.  The selected type
    is reported as [type/subtype+suffix]. *)
Definition negotiated (accept : string) (s : ContentSettings)
    : result (option string) :=
  match parse_accept accept with
  | Raise e => Raise e
  | Ok ranges =>
      match select_content_type ranges (_available_types s) with
      | Selected selected => Ok (Some (Mixin.type_subtype_suffix selected))
      | NoMatch => Ok (default_content_type s)
      | SelectionError e => Raise e
      end
  end.

End Negotiated.

(** ** Sequences of registrations *)

(** [settings[content_type] = handler] for each pair in turn.  A
    registration that raises leaves the settings as they were. *)
Definition register_all (regs : list (string * ContentHandler))
    (s : ContentSettings) : ContentSettings :=
  fold_left
    (fun acc r =>
       match Settings.setitem acc (fst r) (snd r) with
       | Ok s' => s'
       | Raise _ => acc
       end)
    regs s.

(** The handler table and the availability list describe the same media
    types, each of them once. *)
Definition consistent (s : ContentSettings) : Prop :=
  List.NoDup (map ContentType_str (_available_types s))
  /\ forall key,
       is_Some (_handlers s !! key)
       <-> In key (map ContentType_str (_available_types s)).

(** The request of [self] with the header [name] set to [value]. *)
Definition with_header (self : ContentMixin) (name value : string) : ContentMixin :=
  Mixin.with_request self
    {| headers := <[name := value]> (headers (request self));
       body := body (request self) |}.

(** The key [add_transcoder] registers under:
    [content_type or transcoder.content_type]. *)
Definition transcoder_key (transcoder : ContentHandler) (content_type : option string)
    : string :=
  match content_type with
  | Some ct => if String.eqb ct "" then handler_content_type transcoder else ct
  | None => handler_content_type transcoder
  end.

(** ** Text content types and the example application *)

(** The [parsed.parameters] of a content type, replaced. *)
Definition with_parameters (ct : ContentType) (params : PyDict.t string) : ContentType :=
  {| content_type := content_type ct;
     content_subtype := content_subtype ct;
     content_suffix := content_suffix ct;
     parameters := params |}.

(** The parameters of a media type as written, without [charset] in any
    letter case. *)
Definition without_charset (params : list (string * string)) : list (string * string) :=
  List.filter (fun kv => negb (String.eqb "charset" (PyStr.lower (fst kv)))) params.

Section TextContent.

(** Modelled from the spec: [handlers.TextContentHandler] is not under
    src/.  Section 4.3: it wraps a string-based dump/load pair and a default
    character encoding; the functions below take the constructor as it is,
    whatever its transcoding does. *)
Variable TextContentHandler :
  string -> (Value -> result string) -> (string -> result Value) -> string ->
  ContentHandler.

Definition add_text_content_type (application : Application)
    (content_type default_encoding : string)
    (dumps : Value -> result string) (loads : string -> result Value)
    : result unit * Application :=
  match parse_content_type content_type with
  | Raise e => (Raise e, application)
  | Ok parsed =>
      let parsed := with_parameters parsed (PyDict.pop (parameters parsed) "charset") in
      let normalized := ContentType_str parsed in
      add_transcoder application
        (TextContentHandler normalized dumps loads default_encoding) None
  end.

(** [msgpack.packb], [msgpack.unpackb], [json.dumps] and [json.loads]: the
    codecs that examples.py hands to the registration functions. *)
Variable packb : Value -> result bytes.
Variable unpackb : bytes -> result Value.
Variable dumps : Value -> result string.
Variable loads : string -> result Value.

(** [web.Application] of tornado, as examples.py calls it with the handler
    list and the keyword arguments: the application it builds, or the error
    it raises. *)
Variable Kwargs : Type.
Variable web_Application : Kwargs -> result Application.

(** [make_application] of examples.py. *)
Definition make_application (kwargs : Kwargs) : result Application :=
  application ← web_Application kwargs;
  let application :=
    set_default_content_type application "application/json" (Some "utf-8") in
  match add_binary_content_type application "application/msgpack" packb unpackb with
  | (Raise e, _) => Raise e
  | (Ok _, application) =>
      match add_text_content_type application "application/json" "utf-8" dumps loads with
      | (Raise e, _) => Raise e
      | (Ok _, application) => Ok application
      end
  end.

End TextContent.

(** ** Predicates used in the statements *)

Definition parse_failure (e : exn) : Prop := e = ValueError \/ e = IndexError.

Definition plain_fields (ct : ContentType) : Prop :=
  PyStr.mem ";" (content_type ct) = false
  /\ PyStr.mem ";" (content_subtype ct) = false
  /\ match content_suffix ct with
     | Some x => PyStr.mem ";" x = false
     | None => True
     end.

Definition spaceless (s : string) : Prop :=
  MediaType.all_chars (fun c => negb (PyStr.is_space c)) s = true.

(** The element of the split header that holds the parameter [kv]. *)
Definition parameter_element (kv : string * string) : string :=
  (" " ++ fst kv ++ "=" ++ snd kv)%string.

Definition registry_invariant (d e : option string) (s : ContentSettings) : Prop :=
  consistent s
  /\ size (_handlers s) = length (_available_types s)
  /\ default_content_type s = d
  /\ default_encoding s = e.

(** The size of the header that [pack_string] puts before [pl] octets. *)
Definition string_header_size (pl : Z) : nat :=
  if (pl <? 2 ^ 5)%Z then 1
  else if (pl <? 2 ^ 8)%Z then 2
  else if (pl <? 2 ^ 16)%Z then 3
  else 5.

(** The size of the header that [pack_bytes] puts before [pl] octets. *)
Definition bytes_header_size (pl : Z) : nat :=
  if (pl <? 2 ^ 8)%Z then 2
  else if (pl <? 2 ^ 16)%Z then 3
  else 5.

(** The parameters as [__str__] writes them. *)
Definition written_parameters (d : PyDict.t string) : list (string * string) :=
  map (fun name => (name, default ""%string (PyDict.get d name)))
      (PyStr.sorted (PyDict.keys d)).

(** * Properties *)

Local Open Scope list_scope.

(** ** The behaviour the tests pin down *)

Example parse_registered_example :
  option_map ContentType_str
    (match parse_content_type "application/json; VerSion=foo; type=WhatEver" with
     | Ok ct => Some ct | Raise _ => None end)
  = Some "application/json; type=whatever; version=foo".
Proof. vm_compute. reflexivity. Qed.

Example packb_non_empty_dictionary :
  MsgPack.packb (VDict [(VStr "one", VStr "two")])
  = Ok (Byte.x81 :: Byte.xa3 :: MsgPack.encode "one" ++ Byte.xa3 :: MsgPack.encode "two")%list.
Proof. vm_compute. reflexivity. Qed.

Example packb_ints :
  MsgPack.packb (VInt (2 ^ 8)) = Ok [Byte.xcd; Byte.x01; Byte.x00]
  /\ MsgPack.packb (VInt (2 ^ 32))
     = Ok [Byte.xcf; Byte.x00; Byte.x00; Byte.x00; Byte.x01;
           Byte.x00; Byte.x00; Byte.x00; Byte.x00]
  /\ MsgPack.packb (VInt (- 1)) = Ok [Byte.xff]
  /\ MsgPack.packb (VInt (- 2 ^ 7)) = Ok [Byte.xd0; Byte.x80]
  /\ MsgPack.packb (VInt (- 2 ^ 15)) = Ok [Byte.xd1; Byte.x80; Byte.x00]
  /\ MsgPack.packb (VInt (- 2 ^ 63))
     = Ok [Byte.xd3; Byte.x80; Byte.x00; Byte.x00; Byte.x00;
           Byte.x00; Byte.x00; Byte.x00; Byte.x00]
  /\ MsgPack.packb (VList []) = Ok [Byte.x90].
Proof. vm_compute. repeat split; reflexivity. Qed.

(** ** The registry *)

Lemma getitem_parsed (s : ContentSettings) (content_type : string) (parsed : ContentType) :
  parse_content_type content_type = Ok parsed ->
  Settings.getitem s content_type =
    match _handlers s !! ContentType_str parsed with
    | Some handler => Ok handler
    | None => Raise KeyError
    end.
Proof. intros Hp. unfold Settings.getitem. rewrite Hp. reflexivity. Qed.

Lemma getitem_unparsed (s : ContentSettings) (content_type : string) (e : exn) :
  parse_content_type content_type = Raise e ->
  Settings.getitem s content_type = Raise e.
Proof. intros Hp. unfold Settings.getitem. rewrite Hp. reflexivity. Qed.

Lemma setitem_taken (s : ContentSettings) (content_type : string)
    (handler h0 : ContentHandler) (parsed : ContentType) :
  parse_content_type content_type = Ok parsed ->
  _handlers s !! ContentType_str parsed = Some h0 ->
  Settings.setitem s content_type handler = Ok s.
Proof. intros Hp Hk. unfold Settings.setitem. rewrite Hp. simpl. rewrite Hk. reflexivity. Qed.

Lemma setitem_fresh (s : ContentSettings) (content_type : string)
    (handler : ContentHandler) (parsed : ContentType) :
  parse_content_type content_type = Ok parsed ->
  _handlers s !! ContentType_str parsed = None ->
  Settings.setitem s content_type handler =
    Ok {| _handlers := <[ContentType_str parsed := handler]> (_handlers s);
          _available_types := _available_types s ++ [parsed];
          default_content_type := default_content_type s;
          default_encoding := default_encoding s |}.
Proof. intros Hp Hk. unfold Settings.setitem. rewrite Hp. simpl. rewrite Hk. reflexivity. Qed.

Lemma setitem_outcome (s s' : ContentSettings) (content_type : string)
    (handler : ContentHandler) :
  Settings.setitem s content_type handler = Ok s' ->
  exists parsed,
    parse_content_type content_type = Ok parsed
    /\ ((is_Some (_handlers s !! ContentType_str parsed) /\ s' = s)
        \/ (_handlers s !! ContentType_str parsed = None
            /\ s' = {| _handlers := <[ContentType_str parsed := handler]> (_handlers s);
                       _available_types := _available_types s ++ [parsed];
                       default_content_type := default_content_type s;
                       default_encoding := default_encoding s |})).
Proof.
  unfold Settings.setitem.
  destruct (parse_content_type content_type) as [parsed | e]; [| discriminate].
  cbn. intros H. exists parsed. split; [reflexivity |].
  destruct (_handlers s !! ContentType_str parsed) as [h |] eqn:E.
  - left. injection H as <-. split; [eexists; reflexivity | reflexivity].
  - right. injection H as <-. split; reflexivity.
Qed.

(** C2.  A registration under a normalized key that already has a handler
    changes nothing: [__setitem__] returns with the settings as they were, so
    a lookup still returns the handler registered first and the availability
    list has no new entry.  The list grows, by exactly the parsed type, only
    on the registration that finds its key free. *)
Theorem C2_second_registration_is_noop
    (s : ContentSettings) (content_type : string) (original handler : ContentHandler)
    (parsed : ContentType) :
  parse_content_type content_type = Ok parsed ->
  _handlers s !! ContentType_str parsed = Some original ->
  Settings.setitem s content_type handler = Ok s
  /\ (forall s', Settings.setitem s content_type handler = Ok s' ->
        Settings.getitem s' content_type = Ok original
        /\ Settings.available_content_types s' = Settings.available_content_types s)
  /\ (forall (fresh : ContentSettings) s',
        _handlers fresh !! ContentType_str parsed = None ->
        Settings.setitem fresh content_type handler = Ok s' ->
        Settings.available_content_types s'
          = Settings.available_content_types fresh ++ [parsed]
        /\ Settings.getitem s' content_type = Ok handler
        /\ forall later, Settings.setitem s' content_type later = Ok s').
Proof.
  intros Hp Hk.
  pose proof (setitem_taken s content_type handler original parsed Hp Hk) as Hno.
  split; [exact Hno |]. split.
  - intros s' Hs'. rewrite Hno in Hs'. injection Hs' as <-.
    split; [| reflexivity].
    rewrite (getitem_parsed _ _ _ Hp), Hk. reflexivity.
  - intros fresh s' Hfree Hs'.
    rewrite (setitem_fresh _ _ _ _ Hp Hfree) in Hs'. injection Hs' as <-.
    split; [reflexivity |]. split.
    + rewrite (getitem_parsed _ _ _ Hp). simpl. rewrite lookup_insert_eq. reflexivity.
    + intros later. eapply setitem_taken; [exact Hp |].
      simpl. apply lookup_insert_eq.
Qed.

Lemma C2_second_registration_is_noop_witness :
  let s := Scenario.settings_of Scenario.json_only in
  Settings.setitem s "application/json" Scenario.msgpack_handler = Ok s.
Proof.
  intros s.
  refine (proj1 (C2_second_registration_is_noop s "application/json"
                   FakeContentHandler Scenario.msgpack_handler
                   {| content_type := "application"; content_subtype := "json";
                      content_suffix := None; parameters := [] |} _ _)).
  - vm_compute. reflexivity.
  - vm_compute. reflexivity.
Defined.

(** ** install and get_settings *)

Lemma get_settings_forced (app : Application) :
  get_settings app true
  = (fst (install app None None), Some (snd (install app None None))).
Proof.
  unfold get_settings, install.
  destruct (settings app !! SETTINGS_KEY) as [s |]; reflexivity.
Qed.

(** C10.  With a [ContentSettings] object already in the application
    settings, [install] hands back that object and the application as it was:
    the defaults stored in it are not touched by the arguments of the call.
    The arguments are stored only by the call that creates the object. *)
Theorem C10_install_keeps_existing
    (app : Application) (existing : ContentSettings)
    (default_type encoding : option string) :
  settings app !! SETTINGS_KEY = Some existing ->
  install app default_type encoding = (app, existing)
  /\ default_content_type (snd (install app default_type encoding))
       = default_content_type existing
  /\ default_encoding (snd (install app default_type encoding))
       = default_encoding existing
  /\ get_settings app true = (app, Some existing)
  /\ (forall app0 : Application,
        settings app0 !! SETTINGS_KEY = None ->
        let (app1, created) := install app0 default_type encoding in
        settings app1 !! SETTINGS_KEY = Some created
        /\ default_content_type created = default_type
        /\ default_encoding created = encoding
        /\ forall other_type other_encoding,
             install app1 other_type other_encoding = (app1, created)).
Proof.
  intros Hin.
  assert (Hinst : install app default_type encoding = (app, existing))
    by (unfold install; rewrite Hin; reflexivity).
  rewrite Hinst. simpl.
  split; [reflexivity |]. split; [reflexivity |]. split; [reflexivity |]. split.
  - unfold get_settings. rewrite Hin. reflexivity.
  - intros app0 Hfree. unfold install at 1. rewrite Hfree.
    split; [apply lookup_insert_eq |].
    split; [reflexivity |]. split; [reflexivity |].
    intros other_type other_encoding. unfold install. simpl.
    rewrite lookup_insert_eq. reflexivity.
Qed.

Lemma C10_install_keeps_existing_witness :
  let app := fst (install Scenario.empty_application (Some "application/json") (Some "utf8")) in
  default_content_type (snd (install app (Some "application/xml") None))
  = Some "application/json".
Proof.
  intros app.
  pose proof (C10_install_keeps_existing app
                (Settings.set_defaults Settings.init (Some "application/json") (Some "utf8"))
                (Some "application/xml") None) as H.
  destruct H as (_ & H & _); [vm_compute; reflexivity |].
  rewrite H. reflexivity.
Defined.

(** ** The per-request caches *)

Lemma forced_settings_eq (self : ContentMixin) :
  Mixin.forced_settings self
  = (Mixin.with_application self (fst (install (application self) None None)),
     snd (install (application self) None None)).
Proof.
  unfold Mixin.forced_settings. rewrite get_settings_forced. reflexivity.
Qed.

Lemma response_type_cached {N : Negotiator} (self : ContentMixin) (best : string) :
  _best_response_match self = Some best ->
  Mixin.get_response_content_type self = (Ok (Some best), self).
Proof. intros H. unfold Mixin.get_response_content_type. rewrite H. reflexivity. Qed.

Lemma response_type_stored {N : Negotiator} (self self1 : ContentMixin)
    (best : option string) :
  Mixin.get_response_content_type self = (Ok best, self1) ->
  _best_response_match self1 = best.
Proof.
  unfold Mixin.get_response_content_type.
  destruct (_best_response_match self) as [b |] eqn:Hc.
  - intros [= <- <-]. exact Hc.
  - rewrite forced_settings_eq.
    destruct (parse_accept _) as [ranges | e]; [| discriminate].
    destruct (select_content_type _ _) as [sel | | e].
    + intros [= <- <-]. reflexivity.
    + intros [= <- <-]. reflexivity.
    + discriminate.
Qed.

(** C3, as the code has it.  Once a call of [get_response_content_type] has
    produced a content type, that string is in [_best_response_match], and
    every later call returns it without negotiating: whatever the request
    headers have become and whatever a negotiation would answer. *)
Theorem C3_response_type_memoized
    (N1 N2 : Negotiator) (self self1 : ContentMixin) (best : string) :
  @Mixin.get_response_content_type N1 self = (Ok (Some best), self1) ->
  _best_response_match self1 = Some best
  /\ (forall req : HTTPServerRequest,
        @Mixin.get_response_content_type N2 (Mixin.with_request self1 req)
        = (Ok (Some best), Mixin.with_request self1 req)).
Proof.
  intros H1. apply response_type_stored in H1. split; [exact H1 |].
  intros req. apply response_type_cached. exact H1.
Qed.

Lemma C3_response_type_memoized_witness :
  let self :=
    Scenario.handler_for Scenario.json_only
      (Scenario.request_with [("Accept", "application/json")] []) in
  let self1 := snd (@Mixin.get_response_content_type SingleRange.negotiator self) in
  fst (@Mixin.get_response_content_type SingleRange.negotiator
         (Scenario.set_request self1 [("Accept", "application/xml")]))
  = Ok (Some "application/json").
Proof.
  intros self self1.
  pose proof (C3_response_type_memoized SingleRange.negotiator SingleRange.negotiator
                self self1 "application/json") as H.
  destruct H as [_ H]; [vm_compute; reflexivity |].
  unfold Scenario.set_request. rewrite H. reflexivity.
Defined.

(** C3 as stated fails when the first negotiation ends without a content
    type: a request that accepts only XML, against a registry that offers
    JSON and has no default, gets [None], which is not kept; after the
    [Accept] header is changed to JSON the next call negotiates again and
    answers differently. *)
Lemma C3_counterexample :
  let self :=
    Scenario.handler_for Scenario.json_only
      (Scenario.request_with [("Accept", "application/xml")] []) in
  let first := @Mixin.get_response_content_type SingleRange.negotiator self in
  let second :=
    @Mixin.get_response_content_type SingleRange.negotiator
      (Scenario.set_request (snd first) [("Accept", "application/json")]) in
  fst first = Ok None
  /\ fst second = Ok (Some "application/json")
  /\ fst second <> fst first.
Proof. vm_compute. repeat split; congruence. Qed.

Lemma request_body_cached (self : ContentMixin) :
  _request_body self <> VNone ->
  Mixin.get_request_body self = (Ok (_request_body self), self).
Proof.
  intros H. unfold Mixin.get_request_body.
  destruct (_request_body self); try reflexivity. congruence.
Qed.

Lemma request_body_stored (self self1 : ContentMixin) (v : Value) :
  Mixin.get_request_body self = (Ok v, self1) ->
  _request_body self1 = v.
Proof.
  unfold Mixin.get_request_body.
  destruct (_request_body self) eqn:Hc;
    try (intros [= <- <-]; exact Hc).
  rewrite forced_settings_eq.
  destruct (Mixin.content_type_header _ _) as [header |]; [| discriminate].
  destruct (parse_content_type header) as [parsed | e]; [| discriminate].
  destruct (Settings.getitem _ _) as [handler | []]; try discriminate.
  destruct (from_bytes handler _ _) as [w | e]; [| discriminate].
  intros [= <- <-]. reflexivity.
Qed.

(** C4, as the code has it.  Once a call of [get_request_body] has returned
    a decoded value other than [None], that value is in [_request_body], and
    every later call returns it without decoding: whatever the request
    headers, [Content-Type] included, have become. *)
Theorem C4_request_body_memoized (self self1 : ContentMixin) (v : Value) :
  Mixin.get_request_body self = (Ok v, self1) ->
  v <> VNone ->
  _request_body self1 = v
  /\ (forall req : HTTPServerRequest,
        Mixin.get_request_body (Mixin.with_request self1 req)
        = (Ok v, Mixin.with_request self1 req)).
Proof.
  intros H1 Hv. apply request_body_stored in H1. split; [exact H1 |].
  intros req.
  rewrite (request_body_cached (Mixin.with_request self1 req)); simpl; congruence.
Qed.

Lemma C4_request_body_memoized_witness :
  let self :=
    Scenario.handler_for Scenario.example_application
      (Scenario.request_with [("Content-Type", "application/msgpack")] [Byte.x80]) in
  let self1 := snd (Mixin.get_request_body self) in
  fst (Mixin.get_request_body
         (Scenario.set_request self1 [("Content-Type", "application/json")]))
  = Ok (VDict []).
Proof.
  intros self self1.
  pose proof (C4_request_body_memoized self self1 (VDict [])) as H.
  destruct H as [_ H]; [| discriminate |].
  - rewrite (surjective_pairing (Mixin.get_request_body self)).
    f_equal; vm_compute; reflexivity.
  - unfold Scenario.set_request. rewrite H. reflexivity.
Defined.

(** C4 as stated fails when the body decodes to [None], as it does with the
    [FakeContentHandler] of the tests: [None] is also what marks the cache
    as empty, so the second call decodes again, and with the declared
    [Content-Type] changed to an unregistered type it fails with 415
    instead of returning the value of the first call. *)
Lemma C4_counterexample :
  let self :=
    Scenario.handler_for Scenario.json_only
      (Scenario.request_with [("Content-Type", "application/json")] []) in
  let first := Mixin.get_request_body self in
  let second :=
    Mixin.get_request_body
      (Scenario.set_request (snd first) [("Content-Type", "application/xml")]) in
  fst first = Ok VNone
  /\ fst second = Raise (HTTPError 415)
  /\ fst second <> fst first.
Proof. vm_compute. repeat split; congruence. Qed.

(** ** Negotiation without an Accept header *)

Lemma response_type_negotiated {N : Negotiator} (self : ContentMixin) :
  _best_response_match self = None ->
  fst (Mixin.get_response_content_type self)
  = negotiated (Mixin.accept_header (request self) (snd (Mixin.forced_settings self)))
               (snd (Mixin.forced_settings self)).
Proof.
  intros Hc. unfold Mixin.get_response_content_type, negotiated.
  rewrite Hc, forced_settings_eq. simpl.
  unfold Settings.available_content_types.
  destruct (parse_accept _) as [ranges | e]; [| reflexivity].
  destruct (select_content_type _ _); reflexivity.
Qed.

(** C5, as the code has it.  With no [Accept] header and nothing cached, the
    value that is negotiated against the availability list is the default
    content type of the settings when one is set and not empty, and [*/*]
    only otherwise. *)
Theorem C5_absent_accept_header {N : Negotiator} (self : ContentMixin) :
  _best_response_match self = None ->
  headers (request self) !! "Accept" = None ->
  let s := snd (Mixin.forced_settings self) in
  fst (Mixin.get_response_content_type self)
  = negotiated
      (match default_content_type s with
       | Some d => if String.eqb d "" then "*/*" else d
       | None => "*/*"
       end) s.
Proof.
  intros Hc Hh s. rewrite (response_type_negotiated self Hc). fold s.
  f_equal. unfold Mixin.accept_header. rewrite Hh.
  destruct (default_content_type s) as [d |]; [| reflexivity].
  simpl. destruct (String.eqb d ""); reflexivity.
Qed.

Lemma C5_absent_accept_header_witness :
  let self := Scenario.handler_for Scenario.json_only (Scenario.request_with [] []) in
  fst (@Mixin.get_response_content_type SingleRange.negotiator self)
  = @negotiated SingleRange.negotiator "*/*" (snd (Mixin.forced_settings self)).
Proof.
  intros self.
  rewrite (@C5_absent_accept_header SingleRange.negotiator self);
    [reflexivity | vm_compute; reflexivity | vm_compute; reflexivity].
Defined.

(** C5 as stated fails when a default content type is set: in the
    application of examples.py a request without [Accept] header is
    negotiated as if it had sent [application/json], the default, and gets
    JSON, where [*/*] would have selected the transcoder registered first. *)
Lemma C5_counterexample :
  let self := Scenario.handler_for Scenario.example_application (Scenario.request_with [] []) in
  let s := snd (Mixin.forced_settings self) in
  headers (request self) !! "Accept" = None
  /\ Mixin.accept_header (request self) s = "application/json"
  /\ fst (@Mixin.get_response_content_type SingleRange.negotiator self)
     = Ok (Some "application/json")
  /\ @negotiated SingleRange.negotiator "*/*" s = Ok (Some "application/msgpack")
  /\ fst (@Mixin.get_response_content_type SingleRange.negotiator self)
     <> @negotiated SingleRange.negotiator "*/*" s.
Proof. vm_compute. repeat split; congruence. Qed.

(** ** Decoding the request body *)

Lemma dequote_failure (value : string) (e : exn) :
  dequote value = Raise e -> parse_failure e.
Proof.
  unfold dequote. destruct value as [| c rest]; [intros [= <-]; right; reflexivity |].
  destruct (_ && _); discriminate.
Qed.

Lemma parse_parameter_failure (param : string) (e : exn) :
  parse_parameter param = Raise e -> parse_failure e.
Proof.
  unfold parse_parameter.
  destruct (PyStr.strip param) as [| c rest] eqn:Hs; [discriminate |].
  destruct (PyStr.split "=" (String c rest)) as [| name [| value [| ? ?]]];
    try (intros [= <-]; left; reflexivity).
  simpl. destruct (dequote _) as [v | e'] eqn:Hd; simpl; [discriminate |].
  intros [= <-]. eapply dequote_failure; eassumption.
Qed.

Lemma parse_parameter_list_failure (parts : list string) (e : exn) :
  parse_parameter_list parts = Raise e -> parse_failure e.
Proof.
  induction parts as [| p ps IH]; simpl; [discriminate |].
  destruct (parse_parameter p) as [r | e'] eqn:Hp; simpl.
  - destruct (parse_parameter_list ps) as [rest | e'']; simpl; [discriminate |].
    intros [= <-]. apply IH. reflexivity.
  - intros [= <-]. eapply parse_parameter_failure; eassumption.
Qed.

Lemma parse_content_type_failure (header : string) (e : exn) :
  parse_content_type header = Raise e -> parse_failure e.
Proof.
  unfold parse_content_type.
  destruct (PyStr.split ";" _) as [| first parts]; [intros [= <-]; left; reflexivity |].
  destruct (PyStr.split "/" first) as [| ty [| sub [| ? ?]]];
    try (intros [= <-]; left; reflexivity).
  destruct (split_suffix sub) as [ss | e'] eqn:Hs; simpl.
  - destruct (parse_parameter_list parts) as [params | e''] eqn:Hl; simpl; [discriminate |].
    intros [= <-]. eapply parse_parameter_list_failure; eassumption.
  - intros [= <-]. revert Hs. unfold split_suffix.
    destruct (PyStr.mem "+" sub); [| discriminate].
    destruct (PyStr.split "+" sub) as [| a [| b [| ? ?]]];
      try discriminate; intros [= <-]; left; reflexivity.
Qed.

Lemma getitem_failure (s : ContentSettings) (content_type : string) (e : exn) :
  Settings.getitem s content_type = Raise e -> e = KeyError \/ parse_failure e.
Proof.
  unfold Settings.getitem.
  destruct (parse_content_type content_type) as [parsed | e'] eqn:Hp; simpl.
  - destruct (_ !! _); [discriminate | intros [= <-]; left; reflexivity].
  - intros [= <-]. right. eapply parse_content_type_failure; eassumption.
Qed.

(** What [get_request_body] does on a call that finds the cache empty and a
    declared content type that parses. *)
Lemma request_body_decoded (self : ContentMixin) (header : string) (parsed : ContentType) :
  _request_body self = VNone ->
  Mixin.content_type_header (request self) (snd (Mixin.forced_settings self)) = Some header ->
  parse_content_type header = Ok parsed ->
  fst (Mixin.get_request_body self)
  = match Settings.getitem (snd (Mixin.forced_settings self))
            (Mixin.type_subtype_suffix parsed) with
    | Raise KeyError => Raise (HTTPError 415)
    | Raise e => Raise e
    | Ok handler =>
        match from_bytes handler (body (request self)) None with
        | Raise _ => Raise (HTTPError 400)
        | Ok v => Ok v
        end
    end.
Proof.
  intros Hc Hh Hp. unfold Mixin.get_request_body.
  rewrite Hc. rewrite forced_settings_eq in *. simpl in *.
  rewrite Hh, Hp.
  destruct (Settings.getitem _ _) as [handler | []]; try reflexivity.
  destruct (from_bytes handler _ _); reflexivity.
Qed.

(** C6, as the code has it.  On a call that finds no cached body and whose
    declared content type (the default one when the header is absent)
    parses, [get_request_body] fails with 415 exactly when the registry has
    no handler under [type/subtype+suffix] of the declared type, with 400
    exactly when that handler exists and its [from_bytes] fails, and
    otherwise returns what [from_bytes] returned, whole. *)
Theorem C6_request_body_errors
    (self : ContentMixin) (header : string) (parsed : ContentType) :
  _request_body self = VNone ->
  Mixin.content_type_header (request self) (snd (Mixin.forced_settings self)) = Some header ->
  parse_content_type header = Ok parsed ->
  let s := snd (Mixin.forced_settings self) in
  let key := Mixin.type_subtype_suffix parsed in
  let outcome := fst (Mixin.get_request_body self) in
  (outcome = Raise (HTTPError 415) <-> Settings.getitem s key = Raise KeyError)
  /\ (outcome = Raise (HTTPError 400) <->
      exists handler e,
        Settings.getitem s key = Ok handler
        /\ from_bytes handler (body (request self)) None = Raise e)
  /\ (forall v, outcome = Ok v <->
      exists handler,
        Settings.getitem s key = Ok handler
        /\ from_bytes handler (body (request self)) None = Ok v).
Proof.
  intros Hc Hh Hp s key outcome.
  assert (Hout : outcome = _) by exact (request_body_decoded self header parsed Hc Hh Hp).
  fold s key in Hout. rewrite Hout. clear Hout outcome.
  destruct (Settings.getitem s key) as [handler | e] eqn:Hg.
  - destruct (from_bytes handler (body (request self)) None) as [v | e] eqn:Hf.
    + split; [split; discriminate |]. split.
      * split; [discriminate |]. intros (h' & e & [= <-] & He). congruence.
      * intros w. split.
        -- intros [= <-]. exists handler. split; [reflexivity | exact Hf].
        -- intros (h' & [= <-] & Hw). congruence.
    + split; [split; discriminate |]. split.
      * split; [| reflexivity]. intros _. exists handler, e. split; [reflexivity | exact Hf].
      * intros w. split; [discriminate |]. intros (h' & [= <-] & Hw). congruence.
  - destruct (getitem_failure _ _ _ Hg) as [-> | [-> | ->]].
    + split; [split; reflexivity |]. split.
      * split; [discriminate |]. intros (h' & e & He & _). discriminate.
      * intros w. split; [discriminate |]. intros (h' & He & _). discriminate.
    + split; [split; discriminate |]. split.
      * split; [discriminate |]. intros (h' & e & He & _). discriminate.
      * intros w. split; [discriminate |]. intros (h' & He & _). discriminate.
    + split; [split; discriminate |]. split.
      * split; [discriminate |]. intros (h' & e & He & _). discriminate.
      * intros w. split; [discriminate |]. intros (h' & He & _). discriminate.
Qed.

Lemma C6_request_body_errors_witness :
  let self :=
    Scenario.handler_for Scenario.example_application
      (Scenario.request_with [("Content-Type", "application/xml")] []) in
  fst (Mixin.get_request_body self) = Raise (HTTPError 415).
Proof.
  intros self.
  refine (proj2 (proj1 (C6_request_body_errors self "application/xml"
            {| content_type := "application"; content_subtype := "xml";
               content_suffix := None; parameters := [] |} _ _ _)) _);
    vm_compute; reflexivity.
Defined.

(** C6 as stated fails for a declared content type with parameters: with a
    transcoder registered for [application/json; version=1] and a request
    that declares exactly that type, a lookup of the declared type finds the
    transcoder, and still [get_request_body] fails with 415, because it
    looks up [application/json]. *)
Lemma C6_counterexample :
  let self :=
    Scenario.handler_for Scenario.versioned_only
      (Scenario.request_with [("Content-Type", "application/json; version=1")] []) in
  let s := snd (Mixin.forced_settings self) in
  Mixin.content_type_header (request self) s = Some "application/json; version=1"
  /\ Settings.getitem s "application/json; version=1" = Ok FakeContentHandler
  /\ fst (Mixin.get_request_body self) = Raise (HTTPError 415).
Proof. vm_compute. repeat split; reflexivity. Qed.

(** ** Sending the response *)

Lemma pydict_get_set_eq {V : Type} (d : PyDict.t V) (k : string) (v : V) :
  PyDict.get (PyDict.set d k v) k = Some v.
Proof.
  induction d as [| [k' v'] d IH]; simpl.
  - rewrite String.eqb_refl. reflexivity.
  - destruct (String.eqb k k') eqn:E; simpl; rewrite E; [reflexivity | exact IH].
Qed.

Lemma pydict_get_set_ne {V : Type} (d : PyDict.t V) (k k' : string) (v : V) :
  k <> k' -> PyDict.get (PyDict.set d k v) k' = PyDict.get d k'.
Proof.
  intros Hne. induction d as [| [k0 v0] d IH]; simpl.
  - destruct (String.eqb k' k) eqn:E; [| reflexivity].
    apply String.eqb_eq in E. congruence.
  - destruct (String.eqb k k0) eqn:E; simpl.
    + apply String.eqb_eq in E. subst k0.
      destruct (String.eqb k' k) eqn:E'; [| reflexivity].
      apply String.eqb_eq in E'. congruence.
    + rewrite IH. reflexivity.
Qed.

(** Resolving the response type touches neither the response headers nor
    what was written. *)
Lemma response_type_frame {N : Negotiator} (self : ContentMixin) :
  let self1 := snd (Mixin.get_response_content_type self) in
  _headers self1 = _headers self
  /\ _write_buffer self1 = _write_buffer self
  /\ request self1 = request self.
Proof.
  unfold Mixin.get_response_content_type.
  destruct (_best_response_match self); [simpl; auto |].
  rewrite forced_settings_eq.
  destruct (parse_accept _); [| simpl; auto].
  destruct (select_content_type _ _); simpl; auto.
Qed.

Lemma forced_settings_again (self : ContentMixin) :
  Mixin.forced_settings (fst (Mixin.forced_settings self))
  = Mixin.forced_settings self.
Proof.
  rewrite !forced_settings_eq. simpl. unfold install.
  destruct (settings (application self) !! SETTINGS_KEY) as [s |] eqn:E; simpl.
  - rewrite E. destruct self; reflexivity.
  - rewrite lookup_insert_eq. reflexivity.
Qed.

(** The two outcomes of [send_response] that the code provides for. *)
Lemma send_response_outcome {N : Negotiator} (self : ContentMixin) (payload : Value)
    (set_content_type : bool) (response_type : option string) (self1 : ContentMixin) :
  Mixin.get_response_content_type (fst (Mixin.forced_settings self))
    = (Ok response_type, self1) ->
  Mixin.send_response self payload set_content_type
  = if negb (Mixin.truthy response_type) then (Raise (HTTPError 415), self1)
    else
      match Settings.getitem (snd (Mixin.forced_settings self))
              (default "" response_type) with
      | Raise e => (Raise e, self1)
      | Ok handler =>
          match to_bytes handler payload None with
          | Raise e => (Raise e, self1)
          | Ok (content_type, data_bytes) =>
              (Ok tt,
               Mixin.write
                 (if set_content_type
                  then Mixin.add_header
                         (Mixin.set_header self1 "Content-Type" content_type)
                         "Vary" "Accept"
                  else self1) data_bytes)
          end
      end.
Proof.
  intros H. unfold Mixin.send_response.
  destruct (Mixin.forced_settings self) as [self0 s] eqn:E. simpl in H.
  rewrite H. simpl. reflexivity.
Qed.

(** C7, as the code has it.  [send_response] fails with 415 when the
    resolved response type is [None] (no match and no default content type)
    or empty.  When a type is resolved, the registry holds a transcoder for
    it and [to_bytes] returns, the returned octets are written; with
    [set_content_type] the [Content-Type] header becomes the content type
    that [to_bytes] returned and [Accept] is added to [Vary], without it the
    headers stay as they were. *)
Theorem C7_send_response {N : Negotiator}
    (self self1 : ContentMixin) (payload : Value) (set_content_type : bool)
    (response_type : option string) :
  Mixin.get_response_content_type (fst (Mixin.forced_settings self))
    = (Ok response_type, self1) ->
  (Mixin.truthy response_type = false ->
     Mixin.send_response self payload set_content_type = (Raise (HTTPError 415), self1))
  /\ (forall ranges,
        _best_response_match self = None ->
        parse_accept (Mixin.accept_header (request self) (snd (Mixin.forced_settings self)))
          = Ok ranges ->
        select_content_type ranges
          (Settings.available_content_types (snd (Mixin.forced_settings self))) = NoMatch ->
        default_content_type (snd (Mixin.forced_settings self)) = None ->
        fst (Mixin.send_response self payload set_content_type) = Raise (HTTPError 415))
  /\ (forall handler content_type data_bytes,
        Mixin.truthy response_type = true ->
        Settings.getitem (snd (Mixin.forced_settings self)) (default "" response_type)
          = Ok handler ->
        to_bytes handler payload None = Ok (content_type, data_bytes) ->
        let sent := snd (Mixin.send_response self payload set_content_type) in
        fst (Mixin.send_response self payload set_content_type) = Ok tt
        /\ _write_buffer sent = _write_buffer self ++ [data_bytes]
        /\ if set_content_type
           then PyDict.get (_headers sent) "Content-Type" = Some [content_type]
                /\ PyDict.get (_headers sent) "Vary"
                   = Some (default [] (PyDict.get (_headers self) "Vary") ++ ["Accept"])
           else _headers sent = _headers self).
Proof.
  intros H.
  pose proof (send_response_outcome self payload set_content_type _ _ H) as Hout.
  pose proof (response_type_frame (fst (Mixin.forced_settings self))) as Hframe.
  rewrite H in Hframe. simpl in Hframe. destruct Hframe as (Hh & Hw & _).
  assert (Hh0 : _headers (fst (Mixin.forced_settings self)) = _headers self)
    by (rewrite forced_settings_eq; reflexivity).
  assert (Hw0 : _write_buffer (fst (Mixin.forced_settings self)) = _write_buffer self)
    by (rewrite forced_settings_eq; reflexivity).
  rewrite Hh0 in Hh. rewrite Hw0 in Hw.
  split; [| split].
  - intros Hf. rewrite Hout, Hf. reflexivity.
  - intros ranges Hc Hp Hsel Hd.
    assert (Hrt : response_type = None).
    { revert H. unfold Mixin.get_response_content_type.
      rewrite forced_settings_again.
      replace (_best_response_match (fst (Mixin.forced_settings self))) with (@None string)
        by (rewrite forced_settings_eq; simpl; congruence).
      destruct (Mixin.forced_settings self) as [self0 s] eqn:E. simpl in *.
      assert (Hreq : request self0 = request self)
        by (rewrite forced_settings_eq in E; injection E as <- _; reflexivity).
      rewrite Hreq, Hp, Hsel, Hd. intros [= <- _]. reflexivity. }
    rewrite Hout, Hrt. reflexivity.
  - intros handler content_type data_bytes Ht Hg Hb.
    rewrite Hout, Ht, Hg, Hb. simpl.
    split; [reflexivity |]. split.
    + destruct set_content_type; simpl; rewrite Hw; reflexivity.
    + destruct set_content_type; simpl; [| exact Hh].
      split.
      * rewrite pydict_get_set_ne by discriminate. apply pydict_get_set_eq.
      * rewrite pydict_get_set_eq. rewrite pydict_get_set_ne by discriminate.
        rewrite Hh. reflexivity.
Qed.

Lemma C7_send_response_witness :
  let self :=
    Scenario.handler_for Scenario.example_application
      (Scenario.request_with [("Accept", "application/msgpack")] []) in
  let sent := snd (@Mixin.send_response SingleRange.negotiator self (VDict []) true) in
  fst (@Mixin.send_response SingleRange.negotiator self (VDict []) true) = Ok tt
  /\ _write_buffer sent = _write_buffer self ++ [[Byte.x80]]
  /\ PyDict.get (_headers sent) "Content-Type" = Some ["application/msgpack"]
  /\ PyDict.get (_headers sent) "Vary"
     = Some (default [] (PyDict.get (_headers self) "Vary") ++ ["Accept"]).
Proof.
  intros self.
  refine (proj2 (proj2 (@C7_send_response SingleRange.negotiator self
            (snd (@Mixin.get_response_content_type SingleRange.negotiator
                    (fst (Mixin.forced_settings self))))
            (VDict []) true (Some "application/msgpack") _))
          Scenario.msgpack_handler "application/msgpack" [Byte.x80] _ _ _).
  - rewrite (surjective_pairing (Mixin.get_response_content_type _)).
    f_equal; vm_compute; reflexivity.
  - reflexivity.
  - reflexivity.
  - vm_compute. reflexivity.
Defined.

(** C7 as stated fails when the resolved type has no transcoder: with a
    default content type [application/xml] that nothing is registered for
    and a request without [Accept] header, a response type is resolved (the
    default), yet nothing is encoded or written and the error is the
    [KeyError] of the lookup, not a 415. *)
Lemma C7_counterexample :
  let self :=
    Scenario.handler_for Scenario.default_without_transcoder
      (Scenario.request_with [] []) in
  let '(outcome, sent) :=
    @Mixin.send_response SingleRange.negotiator self (VDict []) true in
  default_content_type (snd (Mixin.forced_settings self)) = Some "application/xml"
  /\ _best_response_match sent = Some "application/xml"
  /\ outcome = Raise KeyError
  /\ outcome <> Raise (HTTPError 415)
  /\ _write_buffer sent = [].
Proof. vm_compute. repeat split; congruence. Qed.

(** ** The canonical binary codec *)

Lemma big_endian_length (w : nat) (n : Z) : length (MsgPack.big_endian w n) = w.
Proof. induction w as [| w IH]; simpl; [reflexivity | rewrite IH; reflexivity]. Qed.

Lemma big_endian_one (n : Z) : MsgPack.big_endian 1 n = [MsgPack.byte_of_Z n].
Proof. simpl. rewrite Z.div_1_r. reflexivity. Qed.

Lemma fixstr_tag (n : nat) :
  (n < 32)%nat -> Z.lor 160 (Z.of_nat n) = (160 + Z.of_nat n)%Z.
Proof.
  intros Hn. do 32 (destruct n as [| n]; [reflexivity |]). lia.
Qed.

(** The string rule produces what [pack_string] of tests.py expects. *)
Lemma pack_str_optimal (s : string) (b : bytes) :
  MsgPack.pack_string s = Ok b -> MsgPack.pack_str s = Ok b.
Proof.
  unfold MsgPack.pack_str, MsgPack.pack_string.
  destruct (negb (MsgPack.is_ascii s)); [discriminate |].
  cbv zeta. unfold MsgPack.len.
  destruct (Z.ltb_spec (Z.of_nat (length (MsgPack.encode s))) (2 ^ 5)) as [H5 | H5].
  - rewrite fixstr_tag by (change (2 ^ 5)%Z with 32%Z in H5; lia). trivial.
  - rewrite big_endian_one.
    destruct (Z.of_nat (length (MsgPack.encode s)) <? 2 ^ 8)%Z; [trivial |].
    destruct (Z.of_nat (length (MsgPack.encode s)) <? 2 ^ 16)%Z; [trivial |].
    destruct (Z.of_nat (length (MsgPack.encode s)) <? 2 ^ 32)%Z; [trivial | discriminate].
Qed.

(** The byte buffer rule produces what [pack_bytes] of tests.py expects. *)
Lemma pack_bin_optimal (payload b : bytes) :
  MsgPack.pack_bytes payload = Ok b -> MsgPack.pack_bin payload = Ok b.
Proof.
  unfold MsgPack.pack_bin, MsgPack.pack_bytes. cbv zeta. rewrite big_endian_one.
  destruct (MsgPack.len payload <? 2 ^ 8)%Z; [trivial |].
  destruct (MsgPack.len payload <? 2 ^ 16)%Z; [trivial |].
  destruct (MsgPack.len payload <? 2 ^ 32)%Z; [trivial | discriminate].
Qed.

Local Ltac int_cases :=
  repeat match goal with
         | |- context [Z.leb ?a ?b] => destruct (Z.leb_spec a b)
         | |- context [Z.ltb ?a ?b] => destruct (Z.ltb_spec a b)
         end.

(** No format that holds the value is shorter than the one picked, and a
    value that some format holds is encoded. *)
Lemma pack_int_smallest (n : Z) (f : MsgPack.int_format) :
  MsgPack.represents f n ->
  exists b, MsgPack.pack_int n = Ok b /\ (length b <= MsgPack.format_size f)%nat.
Proof.
  unfold MsgPack.pack_int, MsgPack.represents.
  change (2 ^ 7)%Z with 128%Z; change (2 ^ 8)%Z with 256%Z;
    change (2 ^ 15)%Z with 32768%Z; change (2 ^ 16)%Z with 65536%Z;
    change (2 ^ 31)%Z with 2147483648%Z; change (2 ^ 32)%Z with 4294967296%Z;
    change (2 ^ 63)%Z with 9223372036854775808%Z;
    change (2 ^ 64)%Z with 18446744073709551616%Z.
  intros Hr.
  int_cases;
    try (eexists; split; [reflexivity |];
         destruct f; simpl in *; lia);
    destruct f; simpl in Hr; lia.
Qed.

(** ** The canonical binary codec: every form decodes, the encoder picks the
       narrowest *)

Module Codec.

Import MsgPack.
Local Open Scope Z_scope.


Lemma octet_byte_of_Z (z : Z) : octet (byte_of_Z z) = z mod 256.
Proof.
  unfold octet, byte_of_Z.
  assert (Hz : 0 <= z mod 256 < 256) by (apply Z.mod_pos_bound; lia).
  destruct (Byte.of_N (Z.to_N (z mod 256))) as [b |] eqn:E.
  - cbn. apply Byte.to_of_N in E. rewrite E. lia.
  - apply Byte.of_N_None_iff in E. lia.
Qed.

Lemma octet_small (z : Z) : 0 <= z < 256 -> octet (byte_of_Z z) = z.
Proof. intros Hz. rewrite octet_byte_of_Z. apply Z.mod_small, Hz. Qed.

Lemma pow256_pos (w : nat) : 0 < 256 ^ Z.of_nat w.
Proof. apply Z.pow_pos_nonneg; lia. Qed.

Lemma pow256_succ (w : nat) : 256 ^ Z.of_nat (S w) = 256 ^ Z.of_nat w * 256.
Proof. rewrite Nat2Z.inj_succ, Z.pow_succ_r by lia. lia. Qed.

Lemma fold_big_endian (w : nat) (n acc : Z) :
  fold_left (fun a b => a * 256 + octet b) (big_endian w n) acc
  = acc * 256 ^ Z.of_nat w + n mod 256 ^ Z.of_nat w.
Proof.
  revert acc. induction w as [| w IH]; intros acc.
  - cbn. rewrite Z.mod_1_r. lia.
  - cbn [big_endian fold_left]. rewrite IH, octet_byte_of_Z, pow256_succ.
    rewrite (Z.rem_mul_r n (256 ^ Z.of_nat w) 256) by (pose proof (pow256_pos w); lia).
    lia.
Qed.

Lemma from_big_endian_mod (w : nat) (n : Z) :
  from_big_endian (big_endian w n) = n mod 256 ^ Z.of_nat w.
Proof. unfold from_big_endian. rewrite fold_big_endian. lia. Qed.

Lemma from_big_endian_small (w : nat) (n : Z) :
  0 <= n < 256 ^ Z.of_nat w -> from_big_endian (big_endian w n) = n.
Proof. intros Hn. rewrite from_big_endian_mod. apply Z.mod_small, Hn. Qed.

Lemma read_octets_app (a rest : bytes) : read_octets (length a) (a ++ rest) = Ok (a, rest).
Proof.
  unfold read_octets. rewrite length_app.
  destruct (Nat.ltb_spec (length a + length rest) (length a)) as [H | H]; [lia |].
  rewrite firstn_app, Nat.sub_diag, firstn_all, skipn_app, Nat.sub_diag, skipn_all.
  cbn. rewrite app_nil_r. reflexivity.
Qed.

Lemma read_number_big_endian (w : nat) (n : Z) (rest : bytes) :
  read_number w (big_endian w n ++ rest) = Ok (n mod 256 ^ Z.of_nat w, rest).
Proof.
  unfold read_number.
  rewrite <- (big_endian_length w n) at 1. rewrite read_octets_app. cbn.
  rewrite from_big_endian_mod. reflexivity.
Qed.

Lemma signed_mod (w : nat) (n : Z) :
  (0 < w)%nat ->
  - 2 ^ (8 * Z.of_nat w - 1) <= n < 2 ^ (8 * Z.of_nat w - 1) ->
  signed w (n mod 256 ^ Z.of_nat w) = n.
Proof.
  intros Hw Hn. unfold signed.
  replace (256 ^ Z.of_nat w) with (2 ^ (8 * Z.of_nat w))
    by (change 256 with (2 ^ 8); rewrite <- Z.pow_mul_r by lia; reflexivity).
  assert (Hp : 2 ^ (8 * Z.of_nat w) = 2 * 2 ^ (8 * Z.of_nat w - 1)).
  { rewrite <- Z.pow_succ_r by lia. f_equal. lia. }
  assert (Hpos : 0 < 2 ^ (8 * Z.of_nat w - 1)) by (apply Z.pow_pos_nonneg; lia).
  destruct (Z.neg_nonneg_cases n) as [Hneg | Hnn].
  - assert (Hm : n mod 2 ^ (8 * Z.of_nat w) = n + 2 ^ (8 * Z.of_nat w)).
    { symmetry. apply (Z.mod_unique_pos _ _ (-1)); lia. }
    rewrite Hm. destruct (Z.ltb_spec (n + 2 ^ (8 * Z.of_nat w)) (2 ^ (8 * Z.of_nat w - 1))); lia.
  - rewrite Z.mod_small by lia.
    destruct (Z.ltb_spec n (2 ^ (8 * Z.of_nat w - 1))); lia.
Qed.

Lemma unpack_tag (fuel : nat) (t : Z) (data : bytes) :
  unpack (S fuel) (byte_of_Z t :: data)
  = unpack_form (unpack fuel) (form_of_tag (t mod 256)) data.
Proof. cbn [unpack]. rewrite octet_byte_of_Z. reflexivity. Qed.

Lemma int_octets_length (f : int_format) (n : Z) :
  length (int_octets f n) = format_size f.
Proof. destruct f; reflexivity. Qed.

Local Ltac pow2 :=
  change (2 ^ 4) with 16 in *; change (2 ^ 5) with 32 in *;
  change (2 ^ 7) with 128 in *; change (2 ^ 8) with 256 in *;
  change (2 ^ 15) with 32768 in *; change (2 ^ 16) with 65536 in *;
  change (2 ^ 31) with 2147483648 in *; change (2 ^ 32) with 4294967296 in *;
  change (2 ^ 63) with 9223372036854775808 in *;
  change (2 ^ 64) with 18446744073709551616 in *.

Lemma unpack_int (fuel : nat) (f : int_format) (n : Z) (rest : bytes) :
  represents f n ->
  unpack (S fuel) (int_octets f n ++ rest) = Ok (VInt n, rest).
Proof.
  unfold represents. intros Hr.
  destruct f; cbn [format_min format_max] in Hr; pow2;
    cbn [int_octets]; rewrite <- app_comm_cons, unpack_tag; try rewrite app_nil_l.
  - rewrite Z.mod_small by lia. unfold form_of_tag.
    destruct (Z.ltb_spec n 128); [reflexivity | lia].
  - replace (n mod 256) with (n + 256)
      by (apply (Z.mod_unique_pos _ _ (-1)); lia).
    unfold form_of_tag.
    destruct (Z.ltb_spec (n + 256) 128); [lia |].
    destruct (Z.ltb_spec (n + 256) 144); [lia |].
    destruct (Z.ltb_spec (n + 256) 160); [lia |].
    destruct (Z.ltb_spec (n + 256) 192); [lia |].
    destruct (Z.leb_spec 224 (n + 256)); [| lia].
    cbn [unpack_form]. do 2 f_equal. f_equal. lia.
  - change (form_of_tag (204 mod 256)) with (uint_form 1). cbn [unpack_form].
    rewrite read_number_big_endian. cbn [mbind result_bind rbind].
    rewrite Z.mod_small by (change (256 ^ Z.of_nat 1) with 256; lia). reflexivity.
  - change (form_of_tag (205 mod 256)) with (uint_form 2). cbn [unpack_form].
    rewrite read_number_big_endian. cbn [mbind result_bind rbind].
    rewrite Z.mod_small by (change (256 ^ Z.of_nat 2) with 65536; lia). reflexivity.
  - change (form_of_tag (206 mod 256)) with (uint_form 4). cbn [unpack_form].
    rewrite read_number_big_endian. cbn [mbind result_bind rbind].
    rewrite Z.mod_small by (change (256 ^ Z.of_nat 4) with 4294967296; lia). reflexivity.
  - change (form_of_tag (207 mod 256)) with (uint_form 8). cbn [unpack_form].
    rewrite read_number_big_endian. cbn [mbind result_bind rbind].
    rewrite Z.mod_small by (change (256 ^ Z.of_nat 8) with 18446744073709551616; lia).
    reflexivity.
  - change (form_of_tag (208 mod 256)) with (int_form 1). cbn [unpack_form].
    rewrite read_number_big_endian. cbn [mbind result_bind rbind].
    rewrite signed_mod; [reflexivity | lia |].
    change (2 ^ (8 * Z.of_nat 1 - 1)) with 128. lia.
  - change (form_of_tag (209 mod 256)) with (int_form 2). cbn [unpack_form].
    rewrite read_number_big_endian. cbn [mbind result_bind rbind].
    rewrite signed_mod; [reflexivity | lia |].
    change (2 ^ (8 * Z.of_nat 2 - 1)) with 32768. lia.
  - change (form_of_tag (210 mod 256)) with (int_form 4). cbn [unpack_form].
    rewrite read_number_big_endian. cbn [mbind result_bind rbind].
    rewrite signed_mod; [reflexivity | lia |].
    change (2 ^ (8 * Z.of_nat 4 - 1)) with 2147483648. lia.
  - change (form_of_tag (211 mod 256)) with (int_form 8). cbn [unpack_form].
    rewrite read_number_big_endian. cbn [mbind result_bind rbind].
    rewrite signed_mod; [reflexivity | lia |].
    change (2 ^ (8 * Z.of_nat 8 - 1)) with 9223372036854775808. lia.
Qed.

Lemma unpack_header (fuel : nat) (fam : family) (w : width) (n : Z) (h data : bytes) :
  0 <= n ->
  length_header fam w n = Some h ->
  unpack (S fuel) (h ++ data)
  = match fam with
    | str_family => unpack_str n data
    | bin_family => unpack_bin n data
    | array_family => unpack_array (unpack fuel) n data
    | map_family => unpack_map (unpack fuel) n data
    end.
Proof.
  intros Hn. unfold length_header. pow2.
  destruct w, fam; try discriminate;
    match goal with
    | |- context [Z.ltb n ?k] => destruct (Z.ltb_spec n k) as [Hlt | Hge]; [| discriminate]
    end;
    intros H; apply (inj Some) in H; subst h;
    rewrite <- app_comm_cons, unpack_tag; try rewrite app_nil_l.
  - rewrite Z.mod_small by lia. unfold form_of_tag.
    destruct (Z.ltb_spec (160 + n) 128); [lia |].
    destruct (Z.ltb_spec (160 + n) 144); [lia |].
    destruct (Z.ltb_spec (160 + n) 160); [lia |].
    destruct (Z.ltb_spec (160 + n) 192); [| lia].
    cbn [unpack_form]. f_equal. lia.
  - rewrite Z.mod_small by lia. unfold form_of_tag.
    destruct (Z.ltb_spec (144 + n) 128); [lia |].
    destruct (Z.ltb_spec (144 + n) 144); [lia |].
    destruct (Z.ltb_spec (144 + n) 160); [| lia].
    cbn [unpack_form]. f_equal. lia.
  - rewrite Z.mod_small by lia. unfold form_of_tag.
    destruct (Z.ltb_spec (128 + n) 128); [lia |].
    destruct (Z.ltb_spec (128 + n) 144); [| lia].
    cbn [unpack_form]. f_equal. lia.
  - change (form_of_tag (217 mod 256)) with (str_form 1). cbn [unpack_form].
    rewrite read_number_big_endian. cbn [mbind result_bind rbind].
    rewrite Z.mod_small by (change (256 ^ Z.of_nat 1) with 256; lia). reflexivity.
  - change (form_of_tag (196 mod 256)) with (bin_form 1). cbn [unpack_form].
    rewrite read_number_big_endian. cbn [mbind result_bind rbind].
    rewrite Z.mod_small by (change (256 ^ Z.of_nat 1) with 256; lia). reflexivity.
  - change (form_of_tag (218 mod 256)) with (str_form 2). cbn [unpack_form].
    rewrite read_number_big_endian. cbn [mbind result_bind rbind].
    rewrite Z.mod_small by (change (256 ^ Z.of_nat 2) with 65536; lia). reflexivity.
  - change (form_of_tag (197 mod 256)) with (bin_form 2). cbn [unpack_form].
    rewrite read_number_big_endian. cbn [mbind result_bind rbind].
    rewrite Z.mod_small by (change (256 ^ Z.of_nat 2) with 65536; lia). reflexivity.
  - change (form_of_tag (220 mod 256)) with (array_form 2). cbn [unpack_form].
    rewrite read_number_big_endian. cbn [mbind result_bind rbind].
    rewrite Z.mod_small by (change (256 ^ Z.of_nat 2) with 65536; lia). reflexivity.
  - change (form_of_tag (222 mod 256)) with (map_form 2). cbn [unpack_form].
    rewrite read_number_big_endian. cbn [mbind result_bind rbind].
    rewrite Z.mod_small by (change (256 ^ Z.of_nat 2) with 65536; lia). reflexivity.
  - change (form_of_tag (219 mod 256)) with (str_form 4). cbn [unpack_form].
    rewrite read_number_big_endian. cbn [mbind result_bind rbind].
    rewrite Z.mod_small by (change (256 ^ Z.of_nat 4) with 4294967296; lia). reflexivity.
  - change (form_of_tag (198 mod 256)) with (bin_form 4). cbn [unpack_form].
    rewrite read_number_big_endian. cbn [mbind result_bind rbind].
    rewrite Z.mod_small by (change (256 ^ Z.of_nat 4) with 4294967296; lia). reflexivity.
  - change (form_of_tag (221 mod 256)) with (array_form 4). cbn [unpack_form].
    rewrite read_number_big_endian. cbn [mbind result_bind rbind].
    rewrite Z.mod_small by (change (256 ^ Z.of_nat 4) with 4294967296; lia). reflexivity.
  - change (form_of_tag (223 mod 256)) with (map_form 4). cbn [unpack_form].
    rewrite read_number_big_endian. cbn [mbind result_bind rbind].
    rewrite Z.mod_small by (change (256 ^ Z.of_nat 4) with 4294967296; lia). reflexivity.
Qed.

Lemma length_header_size (fam : family) (w : width) (n : Z) (h : bytes) :
  length_header fam w n = Some h ->
  length h = match w with
             | in_tag => 1 | one_octet => 2 | two_octets => 3 | four_octets => 5
             end%nat.
Proof.
  unfold length_header.
  destruct w, fam; try discriminate;
    match goal with
    | |- context [Z.ltb n ?k] => destruct (Z.ltb n k); [| discriminate]
    end; intros H; apply (inj Some) in H; subst h; cbn [length];
    rewrite ?big_endian_length; reflexivity.
Qed.

Lemma unpack_str_payload (s : string) (rest : bytes) :
  unpack_str (len (encode s)) (encode s ++ rest) = Ok (VStr s, rest).
Proof.
  unfold unpack_str, len. rewrite Nat2Z.id, read_octets_app. cbn [mbind result_bind rbind].
  unfold encode. rewrite string_of_list_byte_of_string. reflexivity.
Qed.

Lemma unpack_bin_payload (b rest : bytes) :
  unpack_bin (len b) (b ++ rest) = Ok (VBytes b, rest).
Proof.
  unfold unpack_bin, len. rewrite Nat2Z.id, read_octets_app. reflexivity.
Qed.

(** Reading as many values as were written, one after the other. *)
Lemma unpack_items_chunks (unpack_one : bytes -> result (Value * bytes))
    (items : list Value) (chunks : list bytes) (rest : bytes) :
  Forall2 (fun x c => forall rest', unpack_one (c ++ rest') = Ok (x, rest')) items chunks ->
  unpack_items unpack_one (length items) (List.concat chunks ++ rest) = Ok (items, rest).
Proof.
  induction 1 as [| x c items chunks Hx _ IH]; [reflexivity |].
  cbn [length unpack_items List.concat]. rewrite <- app_assoc, Hx.
  cbn [mbind result_bind rbind]. rewrite IH. reflexivity.
Qed.

Lemma pair_up_flat (pairs : list (Value * Value)) : pair_up (flat pairs) = pairs.
Proof.
  induction pairs as [| [k x] pairs IH]; [reflexivity |].
  cbn. unfold flat in IH. rewrite IH. reflexivity.
Qed.

Lemma flat_length (pairs : list (Value * Value)) :
  length (flat pairs) = (2 * length pairs)%nat.
Proof.
  induction pairs as [| [k x] pairs IH]; [reflexivity |].
  unfold flat in *. cbn [map List.concat app length]. rewrite IH. lia.
Qed.

(** Induction over values, elements of sequences and mappings included. *)
Lemma Value_induction (P : Value -> Prop) :
  P VNone -> (forall b, P (VBool b)) -> (forall n, P (VInt n)) ->
  (forall x, P (VFloat x)) -> (forall s, P (VStr s)) -> (forall b, P (VBytes b)) ->
  (forall b, P (VByteArray b)) -> (forall b, P (VMemoryView b)) ->
  (forall s, P (VUuid s)) -> (forall s, P (VDatetime s)) ->
  (forall items, Forall P items -> P (VList items)) ->
  (forall items, Forall P items -> P (VTuple items)) ->
  (forall items, Forall P items -> P (VSet items)) ->
  (forall pairs, Forall P (flat pairs) -> P (VDict pairs)) ->
  P VObject ->
  forall v, P v.
Proof.
  intros HNone HBool HInt HFloat HStr HBytes HByteArray HMemoryView HUuid HDatetime
    HList HTuple HSet HDict HObject.
  fix IH 1. intros [| b | n | x | s | b | b | b | s | s | items | items | items | pairs |].
  - exact HNone.
  - apply HBool.
  - apply HInt.
  - apply HFloat.
  - apply HStr.
  - apply HBytes.
  - apply HByteArray.
  - apply HMemoryView.
  - apply HUuid.
  - apply HDatetime.
  - apply HList. induction items as [| x items IHitems]; constructor;
      [apply IH | exact IHitems].
  - apply HTuple. induction items as [| x items IHitems]; constructor;
      [apply IH | exact IHitems].
  - apply HSet. induction items as [| x items IHitems]; constructor;
      [apply IH | exact IHitems].
  - apply HDict. induction pairs as [| [k x] pairs IHpairs]; [constructor |].
    change (flat ((k, x) :: pairs)) with (k :: x :: flat pairs).
    constructor; [apply IH |]. constructor; [apply IH | exact IHpairs].
  - exact HObject.
Qed.

Lemma chunks_decoded (fuel : nat) (items : list Value) (chunks : list bytes) :
  Forall (fun x => forall b, encodes x b -> forall rest fuel,
            (length b <= fuel)%nat -> unpack fuel (b ++ rest) = Ok (x, rest)) items ->
  Forall2 encodes items chunks ->
  (length (List.concat chunks) <= fuel)%nat ->
  Forall2 (fun x c => forall rest, unpack fuel (c ++ rest) = Ok (x, rest)) items chunks.
Proof.
  intros HP H. revert HP. induction H as [| x c items chunks Hx _ IH]; intros HP Hlen.
  - constructor.
  - inversion HP as [| ? ? Hhead Htail]; subst.
    cbn [List.concat] in Hlen. rewrite length_app in Hlen.
    constructor.
    + intros rest. apply Hhead; [exact Hx | lia].
    + apply IH; [exact Htail | lia].
Qed.

(** Every form of the wire format that holds a value is read back as that
    value, whatever follows it. *)
Lemma unpack_encoded (v : Value) :
  forall b, encodes v b -> forall rest fuel,
    (length b <= fuel)%nat -> unpack fuel (b ++ rest) = Ok (v, rest).
Proof.
  induction v using Value_induction; intros bs Henc rest fuel Hfuel;
    inversion Henc; subst;
    (destruct fuel as [| fuel];
     [first [ rewrite int_octets_length in Hfuel; destruct f; cbn in Hfuel; lia
            | rewrite length_app in Hfuel;
              match goal with
              | Hh : length_header _ _ _ = Some _ |- _ =>
                  apply length_header_size in Hh; destruct w; lia
              end
            | cbn in Hfuel; lia ] |]).
  - rewrite <- app_comm_cons, unpack_tag. reflexivity.
  - rewrite <- app_comm_cons, unpack_tag. reflexivity.
  - rewrite <- app_comm_cons, unpack_tag. reflexivity.
  - apply unpack_int. assumption.
  - rewrite <- app_comm_cons, unpack_tag.
    change (form_of_tag (203 mod 256)) with float64_form. cbn [unpack_form].
    rewrite read_number_big_endian. cbn [mbind result_bind rbind].
    rewrite Z.mod_small by (change (256 ^ Z.of_nat 8) with 18446744073709551616;
                            change (2 ^ 64) with 18446744073709551616 in *; lia).
    reflexivity.
  - rewrite <- app_assoc.
    rewrite (unpack_header fuel str_family w (len (encode s)) h) by (unfold len; lia || assumption).
    apply unpack_str_payload.
  - rewrite <- app_assoc.
    rewrite (unpack_header fuel bin_family w (len b) h) by (unfold len; lia || assumption).
    apply unpack_bin_payload.
  - rewrite <- app_assoc.
    rewrite (unpack_header fuel array_family w (Z.of_nat (length items)) h)
      by (lia || assumption).
    unfold unpack_array. rewrite Nat2Z.id.
    rewrite (unpack_items_chunks (unpack fuel) items chunks rest); [reflexivity |].
    apply chunks_decoded; [assumption | assumption |].
    rewrite length_app in Hfuel.
    match goal with
    | Hh : length_header _ _ _ = Some _ |- _ =>
        apply length_header_size in Hh; destruct w; lia
    end.
  - rewrite <- app_assoc.
    rewrite (unpack_header fuel map_family w (Z.of_nat (length pairs)) h)
      by (lia || assumption).
    unfold unpack_map. rewrite Nat2Z.id, <- flat_length.
    rewrite (unpack_items_chunks (unpack fuel) (flat pairs) chunks rest).
    + cbn [mbind result_bind rbind]. rewrite pair_up_flat. reflexivity.
    + apply chunks_decoded; [assumption | assumption |].
      rewrite length_app in Hfuel.
      match goal with
      | Hh : length_header _ _ _ = Some _ |- _ =>
          apply length_header_size in Hh; destruct w; lia
      end.
Qed.

(** The integer rule writes the octets of one of the integer formats that
    hold the value. *)
Lemma pack_int_octets (n : Z) (b : bytes) :
  pack_int n = Ok b -> exists f, represents f n /\ b = int_octets f n.
Proof.
  unfold pack_int, represents. pow2. int_cases; intros [= <-].
  - exists positive_fixint. cbn. split; [lia | reflexivity].
  - exists uint8. cbn [format_min format_max]. pow2. split; [lia | reflexivity].
  - exists uint16. cbn [format_min format_max]. pow2. split; [lia | reflexivity].
  - exists uint32. cbn [format_min format_max]. pow2. split; [lia | reflexivity].
  - exists uint64. cbn [format_min format_max]. pow2. split; [lia | reflexivity].
  - exists negative_fixint. cbn. split; [lia | reflexivity].
  - exists int8. cbn [format_min format_max]. pow2. split; [lia | reflexivity].
  - exists int16. cbn [format_min format_max]. pow2. split; [lia | reflexivity].
  - exists int32. cbn [format_min format_max]. pow2. split; [lia | reflexivity].
  - exists int64. cbn [format_min format_max]. pow2. split; [lia | reflexivity].
Qed.

Local Ltac narrowest_case w0 :=
  exists w0; split;
  [ unfold length_header; pow2;
    repeat match goal with
           | |- context [Z.ltb ?a ?b] => destruct (Z.ltb_spec a b); try lia
           end; reflexivity
  | let w' := fresh "w'" in let h' := fresh "h'" in let H := fresh "H" in
    intros w' h' H; pose proof (length_header_size _ _ _ _ H) as Hsize;
    cbn [length]; rewrite ?big_endian_length;
    destruct w'; try lia;
    unfold length_header in H; pow2;
    repeat match type of H with
           | context [Z.ltb ?a ?b] => destruct (Z.ltb_spec a b); try lia
           end; discriminate H ].

Lemma family_header_array (n : Z) (h : bytes) :
  family_header 144 220 n = Ok h -> narrowest array_family n h.
Proof.
  unfold family_header, narrowest. pow2.
  destruct (Z.ltb_spec n 16); [intros [= <-]; narrowest_case in_tag |].
  destruct (Z.ltb_spec n 65536); [intros [= <-]; narrowest_case two_octets |].
  destruct (Z.ltb_spec n 4294967296); [intros [= <-]; narrowest_case four_octets |].
  discriminate.
Qed.

Lemma family_header_map (n : Z) (h : bytes) :
  family_header 128 222 n = Ok h -> narrowest map_family n h.
Proof.
  unfold family_header, narrowest. pow2.
  destruct (Z.ltb_spec n 16); [intros [= <-]; narrowest_case in_tag |].
  destruct (Z.ltb_spec n 65536); [intros [= <-]; narrowest_case two_octets |].
  destruct (Z.ltb_spec n 4294967296); [intros [= <-]; narrowest_case four_octets |].
  discriminate.
Qed.

Lemma pack_str_narrowest (s : string) (b : bytes) :
  pack_str s = Ok b ->
  exists h, narrowest str_family (len (encode s)) h /\ b = (h ++ encode s)%list.
Proof.
  unfold pack_str, narrowest. cbv zeta. pow2.
  set (n := len (encode s)).
  destruct (Z.ltb_spec n 32);
    [intros [= <-]; eexists; split; [narrowest_case in_tag | reflexivity] |].
  destruct (Z.ltb_spec n 256);
    [intros [= <-]; eexists; split; [narrowest_case one_octet | reflexivity] |].
  destruct (Z.ltb_spec n 65536);
    [intros [= <-]; eexists; split; [narrowest_case two_octets | reflexivity] |].
  destruct (Z.ltb_spec n 4294967296);
    [intros [= <-]; eexists; split; [narrowest_case four_octets | reflexivity] |].
  discriminate.
Qed.

Lemma pack_bin_narrowest (p b : bytes) :
  pack_bin p = Ok b ->
  exists h, narrowest bin_family (len p) h /\ b = (h ++ p)%list.
Proof.
  unfold pack_bin, narrowest. cbv zeta. pow2.
  set (n := len p).
  destruct (Z.ltb_spec n 256);
    [intros [= <-]; eexists; split; [narrowest_case one_octet | reflexivity] |].
  destruct (Z.ltb_spec n 65536);
    [intros [= <-]; eexists; split; [narrowest_case two_octets | reflexivity] |].
  destruct (Z.ltb_spec n 4294967296);
    [intros [= <-]; eexists; split; [narrowest_case four_octets | reflexivity] |].
  discriminate.
Qed.

Lemma pack_all_pairs_flat (pack_one : Value -> result bytes) (pairs : list (Value * Value)) :
  pack_all_pairs pack_one pairs = pack_all pack_one (flat pairs).
Proof.
  induction pairs as [| [k x] pairs IH]; [reflexivity |].
  change (flat ((k, x) :: pairs)) with (k :: x :: flat pairs).
  cbn [pack_all_pairs pack_all]. rewrite IH.
  destruct (pack_one k) as [a |]; [| reflexivity].
  destruct (pack_one x) as [b |]; [| reflexivity].
  destruct (pack_all pack_one (flat pairs)) as [c |]; reflexivity.
Qed.

Lemma normalized_flat (pairs : list (Value * Value)) :
  flat (map (fun kv => (normalized (fst kv), normalized (snd kv))) pairs)
  = map normalized (flat pairs).
Proof.
  induction pairs as [| [k x] pairs IH]; [reflexivity |].
  unfold flat in *. cbn [map List.concat app fst snd]. rewrite IH. reflexivity.
Qed.

Lemma pack_all_encoded (items : list Value) (payload : bytes) :
  Forall (fun x => forall b, packb x = Ok b -> encodes (normalized x) b) items ->
  pack_all packb items = Ok payload ->
  exists chunks,
    Forall2 encodes (map normalized items) chunks /\ payload = List.concat chunks.
Proof.
  intros HP. revert payload. induction HP as [| x items Hx _ IH]; intros payload.
  - intros [= <-]. exists []. split; [constructor | reflexivity].
  - cbn [pack_all].
    destruct (packb x) as [a |] eqn:Ea; [| discriminate].
    destruct (pack_all packb items) as [c |] eqn:Ec; [| discriminate].
    cbn [mbind result_bind rbind]. intros [= <-].
    destruct (IH c eq_refl) as (chunks & Hchunks & ->).
    exists (a :: chunks). split; [| reflexivity].
    cbn [map]. constructor; [apply Hx, eq_refl | exact Hchunks].
Qed.

Lemma pack_all_smallest (items : list Value) (payload : bytes) (chunks : list bytes) :
  Forall (fun x => forall b b', packb x = Ok b -> encodes (normalized x) b' ->
                                (length b <= length b')%nat) items ->
  pack_all packb items = Ok payload ->
  Forall2 encodes (map normalized items) chunks ->
  (length payload <= length (List.concat chunks))%nat.
Proof.
  intros HP. revert payload chunks.
  induction HP as [| x items Hx _ IH]; intros payload chunks.
  - intros [= <-] _. cbn. lia.
  - cbn [pack_all map].
    destruct (packb x) as [a |] eqn:Ea; [| discriminate].
    destruct (pack_all packb items) as [c |] eqn:Ec; [| discriminate].
    cbn [mbind result_bind rbind]. intros [= <-] H.
    inversion H as [| ? c' ? chunks' Hc' Hrest]; subst.
    cbn [List.concat]. rewrite !length_app.
    pose proof (Hx a c' eq_refl Hc'). pose proof (IH c chunks' eq_refl Hrest). lia.
Qed.

(** What the encoder writes is one of the forms of the wire format that
    hold the value it was given, once tuples, sets, byte arrays, memory
    views, unique identifiers and timestamps are taken as what they are
    written as. *)
Lemma packb_encodes (v : Value) :
  forall b, packb v = Ok b -> encodes (normalized v) b.
Proof.
  induction v using Value_induction; intros bs; cbn [packb normalized].
  - intros [= <-]. constructor.
  - destruct b; intros [= <-]; constructor.
  - intros H. apply pack_int_octets in H as (f & Hf & ->). constructor. exact Hf.
  - unfold pack_float.
    destruct (Z.leb_spec 0 x); [| discriminate].
    destruct (Z.ltb_spec x (2 ^ 64)); [| discriminate].
    cbn. intros [= <-]. constructor. lia.
  - intros H. apply pack_str_narrowest in H as (h & (w & Hh & _) & ->).
    econstructor. exact Hh.
  - intros H. apply pack_bin_narrowest in H as (h & (w & Hh & _) & ->).
    econstructor. exact Hh.
  - intros H. apply pack_bin_narrowest in H as (h & (w & Hh & _) & ->).
    econstructor. exact Hh.
  - intros H. apply pack_bin_narrowest in H as (h & (w & Hh & _) & ->).
    econstructor. exact Hh.
  - intros H. apply pack_str_narrowest in H as (h & (w & Hh & _) & ->).
    econstructor. exact Hh.
  - intros H. apply pack_str_narrowest in H as (h & (w & Hh & _) & ->).
    econstructor. exact Hh.
  - destruct (family_header 144 220 _) as [h |] eqn:Eh; [| discriminate].
    destruct (pack_all packb items) as [payload |] eqn:Ep; [| discriminate].
    cbn [mbind result_bind rbind]. intros [= <-].
    apply family_header_array in Eh as (w & Hh & _).
    destruct (pack_all_encoded items payload H Ep) as (chunks & Hchunks & ->).
    apply (encodes_array _ w); [rewrite length_map; exact Hh | exact Hchunks].
  - destruct (family_header 144 220 _) as [h |] eqn:Eh; [| discriminate].
    destruct (pack_all packb items) as [payload |] eqn:Ep; [| discriminate].
    cbn [mbind result_bind rbind]. intros [= <-].
    apply family_header_array in Eh as (w & Hh & _).
    destruct (pack_all_encoded items payload H Ep) as (chunks & Hchunks & ->).
    apply (encodes_array _ w); [rewrite length_map; exact Hh | exact Hchunks].
  - destruct (family_header 144 220 _) as [h |] eqn:Eh; [| discriminate].
    destruct (pack_all packb items) as [payload |] eqn:Ep; [| discriminate].
    cbn [mbind result_bind rbind]. intros [= <-].
    apply family_header_array in Eh as (w & Hh & _).
    destruct (pack_all_encoded items payload H Ep) as (chunks & Hchunks & ->).
    apply (encodes_array _ w); [rewrite length_map; exact Hh | exact Hchunks].
  - destruct (family_header 128 222 _) as [h |] eqn:Eh; [| discriminate].
    rewrite pack_all_pairs_flat.
    destruct (pack_all packb (flat pairs)) as [payload |] eqn:Ep; [| discriminate].
    cbn [mbind result_bind rbind]. intros [= <-].
    apply family_header_map in Eh as (w & Hh & _).
    destruct (pack_all_encoded (flat pairs) payload H Ep) as (chunks & Hchunks & ->).
    apply (encodes_map _ w); [rewrite length_map; exact Hh |].
    rewrite normalized_flat. exact Hchunks.
  - discriminate.
Qed.

(** No form of the wire format that holds the value is shorter than what
    the encoder writes. *)
Lemma packb_smallest (v : Value) :
  forall b b', packb v = Ok b -> encodes (normalized v) b' ->
               (length b <= length b')%nat.
Proof.
  assert (Hstr : forall s b b', pack_str s = Ok b -> encodes (VStr s) b' ->
                                (length b <= length b')%nat).
  { intros s b b' H Henc. apply pack_str_narrowest in H as (h & (w & _ & Hmin) & ->).
    inversion Henc as [| | | | | ? w' h' Hh' | | |]; subst.
    rewrite !length_app. pose proof (Hmin w' h' Hh'). lia. }
  assert (Hbin : forall p b b', pack_bin p = Ok b -> encodes (VBytes p) b' ->
                                (length b <= length b')%nat).
  { intros p b b' H Henc. apply pack_bin_narrowest in H as (h & (w & _ & Hmin) & ->).
    inversion Henc as [| | | | | | ? w' h' Hh' | |]; subst.
    rewrite !length_app. pose proof (Hmin w' h' Hh'). lia. }
  assert (Harray : forall items b b',
            Forall (fun x => forall b b', packb x = Ok b -> encodes (normalized x) b' ->
                                          (length b <= length b')%nat) items ->
            (header ← family_header 144 220 (Z.of_nat (length items));
             payload ← pack_all packb items; Ok (header ++ payload)) = Ok b ->
            encodes (VList (map normalized items)) b' ->
            (length b <= length b')%nat).
  { intros items b b' HP.
    destruct (family_header 144 220 _) as [h |] eqn:Eh; [| discriminate].
    destruct (pack_all packb items) as [payload |] eqn:Ep; [| discriminate].
    cbn [mbind result_bind rbind]. intros [= <-] Henc.
    apply family_header_array in Eh as (w & _ & Hmin).
    inversion Henc as [| | | | | | | ? w' h' chunks Hh' Hchunks |]; subst.
    rewrite length_map in Hh'. rewrite !length_app.
    pose proof (Hmin w' h' Hh').
    pose proof (pack_all_smallest items payload chunks HP Ep Hchunks). lia. }
  induction v using Value_induction; intros bs bs'; cbn [packb normalized];
    try (apply Hstr); try (apply Hbin); try (apply Harray; assumption).
  - intros [= <-] Henc. inversion Henc; subst. reflexivity.
  - destruct b; intros [= <-] Henc; inversion Henc; subst; reflexivity.
  - intros H Henc. inversion Henc as [| | | ? f Hf | | | | |]; subst.
    rewrite int_octets_length.
    destruct (pack_int_smallest n f Hf) as (b0 & Hb0 & Hle).
    rewrite H in Hb0. injection Hb0 as <-. exact Hle.
  - unfold pack_float.
    destruct ((0 <=? x) && (x <? 2 ^ 64))%bool; [| discriminate].
    intros [= <-] Henc. inversion Henc; subst. reflexivity.
  - destruct (family_header 128 222 _) as [h |] eqn:Eh; [| discriminate].
    rewrite pack_all_pairs_flat.
    destruct (pack_all packb (flat pairs)) as [payload |] eqn:Ep; [| discriminate].
    cbn [mbind result_bind rbind]. intros [= <-] Henc.
    apply family_header_map in Eh as (w & _ & Hmin).
    inversion Henc as [| | | | | | | | ? w' h' chunks Hh' Hchunks]; subst.
    rewrite length_map in Hh'. rewrite normalized_flat in Hchunks.
    rewrite !length_app.
    pose proof (Hmin w' h' Hh').
    pose proof (pack_all_smallest (flat pairs) payload chunks H Ep Hchunks). lia.
  - discriminate.
Qed.

Lemma pack_all_returns (items : list Value) :
  Forall (fun x => supported x = true <-> exists b, packb x = Ok b) items ->
  (forallb supported items = true <-> exists b, pack_all packb items = Ok b).
Proof.
  induction 1 as [| x items Hx _ IH]; cbn [forallb pack_all].
  - split; [intros _; eexists; reflexivity | reflexivity].
  - rewrite andb_true_iff, Hx, IH. split.
    + intros [[a Ha] [c Hc]]. rewrite Ha, Hc. eexists. reflexivity.
    + destruct (packb x) as [a |]; [| intros [? [=]]].
      destruct (pack_all packb items) as [c |]; [| intros [? [=]]].
      intros _. split; eexists; reflexivity.
Qed.

Lemma supported_flat (pairs : list (Value * Value)) :
  forallb (fun kv => supported (fst kv) && supported (snd kv))%bool pairs
  = forallb supported (flat pairs).
Proof.
  induction pairs as [| [k x] pairs IH]; [reflexivity |].
  change (flat ((k, x) :: pairs)) with (k :: x :: flat pairs).
  cbn [forallb fst snd]. rewrite IH, andb_assoc. reflexivity.
Qed.

Lemma family_header_returns (fix_tag wide_tag n : Z) :
  (n <? 2 ^ 32) = true <-> exists h, family_header fix_tag wide_tag n = Ok h.
Proof.
  unfold family_header. pow2.
  destruct (Z.ltb_spec n 16); [split; [eexists; reflexivity | intros _; apply Z.ltb_lt; lia] |].
  destruct (Z.ltb_spec n 65536);
    [split; [eexists; reflexivity | intros _; apply Z.ltb_lt; lia] |].
  destruct (Z.ltb_spec n 4294967296);
    [split; [eexists; reflexivity | intros _; reflexivity] |].
  split; [discriminate | intros [? [=]]].
Qed.

(** The encoder returns exactly for the values it supports. *)
Lemma packb_returns (v : Value) :
  supported v = true <-> exists b, packb v = Ok b.
Proof.
  assert (Harray : forall items,
            Forall (fun x => supported x = true <-> exists b, packb x = Ok b) items ->
            ((Z.of_nat (length items) <? 2 ^ 32) && forallb supported items = true
             <-> exists b,
                   (header ← family_header 144 220 (Z.of_nat (length items));
                    payload ← pack_all packb items; Ok (header ++ payload)) = Ok b)).
  { intros items HP. rewrite andb_true_iff, (family_header_returns 144 220),
      (pack_all_returns items HP). split.
    - intros [[h Hh] [c Hc]]. rewrite Hh, Hc. eexists. reflexivity.
    - destruct (family_header 144 220 _) as [h |]; [| intros [? [=]]].
      destruct (pack_all packb items) as [c |]; [| intros [? [=]]].
      intros _. split; eexists; reflexivity. }
  assert (Hstr : forall s, (len (encode s) <? 2 ^ 32) = true
                           <-> exists b, pack_str s = Ok b).
  { intros s. unfold pack_str. cbv zeta. pow2.
    set (n := len (encode s)).
    destruct (Z.ltb_spec n 32);
      [split; [eexists; reflexivity | intros _; apply Z.ltb_lt; lia] |].
    destruct (Z.ltb_spec n 256);
      [split; [eexists; reflexivity | intros _; apply Z.ltb_lt; lia] |].
    destruct (Z.ltb_spec n 65536);
      [split; [eexists; reflexivity | intros _; apply Z.ltb_lt; lia] |].
    destruct (Z.ltb_spec n 4294967296);
      [split; [eexists; reflexivity | intros _; reflexivity] |].
    split; [discriminate | intros [? [=]]]. }
  assert (Hbin : forall p, (len p <? 2 ^ 32) = true <-> exists b, pack_bin p = Ok b).
  { intros p. unfold pack_bin. cbv zeta. pow2.
    set (n := len p).
    destruct (Z.ltb_spec n 256);
      [split; [eexists; reflexivity | intros _; apply Z.ltb_lt; lia] |].
    destruct (Z.ltb_spec n 65536);
      [split; [eexists; reflexivity | intros _; apply Z.ltb_lt; lia] |].
    destruct (Z.ltb_spec n 4294967296);
      [split; [eexists; reflexivity | intros _; reflexivity] |].
    split; [discriminate | intros [? [=]]]. }
  induction v using Value_induction; cbn [supported packb];
    try (apply Hstr); try (apply Hbin); try (apply Harray; assumption).
  - split; [eexists; reflexivity | reflexivity].
  - destruct b; (split; [eexists; reflexivity | reflexivity]).
  - unfold pack_int. pow2.
    destruct (Z.leb_spec (-9223372036854775808) n);
      destruct (Z.ltb_spec n 18446744073709551616); cbn [andb];
      int_cases; try lia;
      first [ split; [eexists; reflexivity | reflexivity]
            | split; [discriminate | intros [? [=]]] ].
  - unfold pack_float.
    destruct ((0 <=? x) && (x <? 2 ^ 64))%bool;
      [split; [eexists; reflexivity | reflexivity]
      | split; [discriminate | intros [? [=]]]].
  - rewrite andb_true_iff, (family_header_returns 128 222), supported_flat,
      (pack_all_returns (flat pairs) H), pack_all_pairs_flat. split.
    + intros [[h Hh] [c Hc]]. rewrite Hh, Hc. eexists. reflexivity.
    + destruct (family_header 128 222 _) as [h |]; [| intros [? [=]]].
      destruct (pack_all packb (flat pairs)) as [c |]; [| intros [? [=]]].
      intros _. split; eexists; reflexivity.
  - split; [discriminate | intros [? [=]]].
Qed.

(** Every form of the wire format that holds a value decodes to it. *)
Lemma unpackb_encoded (v : Value) (b : bytes) : encodes v b -> unpackb b = Ok v.
Proof.
  intros H. unfold unpackb.
  rewrite <- (app_nil_r b) at 2.
  rewrite (unpack_encoded v b H [] (length b)) by lia. reflexivity.
Qed.

End Codec.




(** ** Characters of the pieces of a parsed media type *)

Lemma mem_app (c : ascii) (a b : string) :
  PyStr.mem c (a ++ b)%string = PyStr.mem c a || PyStr.mem c b.
Proof.
  induction a as [| d a IH]; simpl; [reflexivity |].
  rewrite IH, orb_assoc. reflexivity.
Qed.

Lemma split_nonempty (sep : ascii) (s : string) : PyStr.split sep s <> [].
Proof.
  induction s as [| c s IH]; simpl; [discriminate |].
  destruct (Ascii.eqb c sep); [discriminate |].
  destruct (PyStr.split sep s); [congruence | discriminate].
Qed.

(** A piece of a split holds only characters of the string that was split. *)
Lemma split_piece_sub (sep c : ascii) (s p : string) :
  In p (PyStr.split sep s) -> PyStr.mem c p = true -> PyStr.mem c s = true.
Proof.
  revert p. induction s as [| d s IH]; simpl; intros p Hin Hc.
  - destruct Hin as [<- | []]. discriminate.
  - destruct (Ascii.eqb d sep).
    + destruct Hin as [<- | Hin]; [discriminate |].
      rewrite (IH p Hin Hc). apply orb_true_r.
    + destruct (PyStr.split sep s) as [| q qs] eqn:E.
      * destruct Hin as [<- | []]. simpl in Hc. rewrite orb_false_r in Hc.
        rewrite Hc. reflexivity.
      * destruct Hin as [<- | Hin].
        -- simpl in Hc. apply orb_true_iff in Hc as [Hc | Hc].
           ++ rewrite Hc. reflexivity.
           ++ rewrite (IH q (or_introl eq_refl) Hc). apply orb_true_r.
        -- rewrite (IH p (or_intror Hin) Hc). apply orb_true_r.
Qed.

(** No piece of a split holds the separator. *)
Lemma split_piece_no_sep (sep : ascii) (s p : string) :
  In p (PyStr.split sep s) -> PyStr.mem sep p = false.
Proof.
  revert p. induction s as [| d s IH]; simpl; intros p Hin.
  - destruct Hin as [<- | []]. reflexivity.
  - destruct (Ascii.eqb d sep) eqn:Ed.
    + destruct Hin as [<- | Hin]; [reflexivity | apply IH, Hin].
    + destruct (PyStr.split sep s) as [| q qs] eqn:E.
      * destruct Hin as [<- | []]. simpl. rewrite Ascii.eqb_sym, Ed. reflexivity.
      * destruct Hin as [<- | Hin].
        -- simpl. rewrite Ascii.eqb_sym, Ed. simpl. apply IH. left. reflexivity.
        -- apply IH. right. exact Hin.
Qed.

(** A string without the separator is its own single piece. *)
Lemma split_without_sep (sep : ascii) (s : string) :
  PyStr.mem sep s = false -> PyStr.split sep s = [s].
Proof.
  induction s as [| d s IH]; simpl; [reflexivity |].
  intros H. apply orb_false_iff in H as [Hd Hs].
  rewrite Ascii.eqb_sym, Hd, (IH Hs). reflexivity.
Qed.

Lemma lstrip_sub (c : ascii) (s : string) :
  PyStr.mem c (PyStr.lstrip s) = true -> PyStr.mem c s = true.
Proof.
  induction s as [| d s IH]; simpl; [trivial |].
  destruct (PyStr.is_space d); [| trivial].
  intros H. rewrite (IH H). apply orb_true_r.
Qed.

Lemma rstrip_sub (c : ascii) (s : string) :
  PyStr.mem c (PyStr.rstrip s) = true -> PyStr.mem c s = true.
Proof.
  induction s as [| d s IH]; simpl; [trivial |].
  destruct (PyStr.rstrip s) as [| e r].
  - destruct (PyStr.is_space d); simpl; [discriminate |].
    rewrite orb_false_r. intros ->. reflexivity.
  - simpl. intros H. apply orb_true_iff in H as [H | H].
    + rewrite H. reflexivity.
    + rewrite (IH H). apply orb_true_r.
Qed.

Lemma strip_sub (c : ascii) (s : string) :
  PyStr.mem c (PyStr.strip s) = true -> PyStr.mem c s = true.
Proof. intros H. apply lstrip_sub, rstrip_sub, H. Qed.

Lemma lower_char_semicolon (d : ascii) :
  PyStr.lower_char d = ";"%char -> d = ";"%char.
Proof.
  destruct d as [[] [] [] [] [] [] [] []]; vm_compute; intros H;
    first [reflexivity | discriminate H].
Qed.

Lemma lower_semicolon (s : string) :
  PyStr.mem ";" (PyStr.lower s) = true -> PyStr.mem ";" s = true.
Proof.
  induction s as [| d s IH]; cbn [PyStr.lower PyStr.mem]; [trivial |].
  intros H. apply orb_true_iff in H as [H | H].
  - apply Ascii.eqb_eq in H. symmetry in H. apply lower_char_semicolon in H.
    subst d. reflexivity.
  - rewrite (IH H). apply orb_true_r.
Qed.

Lemma remove_comments_sub (c : ascii) (s : string) (skip : nat) :
  PyStr.mem c (remove_comments_from skip s) = true -> PyStr.mem c s = true.
Proof.
  revert skip. induction s as [| d s IH]; simpl; intros skip; [trivial |].
  destruct skip as [| k].
  - destruct (Ascii.eqb d "(").
    + destruct (last_close s) as [n |].
      * intros H. rewrite (IH _ H). apply orb_true_r.
      * simpl. intros H. apply orb_true_iff in H as [H | H].
        -- rewrite H. reflexivity.
        -- rewrite (IH _ H). apply orb_true_r.
    + simpl. intros H. apply orb_true_iff in H as [H | H].
      * rewrite H. reflexivity.
      * rewrite (IH _ H). apply orb_true_r.
  - intros H. rewrite (IH _ H). apply orb_true_r.
Qed.

Lemma not_mem (c : ascii) (s t : string) :
  (PyStr.mem c t = true -> PyStr.mem c s = true) ->
  PyStr.mem c s = false -> PyStr.mem c t = false.
Proof. destruct (PyStr.mem c t); [intros H Hs; rewrite H in Hs by reflexivity; discriminate | trivial]. Qed.

(** A cleaned field, [field.strip().lower()], of a piece without [;]. *)
Lemma clean_field_no_semicolon (s : string) :
  PyStr.mem ";" s = false -> PyStr.mem ";" (PyStr.lower (PyStr.strip s)) = false.
Proof.
  apply not_mem. intros H. apply strip_sub, lower_semicolon, H.
Qed.

(** Type, subtype and suffix of a parsed media type hold no [;]. *)
Lemma parsed_plain_fields (src : string) (ct : ContentType) :
  parse_content_type src = Ok ct -> plain_fields ct.
Proof.
  unfold parse_content_type.
  destruct (PyStr.split ";" (remove_comments src)) as [| first parts] eqn:Es;
    [discriminate |].
  assert (Hfirst : PyStr.mem ";" first = false).
  { apply (split_piece_no_sep ";" (remove_comments src)). rewrite Es. left. reflexivity. }
  destruct (PyStr.split "/" first) as [| ty [| sub [| ? ?]]] eqn:Et; try discriminate.
  assert (Hty : PyStr.mem ";" ty = false).
  { eapply not_mem; [| exact Hfirst].
    apply (split_piece_sub "/" ";" first). rewrite Et. left. reflexivity. }
  assert (Hsub : PyStr.mem ";" sub = false).
  { eapply not_mem; [| exact Hfirst].
    apply (split_piece_sub "/" ";" first). rewrite Et. right. left. reflexivity. }
  destruct (split_suffix sub) as [[s x] | e] eqn:Ex; simpl; [| discriminate].
  destruct (parse_parameter_list parts) as [params | e]; simpl; [| discriminate].
  intros [= <-]. unfold plain_fields. simpl.
  revert Ex. unfold split_suffix.
  destruct (PyStr.mem "+" sub).
  - destruct (PyStr.split "+" sub) as [| a [| b [| ? ?]]] eqn:Ep; try discriminate.
    intros [= <- <-]. simpl.
    split; [apply clean_field_no_semicolon, Hty |].
    split; apply clean_field_no_semicolon.
    + eapply not_mem; [| exact Hsub].
      apply (split_piece_sub "+" ";" sub). rewrite Ep. left. reflexivity.
    + eapply not_mem; [| exact Hsub].
      apply (split_piece_sub "+" ";" sub). rewrite Ep. right. left. reflexivity.
  - intros [= <- <-]. simpl.
    split; [apply clean_field_no_semicolon, Hty |].
    split; [apply clean_field_no_semicolon, Hsub | exact I].
Qed.

Lemma type_subtype_suffix_plain (ct : ContentType) :
  plain_fields ct -> PyStr.mem ";" (Mixin.type_subtype_suffix ct) = false.
Proof.
  intros (Ht & Hs & Hx). unfold Mixin.type_subtype_suffix. simpl.
  destruct (content_suffix ct) as [x |]; simpl;
    rewrite ?mem_app; simpl; rewrite ?mem_app; simpl; rewrite ?Ht, ?Hs, ?Hx; reflexivity.
Qed.

(** A string without [;] parses to a media type without parameters. *)
Lemma parsed_without_parameters (s : string) (ct : ContentType) :
  PyStr.mem ";" s = false -> parse_content_type s = Ok ct -> parameters ct = [].
Proof.
  intros Hs. unfold parse_content_type.
  rewrite split_without_sep
    by (eapply not_mem; [apply remove_comments_sub | exact Hs]).
  destruct (PyStr.split "/" _) as [| ty [| sub [| ? ?]]]; try discriminate.
  destruct (split_suffix sub) as [[a x] | e]; simpl; [| discriminate].
  intros [= <-]. reflexivity.
Qed.

Lemma str_without_parameters (ct : ContentType) :
  parameters ct = [] -> plain_fields ct -> PyStr.mem ";" (ContentType_str ct) = false.
Proof.
  intros Hp (Ht & Hs & Hx). unfold ContentType_str. rewrite Hp.
  rewrite !mem_app. simpl. rewrite Ht, Hs. simpl.
  destruct (content_suffix ct) as [x |]; simpl; [| reflexivity].
  destruct (String.eqb x ""); [reflexivity | exact Hx].
Qed.

Lemma str_with_parameters (ct : ContentType) :
  parameters ct <> [] -> PyStr.mem ";" (ContentType_str ct) = true.
Proof.
  intros Hp. unfold ContentType_str.
  destruct (parameters ct) as [| kv d]; [congruence |].
  rewrite mem_app. simpl. apply orb_true_r.
Qed.

(** ** Per-request lookups drop the parameters *)

Lemma type_subtype_suffix_truthy (ct : ContentType) :
  Mixin.truthy (Some (Mixin.type_subtype_suffix ct)) = true.
Proof.
  unfold Mixin.truthy, Mixin.type_subtype_suffix. simpl.
  destruct (content_suffix ct); destruct (content_type ct); reflexivity.
Qed.

(** The key under which a per-request lookup searches never is a key with
    parameters. *)
Lemma reduced_key_differs (src : string) (ct reparsed : ContentType) (key : string) :
  parse_content_type src = Ok ct ->
  parse_content_type (Mixin.type_subtype_suffix ct) = Ok reparsed ->
  MediaType.has_parameters key ->
  ContentType_str reparsed <> key.
Proof.
  intros Hp Hr (registered & Hparams & ->) Heq.
  pose proof (str_with_parameters registered Hparams) as Hsemi.
  rewrite <- Heq in Hsemi.
  rewrite str_without_parameters in Hsemi; [discriminate | |].
  - eapply parsed_without_parameters; [| exact Hr].
    apply type_subtype_suffix_plain. eapply parsed_plain_fields, Hp.
  - eapply parsed_plain_fields, Hr.
Qed.

Lemma reduced_key_not_found (src : string) (ct : ContentType) (s : ContentSettings) :
  parse_content_type src = Ok ct ->
  (forall key handler, _handlers s !! key = Some handler -> MediaType.has_parameters key) ->
  forall handler, Settings.getitem s (Mixin.type_subtype_suffix ct) <> Ok handler.
Proof.
  intros Hp Hall handler. unfold Settings.getitem.
  destruct (parse_content_type (Mixin.type_subtype_suffix ct)) as [reparsed | e] eqn:Hr;
    simpl; [| discriminate].
  destruct (_handlers s !! ContentType_str reparsed) as [h |] eqn:Hl; [| discriminate].
  exfalso. eapply reduced_key_differs; [exact Hp | exact Hr | | reflexivity].
  eapply Hall, Hl.
Qed.

Lemma type_subtype_suffix_reduced (ct : ContentType) :
  Mixin.type_subtype_suffix ct = MediaType.reduced ct.
Proof.
  unfold Mixin.type_subtype_suffix, MediaType.reduced. cbn [PyStr.join].
  generalize (content_type ct) as ty, (content_subtype ct) as sub. intros ty sub.
  destruct (content_suffix ct) as [suffix |].
  - induction ty as [| c ty IH]; [reflexivity |].
    change (String c ty ++ "/" ++ sub)%string with (String c (ty ++ "/" ++ sub)%string).
    change (String c ty ++ "/" ++ sub ++ "+" ++ suffix)%string
      with (String c (ty ++ "/" ++ sub ++ "+" ++ suffix)%string).
    change (String c (ty ++ "/" ++ sub) ++ "+" ++ suffix)%string
      with (String c ((ty ++ "/" ++ sub) ++ "+" ++ suffix)%string).
    rewrite IH. reflexivity.
  - f_equal. f_equal. induction sub as [| c sub IH]; [reflexivity |].
    change (String c sub ++ "")%string with (String c (sub ++ "")%string).
    rewrite <- IH. reflexivity.
Qed.



(** ** The order of [str] and sorted key lists *)

Lemma ascii_compare_refl (a : ascii) : Ascii.compare a a = Eq.
Proof. unfold Ascii.compare. apply N.compare_refl. Qed.

Lemma ascii_compare_lt_trans (a b c : ascii) :
  Ascii.compare a b = Lt -> Ascii.compare b c = Lt -> Ascii.compare a c = Lt.
Proof. unfold Ascii.compare. rewrite !N.compare_lt_iff. lia. Qed.

Lemma string_compare_lt_trans (a b c : string) :
  String.compare a b = Lt -> String.compare b c = Lt -> String.compare a c = Lt.
Proof.
  revert b c. induction a as [| x a IH]; intros [| y b] [| z c]; simpl;
    try congruence.
  destruct (Ascii.compare x y) eqn:Hxy; try discriminate;
    destruct (Ascii.compare y z) eqn:Hyz; try discriminate.
  - apply Ascii.compare_eq_iff in Hxy, Hyz. subst y z.
    rewrite ascii_compare_refl. apply IH.
  - apply Ascii.compare_eq_iff in Hxy. subst y. rewrite Hyz. trivial.
  - apply Ascii.compare_eq_iff in Hyz. subst z. rewrite Hxy. trivial.
  - rewrite (ascii_compare_lt_trans x y z Hxy Hyz). trivial.
Qed.

Lemma pystr_le_cases (a b : string) :
  PyStr.le a b <-> String.compare a b = Lt \/ a = b.
Proof.
  unfold PyStr.le, String.leb. split.
  - destruct (String.compare a b) eqn:E; try discriminate; intros _.
    + right. apply String.compare_eq_iff, E.
    + left. reflexivity.
  - intros [-> | ->]; [reflexivity |].
    replace (String.compare b b) with Eq; [reflexivity |].
    symmetry. induction b as [| x b IH]; simpl; [reflexivity |].
    rewrite ascii_compare_refl. exact IH.
Qed.

#[local] Instance pystr_le_trans : Transitive PyStr.le.
Proof.
  intros a b c Hab Hbc. apply pystr_le_cases in Hab, Hbc. apply pystr_le_cases.
  destruct Hab as [Hab | ->]; [| exact Hbc].
  destruct Hbc as [Hbc | <-]; [| left; exact Hab].
  left. eapply string_compare_lt_trans; eassumption.
Qed.

#[local] Instance pystr_le_total : Total PyStr.le.
Proof. intros a b. apply String.leb_total. Qed.

#[local] Instance pystr_le_antisym : AntiSymm (=) PyStr.le.
Proof. intros a b. apply String.leb_antisym. Qed.

(** [sorted] only depends on the elements, not on their order. *)
Lemma sorted_permutation (l1 l2 : list string) :
  Permutation l1 l2 -> PyStr.sorted l1 = PyStr.sorted l2.
Proof.
  intros Hp. unfold PyStr.sorted.
  apply (Sorted_unique PyStr.le); try apply Sorted_merge_sort; try apply _.
  rewrite !merge_sort_Permutation. exact Hp.
Qed.

(** ** Dictionaries with distinct keys *)

Lemma pydict_set_fresh {V : Type} (d : PyDict.t V) (k : string) (v : V) :
  ~ In k (map fst d) -> PyDict.set d k v = d ++ [(k, v)].
Proof.
  induction d as [| [k' v'] d IH]; simpl; intros Hk; [reflexivity |].
  destruct (String.eqb k k') eqn:E.
  - apply String.eqb_eq in E. exfalso. apply Hk. left. symmetry. exact E.
  - rewrite IH by tauto. reflexivity.
Qed.

(** Storing items one by one under distinct new keys appends them. *)
Lemma pydict_fold_distinct {V : Type} (key : string * V -> string)
    (items : list (string * V)) (acc : PyDict.t V) :
  List.NoDup (map fst acc ++ map key items) ->
  fold_left (fun d kv => PyDict.set d (key kv) (snd kv)) items acc
  = acc ++ map (fun kv => (key kv, snd kv)) items.
Proof.
  revert acc. induction items as [| kv items IH]; intros acc Hnd; simpl.
  - rewrite app_nil_r. reflexivity.
  - assert (Hfresh : ~ In (key kv) (map fst acc)).
    { intros Hin. apply List.NoDup_remove_2 in Hnd. apply Hnd.
      apply in_or_app. left. exact Hin. }
    rewrite (pydict_set_fresh acc _ _ Hfresh), IH.
    + rewrite <- app_assoc. reflexivity.
    + rewrite map_app. simpl. rewrite <- app_assoc. exact Hnd.
Qed.

Lemma pydict_get_in {V : Type} (d : PyDict.t V) (k : string) (v : V) :
  List.NoDup (map fst d) -> (PyDict.get d k = Some v <-> In (k, v) d).
Proof.
  induction d as [| [k' v'] d IH]; simpl; intros Hnd.
  - split; [discriminate | tauto].
  - inversion Hnd as [| ? ? Hnotin Hnd']; subst.
    destruct (String.eqb k k') eqn:E.
    + apply String.eqb_eq in E. subst k'. split.
      * intros [= ->]. left. reflexivity.
      * intros [[= ->] | Hin]; [reflexivity |].
        exfalso. apply Hnotin. apply (in_map fst) in Hin. exact Hin.
    + rewrite (IH Hnd'). split; [tauto |].
      intros [[= -> ->] | Hin]; [| exact Hin].
      rewrite String.eqb_refl in E. discriminate.
Qed.

(** Lookups only depend on the items, not on their order. *)
Lemma pydict_get_permutation {V : Type} (d1 d2 : PyDict.t V) (k : string) :
  List.NoDup (map fst d1) -> Permutation d1 d2 -> PyDict.get d1 k = PyDict.get d2 k.
Proof.
  intros Hnd Hp.
  assert (Hnd2 : List.NoDup (map fst d2)).
  { eapply Permutation_NoDup; [| exact Hnd]. apply Permutation_map, Hp. }
  destruct (PyDict.get d1 k) as [v |] eqn:E1.
  - symmetry. apply (pydict_get_in d2 k v Hnd2).
    eapply Permutation_in; [exact Hp |]. apply (pydict_get_in d1 k v Hnd), E1.
  - destruct (PyDict.get d2 k) as [v |] eqn:E2; [| reflexivity].
    apply (pydict_get_in d2 k v Hnd2) in E2.
    apply (Permutation_in _ (Permutation_sym Hp)) in E2.
    apply (pydict_get_in d1 k v Hnd) in E2. congruence.
Qed.

(** Two media types that differ only in the order of their (distinctly
    named) parameters are rendered alike. *)
Lemma str_permutation (ty sub : string) (suffix : option string)
    (d1 d2 : PyDict.t string) :
  List.NoDup (map fst d1) -> Permutation d1 d2 ->
  ContentType_str (mkContentType ty sub suffix d1)
  = ContentType_str (mkContentType ty sub suffix d2).
Proof.
  intros Hnd Hp. unfold ContentType_str. simpl.
  destruct d1 as [| kv1 d1].
  - apply Permutation_nil in Hp. subst d2. reflexivity.
  - destruct d2 as [| kv2 d2];
      [apply Permutation_sym, Permutation_nil in Hp; discriminate |].
    do 2 f_equal. unfold PyDict.keys.
    rewrite (sorted_permutation _ _ (Permutation_map fst Hp)).
    f_equal. apply map_ext. intros name. unfold render_parameter.
    rewrite (pydict_get_permutation _ _ name Hnd Hp). reflexivity.
Qed.

(** ** Parsing a media type written from tokens *)

Lemma tchar_facts (c : ascii) :
  MediaType.is_tchar c = true ->
  PyStr.is_space c = false
  /\ PyStr.is_space (PyStr.lower_char c) = false
  /\ Ascii.eqb (PyStr.lower_char c) "034"%char = false
  /\ Ascii.eqb ";" c = false
  /\ Ascii.eqb "=" c = false
  /\ Ascii.eqb "(" c = false.
Proof.
  destruct c as [[] [] [] [] [] [] [] []]; vm_compute; intros H;
    first [discriminate H | repeat split; reflexivity].
Qed.

Lemma all_chars_mem (p : ascii -> bool) (c : ascii) (s : string) :
  (forall d, p d = true -> Ascii.eqb c d = false) ->
  MediaType.all_chars p s = true -> PyStr.mem c s = false.
Proof.
  intros Hp. induction s as [| d s IH]; cbn [MediaType.all_chars PyStr.mem];
    [reflexivity |].
  intros H. apply andb_true_iff in H as [Hd Hs].
  rewrite (Hp d Hd), (IH Hs). reflexivity.
Qed.

Lemma all_chars_app (p : ascii -> bool) (a b : string) :
  MediaType.all_chars p (a ++ b)%string
  = MediaType.all_chars p a && MediaType.all_chars p b.
Proof.
  induction a as [| d a IH]; simpl; [reflexivity |].
  rewrite IH, andb_assoc. reflexivity.
Qed.

Lemma all_chars_impl (p q : ascii -> bool) (s : string) :
  (forall d, p d = true -> q d = true) ->
  MediaType.all_chars p s = true -> MediaType.all_chars q s = true.
Proof.
  intros Hpq. induction s as [| d s IH]; simpl; [reflexivity |].
  intros H. apply andb_true_iff in H as [Hd Hs].
  rewrite (Hpq d Hd), (IH Hs). reflexivity.
Qed.

Lemma token_chars (s : string) :
  MediaType.is_token s = true ->
  s <> ""%string /\ MediaType.all_chars MediaType.is_tchar s = true.
Proof.
  unfold MediaType.is_token. intros H. apply andb_true_iff in H as [Hne Hall].
  split; [| exact Hall]. intros ->. discriminate.
Qed.

Lemma token_separators (s : string) :
  MediaType.is_token s = true ->
  PyStr.mem ";" s = false /\ PyStr.mem "=" s = false /\ PyStr.mem "(" s = false.
Proof.
  intros H. apply token_chars in H as [_ H].
  repeat split; (eapply all_chars_mem; [| exact H]); intros d Hd;
    apply tchar_facts in Hd; tauto.
Qed.

Lemma lstrip_spaceless (s : string) : spaceless s -> PyStr.lstrip s = s.
Proof.
  unfold spaceless. destruct s as [| c s]; simpl; [reflexivity |].
  intros H. apply andb_true_iff in H as [Hc _].
  apply negb_true_iff in Hc. rewrite Hc. reflexivity.
Qed.

Lemma rstrip_spaceless (s : string) : spaceless s -> PyStr.rstrip s = s.
Proof.
  unfold spaceless. induction s as [| c s IH]; simpl; [reflexivity |].
  intros H. apply andb_true_iff in H as [Hc Hs].
  rewrite (IH Hs). apply negb_true_iff in Hc. rewrite Hc.
  destruct s; reflexivity.
Qed.

Lemma strip_spaceless (s : string) : spaceless s -> PyStr.strip s = s.
Proof.
  intros H. unfold PyStr.strip. rewrite (lstrip_spaceless s H). apply rstrip_spaceless, H.
Qed.

Lemma token_spaceless (s : string) :
  MediaType.is_token s = true -> spaceless s /\ spaceless (PyStr.lower s).
Proof.
  intros H. apply token_chars in H as [_ H]. unfold spaceless. split.
  - eapply all_chars_impl; [| exact H].
    intros d Hd. apply tchar_facts in Hd. apply negb_true_iff. tauto.
  - induction s as [| c s IH]; simpl in *; [reflexivity |].
    apply andb_true_iff in H as [Hc Hs].
    rewrite (IH Hs). apply tchar_facts in Hc.
    destruct Hc as (_ & -> & _). reflexivity.
Qed.

Lemma remove_comments_plain (s : string) :
  PyStr.mem "(" s = false -> remove_comments s = s.
Proof.
  unfold remove_comments.
  induction s as [| c s IH]; cbn [PyStr.mem remove_comments_from]; [reflexivity |].
  intros H. apply orb_false_iff in H as [Hc Hs].
  rewrite Ascii.eqb_sym, Hc, (IH Hs). reflexivity.
Qed.

Lemma append_cons (c : ascii) (a b : string) :
  (String c a ++ b)%string = String c (a ++ b)%string.
Proof. reflexivity. Qed.

Lemma append_nil_l (b : string) : ("" ++ b)%string = b.
Proof. reflexivity. Qed.

Lemma append_nil_r (s : string) : (s ++ "")%string = s.
Proof.
  induction s as [| c s IH]; [reflexivity | rewrite append_cons, IH; reflexivity].
Qed.

Lemma append_assoc (a b c : string) : ((a ++ b) ++ c)%string = (a ++ b ++ c)%string.
Proof.
  induction a as [| d a IH]; [reflexivity | rewrite !append_cons, IH; reflexivity].
Qed.

Local Ltac string_norm :=
  repeat first [rewrite append_cons | rewrite append_nil_l | rewrite append_assoc].

Local Ltac mem_norm :=
  repeat first [rewrite mem_app | progress cbn [PyStr.mem]].

Lemma split_app_sep (sep : ascii) (a b : string) :
  PyStr.mem sep a = false ->
  PyStr.split sep (a ++ String sep b)%string = a :: PyStr.split sep b.
Proof.
  induction a as [| d a IH]; string_norm;
    cbn [PyStr.mem PyStr.split].
  - intros _. rewrite Ascii.eqb_refl. reflexivity.
  - intros H. apply orb_false_iff in H as [Hd Ha].
    rewrite Ascii.eqb_sym, Hd, (IH Ha). reflexivity.
Qed.

Lemma parameter_element_plain (kv : string * string) :
  MediaType.is_token (fst kv) = true -> MediaType.is_token (snd kv) = true ->
  PyStr.mem ";" (parameter_element kv) = false
  /\ PyStr.mem "(" (parameter_element kv) = false.
Proof.
  intros Hk Hv. apply token_separators in Hk as (Hk1 & _ & Hk3).
  apply token_separators in Hv as (Hv1 & _ & Hv3).
  unfold parameter_element. string_norm. mem_norm.
  rewrite Hk1, Hk3, Hv1, Hv3. split; reflexivity.
Qed.

Lemma split_rendered (a : string) (params : list (string * string)) :
  PyStr.mem ";" a = false ->
  MediaType.well_formed params ->
  PyStr.split ";" (a ++ MediaType.render_parameters params)%string
  = a :: map parameter_element params.
Proof.
  intros Ha Hwf. revert a Ha.
  induction Hwf as [| kv params [Hk Hv] Hwf IH]; intros a Ha.
  - cbn [MediaType.render_parameters map]. rewrite append_nil_r.
    apply split_without_sep, Ha.
  - cbn [MediaType.render_parameters map].
    replace (a ++ "; " ++ fst kv ++ "=" ++ snd kv ++ MediaType.render_parameters params)%string
      with (a ++ String ";" (parameter_element kv ++ MediaType.render_parameters params))%string.
    + rewrite (split_app_sep ";" a _ Ha). f_equal.
      apply IH. apply parameter_element_plain; assumption.
    + unfold parameter_element.
      string_norm.
      reflexivity.
Qed.

Lemma rendered_plain (params : list (string * string)) :
  MediaType.well_formed params ->
  PyStr.mem "(" (MediaType.render_parameters params) = false.
Proof.
  induction 1 as [| kv params [Hk Hv] Hwf IH]; [reflexivity |].
  cbn [MediaType.render_parameters]. string_norm. mem_norm.
  apply token_separators in Hk as (_ & _ & Hk3).
  apply token_separators in Hv as (_ & _ & Hv3).
  rewrite Hk3, Hv3, IH. reflexivity.
Qed.

Lemma parse_parameter_token (kv : string * string) :
  MediaType.is_token (fst kv) = true -> MediaType.is_token (snd kv) = true ->
  parse_parameter (parameter_element kv) = Ok (Some (fst kv, PyStr.lower (snd kv))).
Proof.
  destruct kv as [k v]. cbn [fst snd]. intros Hk Hv.
  pose proof (token_separators k Hk) as (_ & Hk2 & _).
  pose proof (token_separators v Hv) as (_ & Hv2 & _).
  pose proof (token_spaceless k Hk) as [Hks _].
  pose proof (token_spaceless v Hv) as [Hvs Hvl].
  pose proof (token_chars k Hk) as [Hkne _].
  pose proof (token_chars v Hv) as [Hvne Hvall].
  assert (Hstrip : PyStr.strip (parameter_element (k, v)) = (k ++ "=" ++ v)%string).
  { unfold parameter_element, PyStr.strip. cbn [fst snd].
    string_norm. cbn [PyStr.lstrip].
    change (PyStr.is_space " ") with true. cbv iota.
    fold (PyStr.strip (k ++ String "=" v)). apply strip_spaceless.
    unfold spaceless. rewrite all_chars_app. cbn [MediaType.all_chars].
    unfold spaceless in Hks, Hvs. rewrite Hks, Hvs. reflexivity. }
  unfold parse_parameter. rewrite Hstrip.
  string_norm.
  destruct k as [| c k]; [congruence |].
  rewrite (split_app_sep "=" (String c k) v Hk2), (split_without_sep "=" v Hv2).
  rewrite append_cons.
  rewrite (strip_spaceless _ Hvl).
  destruct v as [| d v]; [congruence |]. cbn [PyStr.lower].
  unfold dequote.
  cbn [MediaType.all_chars] in Hvall. apply andb_true_iff in Hvall as [Hd _].
  apply tchar_facts in Hd. destruct Hd as (_ & _ & -> & _).
  reflexivity.
Qed.

Lemma parse_parameter_list_rendered (params : list (string * string)) :
  MediaType.well_formed params ->
  parse_parameter_list (map parameter_element params)
  = Ok (map (fun kv => (fst kv, PyStr.lower (snd kv))) params).
Proof.
  induction 1 as [| kv params [Hk Hv] Hwf IH]; [reflexivity |].
  cbn [map parse_parameter_list].
  rewrite (parse_parameter_token kv Hk Hv), IH. reflexivity.
Qed.

Lemma essence_plain (essence : string) :
  MediaType.is_essence essence = true ->
  PyStr.mem ";" essence = false /\ PyStr.mem "(" essence = false.
Proof.
  intros H. split; (eapply all_chars_mem; [| exact H]); intros d Hd;
    apply orb_true_iff in Hd as [Hd | Hd];
    try (apply tchar_facts in Hd; tauto);
    apply Ascii.eqb_eq in Hd; subst d; reflexivity.
Qed.

(** What the parser makes of a media type written from tokens. *)
Lemma parse_rendered (essence : string) (params : list (string * string)) :
  MediaType.is_essence essence = true ->
  MediaType.well_formed params ->
  parse_content_type (MediaType.render essence params)
  = match PyStr.split "/" essence with
    | [ty; sub] =>
        sub_suffix ← split_suffix sub;
        Ok (ContentType_init ty (fst sub_suffix)
              (PyDict.of_pairs (map (fun kv => (fst kv, PyStr.lower (snd kv))) params))
              (snd sub_suffix))
    | _ => Raise ValueError
    end.
Proof.
  intros He Hwf. apply essence_plain in He as [He1 He2].
  unfold parse_content_type, MediaType.render.
  rewrite remove_comments_plain
    by (rewrite mem_app, He2, (rendered_plain params Hwf); reflexivity).
  rewrite (split_rendered essence params He1 Hwf).
  destruct (PyStr.split "/" essence) as [| ty [| sub [| ? ?]]]; try reflexivity.
  destruct (split_suffix sub) as [ss | e]; [| reflexivity].
  cbn. rewrite (parse_parameter_list_rendered params Hwf). reflexivity.
Qed.

(** ** Registration and lookup normalize alike *)

Lemma of_pairs_distinct (items : list (string * string)) :
  List.NoDup (map fst items) -> PyDict.of_pairs items = items.
Proof.
  intros Hnd. unfold PyDict.of_pairs.
  rewrite (pydict_fold_distinct fst items []) by exact Hnd.
  simpl. rewrite <- (map_id items) at 2. apply map_ext. intros [k v]. reflexivity.
Qed.

Lemma distinct_names_keys (params : list (string * string)) :
  MediaType.distinct_names params ->
  List.NoDup (map fst params)
  /\ List.NoDup (map fst (map MediaType.fold_case params)).
Proof.
  unfold MediaType.distinct_names. intros Hnd. apply NoDup_ListNoDup in Hnd.
  split.
  - apply (List.NoDup_map_inv PyStr.lower). rewrite map_map. exact Hnd.
  - rewrite map_map. exact Hnd.
Qed.

(** The parameters of a media type written from tokens with distinct names:
    names and values in lower case, in the order written. *)
Lemma init_parameters (ty sub : string) (suffix : option string)
    (params : list (string * string)) :
  MediaType.distinct_names params ->
  ContentType_init ty sub
    (PyDict.of_pairs (map (fun kv => (fst kv, PyStr.lower (snd kv))) params)) suffix
  = mkContentType (PyStr.lower (PyStr.strip ty)) (PyStr.lower (PyStr.strip sub))
      (option_map (fun x => PyStr.lower (PyStr.strip x)) suffix)
      (map MediaType.fold_case params).
Proof.
  intros Hd. destruct (distinct_names_keys params Hd) as [Hk Hl].
  unfold ContentType_init. f_equal.
  rewrite of_pairs_distinct by (rewrite map_map; exact Hk).
  rewrite (pydict_fold_distinct (fun kv => PyStr.lower (fst kv))).
  - simpl. rewrite map_map. reflexivity.
  - simpl. rewrite map_map. rewrite map_map in Hl. exact Hl.
Qed.

Lemma registry_key_rendered (essence : string) (params : list (string * string)) :
  MediaType.is_essence essence = true ->
  MediaType.well_formed params ->
  MediaType.distinct_names params ->
  MediaType.registry_key (MediaType.render essence params)
  = match PyStr.split "/" essence with
    | [ty; sub] =>
        sub_suffix ← split_suffix sub;
        Ok (ContentType_str
              (mkContentType (PyStr.lower (PyStr.strip ty))
                 (PyStr.lower (PyStr.strip (fst sub_suffix)))
                 (option_map (fun x => PyStr.lower (PyStr.strip x)) (snd sub_suffix))
                 (map MediaType.fold_case params)))
    | _ => Raise ValueError
    end.
Proof.
  intros He Hwf Hd. unfold MediaType.registry_key.
  rewrite (parse_rendered essence params He Hwf).
  destruct (PyStr.split "/" essence) as [| ty [| sub [| ? ?]]]; try reflexivity.
  destruct (split_suffix sub) as [ss | e]; [| reflexivity].
  cbn. rewrite (init_parameters _ _ _ _ Hd). reflexivity.
Qed.

Lemma getitem_by_key (s : ContentSettings) (content_type : string) :
  Settings.getitem s content_type
  = (key ← MediaType.registry_key content_type;
     match _handlers s !! key with
     | Some handler => Ok handler
     | None => Raise KeyError
     end).
Proof.
  unfold Settings.getitem, MediaType.registry_key.
  destruct (parse_content_type content_type); reflexivity.
Qed.

(** C1.  Two media type strings with the same [type/subtype] part whose
    parameters are the same up to their order and the letter case of their
    names (and values) are filed under the same registry key by
    [__setitem__] and [__getitem__]: after a registration under one of them
    the handler table holds, under that key, the handler that was there
    before or else the registered one, and a lookup under either string
    returns it.  The strings are written from tokens and no parameter name
    occurs twice, in whatever letter case. *)
Theorem C1_normalized_registry_key
    (essence : string) (params1 params2 : list (string * string)) :
  MediaType.is_essence essence = true ->
  MediaType.well_formed params1 ->
  MediaType.well_formed params2 ->
  MediaType.distinct_names params1 ->
  Permutation (map MediaType.fold_case params1) (map MediaType.fold_case params2) ->
  let registered := MediaType.render essence params1 in
  let requested := MediaType.render essence params2 in
  MediaType.registry_key registered = MediaType.registry_key requested
  /\ (forall s, Settings.getitem s requested = Settings.getitem s registered)
  /\ (forall s s' handler,
        Settings.setitem s registered handler = Ok s' ->
        exists key,
          MediaType.registry_key registered = Ok key
          /\ MediaType.registry_key requested = Ok key
          /\ _handlers s' !! key = Some (default handler (_handlers s !! key))
          /\ Settings.getitem s' requested = Ok (default handler (_handlers s !! key))
          /\ Settings.getitem s' registered = Ok (default handler (_handlers s !! key))).
Proof.
  intros He Hwf1 Hwf2 Hd1 Hperm registered requested.
  assert (Hd2 : MediaType.distinct_names params2).
  { unfold MediaType.distinct_names in *. apply NoDup_ListNoDup.
    apply NoDup_ListNoDup in Hd1.
    eapply Permutation_NoDup; [| exact Hd1].
    apply (Permutation_map fst) in Hperm. rewrite !map_map in Hperm. exact Hperm. }
  assert (Hkey : MediaType.registry_key registered = MediaType.registry_key requested).
  { unfold registered, requested.
    rewrite (registry_key_rendered essence params1 He Hwf1 Hd1).
    rewrite (registry_key_rendered essence params2 He Hwf2 Hd2).
    destruct (PyStr.split "/" essence) as [| ty [| sub [| ? ?]]]; try reflexivity.
    destruct (split_suffix sub) as [ss | e]; [| reflexivity].
    cbn. f_equal. apply str_permutation; [| exact Hperm].
    apply (distinct_names_keys params1 Hd1). }
  split; [exact Hkey |]. split.
  - intros s. rewrite !getitem_by_key, Hkey. reflexivity.
  - intros s s' handler Hset.
    destruct (setitem_outcome s s' registered handler Hset) as (parsed & Hp & Hcase).
    assert (Hreg : MediaType.registry_key registered = Ok (ContentType_str parsed))
      by (unfold MediaType.registry_key; rewrite Hp; reflexivity).
    exists (ContentType_str parsed).
    assert (Hlook : _handlers s' !! ContentType_str parsed
                    = Some (default handler (_handlers s !! ContentType_str parsed))).
    { destruct Hcase as [[[h Hh] ->] | [Hfree ->]].
      - rewrite Hh. reflexivity.
      - cbn [_handlers]. rewrite lookup_insert_eq, Hfree. reflexivity. }
    split; [exact Hreg |]. split; [rewrite <- Hkey; exact Hreg |].
    split; [exact Hlook |].
    rewrite !getitem_by_key, <- Hkey, Hreg. cbn [mbind result_bind rbind].
    rewrite Hlook. split; reflexivity.
Qed.

Lemma C1_normalized_registry_key_witness :
  let registered := "application/json; VerSion=foo; type=WhatEver" in
  let requested := "application/json; type=whatever; version=foo" in
  exists key,
    MediaType.registry_key registered = Ok key
    /\ MediaType.registry_key requested = Ok key
    /\ Settings.getitem
         (Scenario.settings_of
            (Scenario.registered Scenario.empty_application registered FakeContentHandler))
         requested
       = Ok FakeContentHandler.
Proof.
  intros registered requested.
  destruct (proj2 (proj2 (C1_normalized_registry_key "application/json"
             [("VerSion", "foo"); ("type", "WhatEver")]
             [("type", "whatever"); ("version", "foo")]
             ltac:(vm_compute; reflexivity)
             ltac:(repeat constructor)
             ltac:(repeat constructor)
             ltac:(unfold MediaType.distinct_names; apply NoDup_ListNoDup;
                   repeat constructor; simpl; intuition discriminate)
             ltac:(apply perm_swap)))
             Settings.init
             (Scenario.settings_of
                (Scenario.registered Scenario.empty_application registered
                   FakeContentHandler))
             FakeContentHandler ltac:(vm_compute; reflexivity))
    as (key & Hreg & Hreq & _ & Hget & _).
  exists key. split; [exact Hreg |]. split; [exact Hreq |]. exact Hget.
Defined.

(** C1, as the claim words it, fails where a parameter name occurs twice:
    the parser keeps one value per name, the one written last, so that the
    order of the two parameters decides the key.  The two strings below
    differ only in the order of their parameters, and a handler registered
    under the first is not found under the second. *)
Lemma C1_counterexample :
  let first := [("a", "1"); ("A", "2")] in
  let second := [("A", "2"); ("a", "1")] in
  let registered := "application/json; a=1; A=2" in
  let requested := "application/json; A=2; a=1" in
  let s := Scenario.settings_of
             (Scenario.registered Scenario.empty_application registered
                FakeContentHandler) in
  Permutation first second
  /\ registered = MediaType.render "application/json" first
  /\ requested = MediaType.render "application/json" second
  /\ MediaType.registry_key registered = Ok "application/json; a=2"
  /\ MediaType.registry_key requested = Ok "application/json; a=1"
  /\ Settings.getitem s registered = Ok FakeContentHandler
  /\ Settings.getitem s requested = Raise KeyError.
Proof.
  cbv zeta. split; [apply perm_swap |].
  do 5 (split; [vm_compute; reflexivity |]). vm_compute. reflexivity.
Qed.

(** * Further properties of the code *)

(** ** The registry under sequences of registrations *)

Lemma setitem_keeps_entries (s s' : ContentSettings) (content_type : string)
    (handler h0 : ContentHandler) (key : string) :
  Settings.setitem s content_type handler = Ok s' ->
  _handlers s !! key = Some h0 -> _handlers s' !! key = Some h0.
Proof.
  intros Hs Hk. apply setitem_outcome in Hs as (parsed & _ & [[_ ->] | [Hfree ->]]);
    [exact Hk |].
  cbn. rewrite lookup_insert_ne; [exact Hk |]. intros Heq. rewrite Heq in Hfree. congruence.
Qed.

Lemma registry_invariant_setitem (d e : option string) (s s' : ContentSettings)
    (content_type : string) (handler : ContentHandler) :
  registry_invariant d e s ->
  Settings.setitem s content_type handler = Ok s' ->
  registry_invariant d e s'.
Proof.
  intros Hinv Hs.
  apply setitem_outcome in Hs as (parsed & _ & [[_ ->] | [Hfree ->]]); [exact Hinv |].
  destruct Hinv as ((Hnd & Hkeys) & Hsize & Hd & He).
  split; [split |]; cbn.
  - rewrite map_app. cbn. apply NoDup_ListNoDup, NoDup_app. repeat split.
    + apply NoDup_ListNoDup, Hnd.
    + intros key Hin Hin'. apply list_elem_of_In in Hin, Hin'.
      destruct Hin' as [<- | []]. apply Hkeys in Hin. destruct Hin as [h Hh]. congruence.
    + apply NoDup_singleton.
  - intros key. rewrite map_app, in_app_iff. cbn.
    destruct (decide (ContentType_str parsed = key)) as [<- | Hne].
    + rewrite lookup_insert_eq. split; [intros _; right; left; reflexivity |].
      intros _. eexists. reflexivity.
    + rewrite lookup_insert_ne by exact Hne. rewrite Hkeys. tauto.
  - repeat split; [| exact Hd | exact He].
    rewrite map_size_insert_None by exact Hfree.
    rewrite length_app, Hsize. cbn. lia.
Qed.

Lemma register_all_cons (r : string * ContentHandler)
    (regs : list (string * ContentHandler)) (s : ContentSettings) :
  register_all (r :: regs) s
  = register_all regs
      (match Settings.setitem s (fst r) (snd r) with
       | Ok s' => s'
       | Raise _ => s
       end).
Proof. reflexivity. Qed.

(** X1.  Whatever is registered, in whatever order and with whatever
    failures in between, the handler table and the availability list stay in
    step: the keys of the table are exactly the rendered available types,
    no type is listed twice, both have the same size, and the defaults of
    the settings are not touched. *)
Theorem registry_stays_consistent
    (regs : list (string * ContentHandler)) (d e : option string) :
  let s := register_all regs (Settings.set_defaults Settings.init d e) in
  consistent s
  /\ size (_handlers s) = length (Settings.available_content_types s)
  /\ default_content_type s = d
  /\ default_encoding s = e.
Proof.
  cbv zeta. change (registry_invariant d e
                      (register_all regs (Settings.set_defaults Settings.init d e))).
  assert (Hinit : registry_invariant d e (Settings.set_defaults Settings.init d e)).
  { split; [split |]; cbn.
    - constructor.
    - intros key. rewrite lookup_empty. split; [intros [? ?]; discriminate | tauto].
    - repeat split. }
  revert Hinit. generalize (Settings.set_defaults Settings.init d e).
  induction regs as [| r regs IH]; intros s Hinv; [exact Hinv |].
  rewrite register_all_cons. apply IH.
  destruct (Settings.setitem s (fst r) (snd r)) as [s' |] eqn:Hs; [| exact Hinv].
  eapply registry_invariant_setitem; eassumption.
Qed.

(** X2.  A lookup that succeeds keeps returning the same handler after any
    further registrations: an entry is never replaced and never removed. *)
Theorem registered_handler_is_kept
    (regs : list (string * ContentHandler)) (s : ContentSettings)
    (content_type : string) (handler : ContentHandler) :
  Settings.getitem s content_type = Ok handler ->
  Settings.getitem (register_all regs s) content_type = Ok handler.
Proof.
  revert s. induction regs as [| r regs IH]; intros s Hg; [exact Hg |].
  rewrite register_all_cons. apply IH.
  destruct (Settings.setitem s (fst r) (snd r)) as [s' |] eqn:Hs; [| exact Hg].
  revert Hg. unfold Settings.getitem.
  destruct (parse_content_type content_type) as [parsed | e]; [| discriminate].
  cbn. destruct (_handlers s !! ContentType_str parsed) as [h |] eqn:Hl; [| discriminate].
  intros [= ->]. rewrite (setitem_keeps_entries _ _ _ _ _ _ Hs Hl). reflexivity.
Qed.

Lemma registered_handler_is_kept_witness :
  Settings.getitem
    (register_all
       [("application/json", Scenario.msgpack_handler);
        ("application/JSON; charset=utf-8", Scenario.msgpack_handler)]
       (Scenario.settings_of Scenario.json_only))
    "application/json"
  = Ok FakeContentHandler.
Proof.
  apply registered_handler_is_kept. vm_compute. reflexivity.
Defined.

(** X3.  Registrations only append to the availability list: what was
    listed stays listed, in the same place, and a sequence of registrations
    adds at most one entry each. *)
Theorem availability_order_is_kept
    (regs : list (string * ContentHandler)) (s : ContentSettings) :
  exists added,
    Settings.available_content_types (register_all regs s)
    = Settings.available_content_types s ++ added
    /\ length added <= length regs.
Proof.
  unfold Settings.available_content_types.
  revert s. induction regs as [| r regs IH]; intros s.
  - exists []. rewrite app_nil_r. split; [reflexivity | cbn; lia].
  - rewrite register_all_cons.
    destruct (Settings.setitem s (fst r) (snd r)) as [s' |] eqn:Hs.
    + destruct (IH s') as (added & Heq & Hlen).
      apply setitem_outcome in Hs as (parsed & _ & [[_ ->] | [_ ->]]).
      * exists added. split; [exact Heq | cbn; lia].
      * exists (parsed :: added). cbn in Heq. rewrite Heq, <- app_assoc.
        split; [reflexivity | cbn; lia].
    + destruct (IH s) as (added & Heq & Hlen).
      exists added. split; [exact Heq | cbn; lia].
Qed.

(** X4.  [ContentSettings.get] looks the string up as it is given, without
    normalizing it: after a registration under a string that is not its own
    normalized form, [get] under that very string misses (and returns the
    default), while [__getitem__] under it finds a handler, as does [get]
    under the normalized key. *)
Theorem get_does_not_normalize
    (s s' : ContentSettings) (content_type : string) (parsed : ContentType)
    (handler : ContentHandler) (fallback : option ContentHandler) :
  parse_content_type content_type = Ok parsed ->
  ContentType_str parsed <> content_type ->
  _handlers s !! content_type = None ->
  Settings.setitem s content_type handler = Ok s' ->
  Settings.get s' content_type fallback = fallback
  /\ (exists found,
        Settings.getitem s' content_type = Ok found
        /\ Settings.get s' (ContentType_str parsed) fallback = Some found).
Proof.
  intros Hp Hne Hraw Hs.
  apply setitem_outcome in Hs as (parsed' & Hp' & Hcase).
  rewrite Hp in Hp'. injection Hp' as <-.
  unfold Settings.get. rewrite (getitem_parsed _ _ _ Hp).
  destruct Hcase as [[[h Hh] ->] | [Hfree ->]]; cbn.
  - rewrite Hraw, Hh. split; [reflexivity |]. exists h. split; reflexivity.
  - rewrite lookup_insert_ne by exact Hne. rewrite Hraw, lookup_insert_eq.
    split; [reflexivity |]. exists handler. split; reflexivity.
Qed.

Lemma get_does_not_normalize_witness :
  let s' :=
    Scenario.settings_of
      (Scenario.registered Scenario.empty_application
         "application/json; charset=UTF-8" FakeContentHandler) in
  Settings.get s' "application/json; charset=UTF-8" None = None
  /\ (exists found,
        Settings.getitem s' "application/json; charset=UTF-8" = Ok found
        /\ Settings.get s' "application/json; charset=utf-8" None = Some found).
Proof.
  intros s'.
  refine (get_does_not_normalize Settings.init s' "application/json; charset=UTF-8"
            {| content_type := "application"; content_subtype := "json";
               content_suffix := None; parameters := [("charset", "utf-8")] |}
            FakeContentHandler None _ _ _ _).
  - vm_compute. reflexivity.
  - vm_compute. discriminate.
  - reflexivity.
  - vm_compute. reflexivity.
Defined.

(** ** Malformed media types *)

Lemma parse_without_slash (header : string) :
  PyStr.mem "/" header = false -> parse_content_type header = Raise ValueError.
Proof.
  intros Hs. unfold parse_content_type.
  destruct (PyStr.split ";" (remove_comments header)) as [| first parts] eqn:Es;
    [reflexivity |].
  assert (Hfirst : PyStr.mem "/" first = false).
  { eapply not_mem; [| exact Hs]. intros H.
    apply (remove_comments_sub "/" header 0).
    apply (split_piece_sub ";" "/" (remove_comments header) first); [| exact H].
    rewrite Es. left. reflexivity. }
  rewrite (split_without_sep "/" first Hfirst). reflexivity.
Qed.

(** X5.  A media type string without a slash is refused with a
    [ValueError] by registration and by lookup, the registry stays as it
    was, and [get_request_body] on a request that declares such a content
    type lets the [ValueError] through: it is neither the 415 of an
    unknown type nor the 400 of an undecodable body, and nothing is cached. *)
Theorem malformed_media_type_is_a_value_error
    (malformed : string) (s : ContentSettings) (handler : ContentHandler)
    (self : ContentMixin) :
  PyStr.mem "/" malformed = false ->
  Settings.setitem s malformed handler = Raise ValueError
  /\ Settings.getitem s malformed = Raise ValueError
  /\ register_all [(malformed, handler)] s = s
  /\ (_request_body self = VNone ->
      headers (request self) !! "Content-Type" = Some malformed ->
      fst (Mixin.get_request_body self) = Raise ValueError
      /\ _request_body (snd (Mixin.get_request_body self)) = VNone).
Proof.
  intros Hs. pose proof (parse_without_slash malformed Hs) as Hp.
  assert (Hset : Settings.setitem s malformed handler = Raise ValueError)
    by (unfold Settings.setitem; rewrite Hp; reflexivity).
  split; [exact Hset |].
  split; [apply getitem_unparsed, Hp |].
  split; [unfold register_all; cbn; rewrite Hset; reflexivity |].
  intros Hc Hh. unfold Mixin.get_request_body.
  rewrite Hc, forced_settings_eq. cbn.
  unfold Mixin.content_type_header. cbn. rewrite Hh, Hp. cbn.
  split; [reflexivity | exact Hc].
Qed.

Lemma malformed_media_type_is_a_value_error_witness :
  fst (Mixin.get_request_body
         (Scenario.handler_for Scenario.json_only
            (Scenario.request_with [("Content-Type", "json")] [])))
  = Raise ValueError.
Proof.
  refine (proj1 (proj2 (proj2 (proj2
            (malformed_media_type_is_a_value_error "json" Settings.init
               FakeContentHandler _ _))) _ _));
    vm_compute; reflexivity.
Defined.

(** ** The settings of an application *)

Lemma get_settings_present (app : Application) (s : ContentSettings) (force : bool) :
  settings app !! SETTINGS_KEY = Some s -> get_settings app force = (app, Some s).
Proof. intros H. unfold get_settings. rewrite H. reflexivity. Qed.

(** X6.  [get_settings] without [force_instance] only reads: it returns
    what is stored, or [None], and the application as it was.  With
    [force_instance] it always returns settings, creates them (empty, without
    defaults) only when there are none, and every later call, forced or
    not, returns that same object and changes nothing. *)
Theorem get_settings_creates_once (app : Application) :
  get_settings app false = (app, settings app !! SETTINGS_KEY)
  /\ exists s,
       snd (get_settings app true) = Some s
       /\ (settings app !! SETTINGS_KEY = None -> s = Settings.init)
       /\ (forall existing,
             settings app !! SETTINGS_KEY = Some existing ->
             s = existing /\ fst (get_settings app true) = app)
       /\ forall force,
            get_settings (fst (get_settings app true)) force
            = (fst (get_settings app true), Some s).
Proof.
  split.
  - unfold get_settings. destruct (settings app !! SETTINGS_KEY); reflexivity.
  - unfold get_settings, install.
    destruct (settings app !! SETTINGS_KEY) as [existing |] eqn:E; cbn.
    + exists existing. split; [reflexivity |]. split; [discriminate |].
      split; [intros ? [= <-]; split; reflexivity |].
      intros force. rewrite E. reflexivity.
    + exists Settings.init. split; [reflexivity |]. split; [reflexivity |].
      split; [discriminate |].
      intros force. rewrite lookup_insert_eq. reflexivity.
Qed.

Lemma store_settings_lookup (app : Application) (s : ContentSettings) :
  settings (store_settings app s) !! SETTINGS_KEY = Some s.
Proof. cbn. apply lookup_insert_eq. Qed.

Lemma set_default_content_type_eq (app : Application) (content_type : string)
    (encoding : option string) :
  set_default_content_type app content_type encoding
  = store_settings app
      (Settings.set_defaults
         (default Settings.init (settings app !! SETTINGS_KEY))
         (Some content_type) encoding).
Proof.
  unfold set_default_content_type, get_settings, install, store_settings.
  destruct (settings app !! SETTINGS_KEY) as [s |] eqn:E; cbn; [reflexivity |].
  rewrite insert_insert_eq. reflexivity.
Qed.

(** X7.  [set_default_content_type] always stores its two arguments as the
    defaults, also when settings with other defaults exist (where [install]
    would keep the old ones), creates the settings when there are none, and
    leaves the registered transcoders and their order alone; of two calls
    the later one decides. *)
Theorem set_default_content_type_overwrites
    (app : Application) (content_type : string) (encoding : option string) :
  let before := default Settings.init (settings app !! SETTINGS_KEY) in
  let app' := set_default_content_type app content_type encoding in
  (exists s',
     settings app' !! SETTINGS_KEY = Some s'
     /\ default_content_type s' = Some content_type
     /\ default_encoding s' = encoding
     /\ _handlers s' = _handlers before
     /\ _available_types s' = _available_types before
     /\ forall other_type other_encoding,
          install app' other_type other_encoding = (app', s'))
  /\ forall earlier_type earlier_encoding,
       set_default_content_type
         (set_default_content_type app earlier_type earlier_encoding)
         content_type encoding
       = app'.
Proof.
  cbv zeta. rewrite set_default_content_type_eq. split.
  - eexists. split; [apply store_settings_lookup |].
    repeat split.
    intros other_type other_encoding. unfold install.
    rewrite store_settings_lookup. reflexivity.
  - intros earlier_type earlier_encoding.
    rewrite !set_default_content_type_eq, store_settings_lookup.
    unfold store_settings. cbn. rewrite insert_insert_eq. reflexivity.
Qed.

(** X8.  [add_transcoder] makes sure the application has settings and
    registers in them: when it returns, a lookup under its key finds the
    transcoder if the key was free and the earlier handler if it was not,
    and the defaults are as before.  When the key does not parse, the error
    is passed on and nothing is registered, but settings that did not exist
    have been created all the same. *)
Theorem add_transcoder_registers
    (app : Application) (transcoder : ContentHandler) (content_type : option string) :
  let before := default Settings.init (settings app !! SETTINGS_KEY) in
  let key := transcoder_key transcoder content_type in
  let outcome := fst (add_transcoder app transcoder content_type) in
  let app' := snd (add_transcoder app transcoder content_type) in
  exists after,
    settings app' !! SETTINGS_KEY = Some after
    /\ default_content_type after = default_content_type before
    /\ default_encoding after = default_encoding before
    /\ (outcome = Ok tt ->
        Settings.getitem after key
        = match Settings.getitem before key with
          | Ok earlier => Ok earlier
          | Raise _ => Ok transcoder
          end)
    /\ (forall e, outcome = Raise e ->
        parse_failure e /\ after = before /\ Settings.getitem before key = Raise e).
Proof.
  cbv zeta. unfold add_transcoder. rewrite get_settings_forced.
  fold (transcoder_key transcoder content_type).
  set (key := transcoder_key transcoder content_type).
  assert (Hinst : snd (install app None None)
                  = default Settings.init (settings app !! SETTINGS_KEY)
                  /\ settings (fst (install app None None)) !! SETTINGS_KEY
                     = Some (default Settings.init (settings app !! SETTINGS_KEY))).
  { unfold install. destruct (settings app !! SETTINGS_KEY) as [s |] eqn:E; cbn.
    - split; [reflexivity | exact E].
    - split; [reflexivity | apply lookup_insert_eq]. }
  destruct Hinst as [Hsnd Hfst]. rewrite Hsnd.
  set (before := default Settings.init (settings app !! SETTINGS_KEY)) in *.
  destruct (Settings.setitem before key transcoder) as [after | e] eqn:Hs; cbn.
  - exists after. split; [apply lookup_insert_eq |].
    apply setitem_outcome in Hs as (parsed & Hp & [[[h Hh] ->] | [Hfree ->]]); cbn.
    + split; [reflexivity |]. split; [reflexivity |].
      split; [| intros e; discriminate].
      intros _. rewrite (getitem_parsed _ _ _ Hp), Hh. reflexivity.
    + split; [reflexivity |]. split; [reflexivity |].
      split; [| intros e; discriminate].
      intros _. rewrite !(getitem_parsed _ _ _ Hp). cbn.
      rewrite lookup_insert_eq, Hfree. reflexivity.
  - exists before. split; [exact Hfst |].
    split; [reflexivity |]. split; [reflexivity |].
    split; [intros H; discriminate H |].
    intros e' [= <-]. revert Hs. unfold Settings.setitem, Settings.getitem.
    destruct (parse_content_type key) as [parsed | e'] eqn:Hp; cbn.
    + destruct (_handlers before !! ContentType_str parsed);
        intros H; discriminate H.
    + intros [= <-]. split; [eapply parse_content_type_failure, Hp |].
      split; reflexivity.
Qed.

(** X9.  The defaults have to be installed first.  On an application
    without settings, [add_transcoder] creates them without defaults, and an
    [install] after it finds them and stores nothing: the default content
    type stays unset whatever [install] is given. *)
Theorem install_after_add_transcoder_sets_nothing
    (app : Application) (transcoder : ContentHandler) (content_type : option string)
    (default_type encoding : option string) :
  settings app !! SETTINGS_KEY = None ->
  let app' := snd (add_transcoder app transcoder content_type) in
  fst (install app' default_type encoding) = app'
  /\ default_content_type (snd (install app' default_type encoding)) = None
  /\ default_encoding (snd (install app' default_type encoding)) = None.
Proof.
  intros Hnone. cbv zeta.
  destruct (add_transcoder_registers app transcoder content_type)
    as (after & Hafter & Hd & He & _).
  rewrite Hnone in Hd, He. cbn in Hd, He.
  unfold install. rewrite Hafter. cbn. repeat split; assumption.
Qed.

Lemma install_after_add_transcoder_sets_nothing_witness :
  default_content_type
    (snd (install
            (snd (add_transcoder Scenario.empty_application FakeContentHandler
                    (Some "application/json")))
            (Some "application/json") (Some "utf-8")))
  = None.
Proof.
  refine (proj1 (proj2 (install_after_add_transcoder_sets_nothing
            Scenario.empty_application FakeContentHandler (Some "application/json")
            (Some "application/json") (Some "utf-8") _))).
  reflexivity.
Defined.

(** ** What the request methods leave alone *)

Lemma request_body_frame (self : ContentMixin) :
  let outcome := fst (Mixin.get_request_body self) in
  let self1 := snd (Mixin.get_request_body self) in
  request self1 = request self
  /\ _headers self1 = _headers self
  /\ _write_buffer self1 = _write_buffer self
  /\ _best_response_match self1 = _best_response_match self
  /\ (forall s, settings (application self) !! SETTINGS_KEY = Some s ->
        application self1 = application self)
  /\ (forall v, outcome = Ok v -> _request_body self1 = v)
  /\ (forall e, outcome = Raise e -> _request_body self1 = VNone).
Proof.
  cbv zeta. unfold Mixin.get_request_body.
  assert (Happ : forall s, settings (application self) !! SETTINGS_KEY = Some s ->
                   fst (install (application self) None None) = application self).
  { intros s Hs. unfold install. rewrite Hs. reflexivity. }
  destruct (_request_body self) eqn:Hc;
    try (cbn; repeat split; try congruence; intros ? [= <-]; exact Hc).
  rewrite forced_settings_eq.
  destruct (Mixin.content_type_header _ _) as [header |]; cbn;
    [| repeat split; try congruence; exact Happ].
  destruct (parse_content_type header) as [parsed | e]; cbn;
    [| repeat split; try congruence; exact Happ].
  destruct (Settings.getitem _ _) as [handler | e]; cbn.
  - destruct (from_bytes handler _ _) as [v | e]; cbn;
      repeat split; try congruence; exact Happ.
  - destruct e; cbn; repeat split; try congruence; exact Happ.
Qed.

(** X10.  [get_request_body] reads the request and fills its own cache, and
    that is all: the request, the response headers, the chunks written and
    the negotiated response type are as before, the application is only
    changed to create missing settings, and after a failure the cache is
    still empty, so that nothing of a failed decode is ever handed out
    later. *)
Theorem get_request_body_frame (self : ContentMixin) :
  let outcome := fst (Mixin.get_request_body self) in
  let self1 := snd (Mixin.get_request_body self) in
  request self1 = request self
  /\ _headers self1 = _headers self
  /\ _write_buffer self1 = _write_buffer self
  /\ _best_response_match self1 = _best_response_match self
  /\ (forall s, settings (application self) !! SETTINGS_KEY = Some s ->
        application self1 = application self)
  /\ (forall v, outcome = Ok v -> _request_body self1 = v)
  /\ (forall e, outcome = Raise e -> _request_body self1 = VNone).
Proof. exact (request_body_frame self). Qed.

Lemma response_type_keeps_body {N : Negotiator} (self : ContentMixin) :
  _request_body (snd (Mixin.get_response_content_type self)) = _request_body self.
Proof.
  unfold Mixin.get_response_content_type.
  destruct (_best_response_match self); [reflexivity |].
  rewrite forced_settings_eq.
  destruct (parse_accept _); [| reflexivity].
  destruct (select_content_type _ _); reflexivity.
Qed.

(** What [send_response] leaves behind, by outcome. *)
Lemma send_response_cases {N : Negotiator} (self : ContentMixin) (payload : Value)
    (flag : bool) :
  let outcome := fst (Mixin.send_response self payload flag) in
  let sent := snd (Mixin.send_response self payload flag) in
  _request_body sent = _request_body self
  /\ request sent = request self
  /\ match outcome with
     | Raise _ => _headers sent = _headers self /\ _write_buffer sent = _write_buffer self
     | Ok _ =>
         exists response_type handler content_type data_bytes,
           Settings.getitem (snd (Mixin.forced_settings self)) response_type = Ok handler
           /\ _best_response_match sent = Some response_type
           /\ to_bytes handler payload None = Ok (content_type, data_bytes)
           /\ _write_buffer sent = _write_buffer self ++ [data_bytes]
           /\ if flag
              then PyDict.get (_headers sent) "Content-Type" = Some [content_type]
              else _headers sent = _headers self
     end.
Proof.
  cbv zeta.
  pose proof (response_type_frame (fst (Mixin.forced_settings self))) as Hframe.
  pose proof (response_type_keeps_body (fst (Mixin.forced_settings self))) as Hbody.
  cbv zeta in Hframe.
  destruct (Mixin.get_response_content_type (fst (Mixin.forced_settings self)))
    as [[response_type | e] self1] eqn:Hr.
  - pose proof (response_type_stored _ _ _ Hr) as Hstored.
    rewrite (send_response_outcome self payload flag response_type self1 Hr).
    cbn in Hframe, Hbody. destruct Hframe as (Hh & Hw & Hq).
    rewrite forced_settings_eq in Hh, Hw, Hq, Hbody. cbn in Hh, Hw, Hq, Hbody.
    destruct (Mixin.truthy response_type) eqn:Ht; cbn; [| repeat split; assumption].
    destruct response_type as [rt |]; [| discriminate]. cbn.
    destruct (Settings.getitem _ rt) as [handler | e] eqn:Hg; cbn;
      [| repeat split; assumption].
    destruct (to_bytes handler payload None) as [[content_type data_bytes] | e] eqn:Hb;
      cbn; [| repeat split; assumption].
    split; [destruct flag; exact Hbody |].
    split; [destruct flag; exact Hq |].
    exists rt, handler, content_type, data_bytes.
    split; [exact Hg |].
    split; [destruct flag; exact Hstored |].
    split; [exact Hb |].
    split; [destruct flag; cbn; rewrite Hw; reflexivity |].
    destruct flag; cbn; [| exact Hh].
    rewrite pydict_get_set_ne by discriminate. apply pydict_get_set_eq.
  - unfold Mixin.send_response.
    destruct (Mixin.forced_settings self) as [self0 s] eqn:E. cbn in Hr.
    rewrite Hr. cbn. cbn in Hframe, Hbody. destruct Hframe as (Hh & Hw & Hq).
    rewrite forced_settings_eq in E. injection E as <- _.
    cbn in Hh, Hw, Hq, Hbody. repeat split; assumption.
Qed.

(** X11.  [send_response] sets no header and writes nothing before the
    payload is encoded: when negotiation fails, when no response type is
    resolved (415), when no handler is registered under the resolved type,
    or when the transcoder fails to encode, the call ends in that error with
    the response headers and the written chunks as before.  It never
    changes the request or the cached request body. *)
Theorem send_response_fails_before_sending {N : Negotiator}
    (self : ContentMixin) (payload : Value) (flag : bool) :
  let s := snd (Mixin.forced_settings self) in
  let negotiated := fst (Mixin.get_response_content_type (fst (Mixin.forced_settings self))) in
  let outcome := fst (Mixin.send_response self payload flag) in
  let sent := snd (Mixin.send_response self payload flag) in
  let untouched := _headers sent = _headers self /\ _write_buffer sent = _write_buffer self in
  _request_body sent = _request_body self
  /\ request sent = request self
  /\ (forall e, negotiated = Raise e -> outcome = Raise e /\ untouched)
  /\ (forall response_type,
        negotiated = Ok response_type -> Mixin.truthy response_type = false ->
        outcome = Raise (HTTPError 415) /\ untouched)
  /\ (forall response_type e,
        negotiated = Ok (Some response_type) -> response_type <> ""%string ->
        Settings.getitem s response_type = Raise e ->
        outcome = Raise e /\ untouched)
  /\ (forall response_type handler e,
        negotiated = Ok (Some response_type) -> response_type <> ""%string ->
        Settings.getitem s response_type = Ok handler ->
        to_bytes handler payload None = Raise e ->
        outcome = Raise e /\ untouched).
Proof.
  cbv zeta. pose proof (send_response_cases self payload flag) as H. cbv zeta in H.
  destruct H as (Hb & Hq & Hcase).
  split; [exact Hb |]. split; [exact Hq |].
  assert (Huntouched : forall e, fst (Mixin.send_response self payload flag) = Raise e ->
            _headers (snd (Mixin.send_response self payload flag)) = _headers self
            /\ _write_buffer (snd (Mixin.send_response self payload flag))
               = _write_buffer self).
  { intros e He. rewrite He in Hcase. exact Hcase. }
  assert (Hfail : forall e, fst (Mixin.send_response self payload flag) = Raise e ->
            fst (Mixin.send_response self payload flag) = Raise e
            /\ _headers (snd (Mixin.send_response self payload flag)) = _headers self
               /\ _write_buffer (snd (Mixin.send_response self payload flag))
                  = _write_buffer self).
  { intros e He. split; [exact He | exact (Huntouched e He)]. }
  clear Hcase Huntouched.
  destruct (Mixin.get_response_content_type (fst (Mixin.forced_settings self)))
    as [[response_type | e0] self1] eqn:Hr; cbn [fst].
  - pose proof (send_response_outcome self payload flag response_type self1 Hr) as Hout.
    split; [intros e [=] |].
    split; [| split].
    + intros rt [= <-] Ht. apply Hfail. rewrite Hout, Ht. reflexivity.
    + intros rt e [= ->] Hne Hg. apply Hfail. rewrite Hout.
      cbn [Mixin.truthy default from_option id].
      apply String.eqb_neq in Hne. rewrite Hne. cbn [negb]. rewrite Hg. reflexivity.
    + intros rt handler e [= ->] Hne Hg Hb'. apply Hfail. rewrite Hout.
      cbn [Mixin.truthy default from_option id].
      apply String.eqb_neq in Hne. rewrite Hne. cbn [negb]. rewrite Hg, Hb'. reflexivity.
  - assert (Hout : fst (Mixin.send_response self payload flag) = Raise e0).
    { unfold Mixin.send_response.
      destruct (Mixin.forced_settings self) as [self0 s0]. cbn [fst] in Hr.
      rewrite Hr. reflexivity. }
    split; [intros e [= <-]; apply Hfail, Hout |].
    split; [intros rt [=] |]. split; [intros rt e [=] | intros rt handler e [=]].
Qed.

(** ** The declared content type *)

Lemma forced_settings_with_request (self : ContentMixin) (req : HTTPServerRequest) :
  snd (Mixin.forced_settings (Mixin.with_request self req))
  = snd (Mixin.forced_settings self).
Proof. rewrite !forced_settings_eq. reflexivity. Qed.

(** What an uncached [get_request_body] returns only depends on the
    settings, the declared content type and the body. *)
Lemma request_body_by_header (self : ContentMixin) :
  _request_body self = VNone ->
  fst (Mixin.get_request_body self)
  = match Mixin.content_type_header (request self) (snd (Mixin.forced_settings self)) with
    | None => Raise TypeError
    | Some header =>
        match parse_content_type header with
        | Raise e => Raise e
        | Ok parsed =>
            match Settings.getitem (snd (Mixin.forced_settings self))
                    (Mixin.type_subtype_suffix parsed) with
            | Raise KeyError => Raise (HTTPError 415)
            | Raise e => Raise e
            | Ok handler =>
                match from_bytes handler (body (request self)) None with
                | Raise _ => Raise (HTTPError 400)
                | Ok v => Ok v
                end
            end
        end
    end.
Proof.
  intros Hc. unfold Mixin.get_request_body. rewrite Hc, forced_settings_eq. cbn.
  destruct (Mixin.content_type_header _ _) as [header |]; [| reflexivity].
  destruct (parse_content_type header) as [parsed | e]; [| reflexivity].
  destruct (Settings.getitem _ _) as [handler | []]; try reflexivity.
  destruct (from_bytes handler _ _); reflexivity.
Qed.

(** X12.  A request without [Content-Type] header is decoded exactly as if
    it had declared the default content type of the settings. *)
Theorem absent_content_type_means_default (self : ContentMixin) (default_type : string) :
  _request_body self = VNone ->
  headers (request self) !! "Content-Type" = None ->
  default_content_type (snd (Mixin.forced_settings self)) = Some default_type ->
  fst (Mixin.get_request_body self)
  = fst (Mixin.get_request_body (with_header self "Content-Type" default_type)).
Proof.
  intros Hc Hh Hd.
  rewrite (request_body_by_header self Hc).
  rewrite (request_body_by_header (with_header self "Content-Type" default_type))
    by exact Hc.
  unfold with_header. rewrite forced_settings_with_request.
  unfold Mixin.content_type_header. cbn. rewrite Hh, Hd, lookup_insert_eq. reflexivity.
Qed.

Lemma absent_content_type_means_default_witness :
  fst (Mixin.get_request_body
         (Scenario.handler_for Scenario.example_application
            (Scenario.request_with [] [])))
  = fst (Mixin.get_request_body
           (with_header
              (Scenario.handler_for Scenario.example_application
                 (Scenario.request_with [] []))
              "Content-Type" "application/json")).
Proof.
  apply absent_content_type_means_default; vm_compute; reflexivity.
Defined.

(** X13.  The parameters of the declared content type have no part in
    decoding: two declarations with the same type, subtype and suffix are
    decoded alike, whatever [charset] or other parameters they carry. *)
Theorem content_type_parameters_are_ignored
    (self : ContentMixin) (declared1 declared2 : string) (parsed1 parsed2 : ContentType) :
  _request_body self = VNone ->
  parse_content_type declared1 = Ok parsed1 ->
  parse_content_type declared2 = Ok parsed2 ->
  Mixin.type_subtype_suffix parsed1 = Mixin.type_subtype_suffix parsed2 ->
  fst (Mixin.get_request_body (with_header self "Content-Type" declared1))
  = fst (Mixin.get_request_body (with_header self "Content-Type" declared2)).
Proof.
  intros Hc Hp1 Hp2 Heq.
  rewrite !request_body_by_header by exact Hc.
  unfold with_header. rewrite !forced_settings_with_request.
  unfold Mixin.content_type_header. cbn. rewrite !lookup_insert_eq, Hp1, Hp2, Heq.
  reflexivity.
Qed.

Lemma content_type_parameters_are_ignored_witness :
  let self :=
    Scenario.handler_for Scenario.example_application
      (Scenario.request_with [] [Byte.x80]) in
  fst (Mixin.get_request_body (with_header self "Content-Type" "application/msgpack"))
  = fst (Mixin.get_request_body
           (with_header self "Content-Type" "application/msgpack; charset=latin-1")).
Proof.
  intros self.
  refine (content_type_parameters_are_ignored self _ _
            {| content_type := "application"; content_subtype := "msgpack";
               content_suffix := None; parameters := [] |}
            {| content_type := "application"; content_subtype := "msgpack";
               content_suffix := None; parameters := [("charset", "latin-1")] |}
            _ _ _ _); vm_compute; reflexivity.
Defined.

(** ** The optimal packings of the tests *)

Lemma encode_injective (s1 s2 : string) :
  MsgPack.encode s1 = MsgPack.encode s2 -> s1 = s2.
Proof.
  unfold MsgPack.encode. intros H.
  rewrite <- (string_of_list_byte_of_string s1), <- (string_of_list_byte_of_string s2), H.
  reflexivity.
Qed.

Lemma byte_of_Z_value (z : Z) :
  (0 <= z < 256)%Z -> Z.of_N (Byte.to_N (MsgPack.byte_of_Z z)) = z.
Proof.
  intros Hz. unfold MsgPack.byte_of_Z. rewrite Z.mod_small by exact Hz.
  destruct (Byte.of_N (Z.to_N z)) as [b |] eqn:E.
  - cbn. apply Byte.to_of_N in E. rewrite E. lia.
  - apply Byte.of_N_None_iff in E. lia.
Qed.

Lemma byte_of_Z_injective (a b : Z) :
  (0 <= a < 256)%Z -> (0 <= b < 256)%Z ->
  MsgPack.byte_of_Z a = MsgPack.byte_of_Z b -> a = b.
Proof.
  intros Ha Hb H.
  rewrite <- (byte_of_Z_value a Ha), <- (byte_of_Z_value b Hb), H. reflexivity.
Qed.

Local Ltac powers :=
  change (2 ^ 5)%Z with 32%Z in *; change (2 ^ 8)%Z with 256%Z in *;
  change (2 ^ 16)%Z with 65536%Z in *; change (2 ^ 32)%Z with 4294967296%Z in *.

(** What a returning call of [pack_string] is made of: a header whose
    size and first octet depend on the length only, then the octets. *)
Lemma pack_string_shape (obj : string) (b : bytes) :
  MsgPack.pack_string obj = Ok b ->
  MsgPack.is_ascii obj = true
  /\ (MsgPack.len (MsgPack.encode obj) < 2 ^ 32)%Z
  /\ exists prefix tag,
       b = prefix ++ MsgPack.encode obj
       /\ length prefix = string_header_size (MsgPack.len (MsgPack.encode obj))
       /\ hd_error prefix = Some (MsgPack.byte_of_Z tag)
       /\ (160 <= tag < 192 \/ 217 <= tag <= 219)%Z.
Proof.
  unfold MsgPack.pack_string, string_header_size.
  destruct (MsgPack.is_ascii obj); cbn [negb]; [| discriminate].
  cbv zeta.
  assert (Hlen : (0 <= MsgPack.len (MsgPack.encode obj))%Z) by (unfold MsgPack.len; lia).
  destruct (Z.ltb_spec (MsgPack.len (MsgPack.encode obj)) (2 ^ 5)) as [H5 | H5].
  { intros [= <-]. split; [reflexivity |]. split; [powers; lia |].
    exists [MsgPack.byte_of_Z (Z.lor 160 (MsgPack.len (MsgPack.encode obj)))],
      (Z.lor 160 (MsgPack.len (MsgPack.encode obj))).
    split; [reflexivity |]. split; [reflexivity |]. split; [reflexivity |].
    unfold MsgPack.len in *. rewrite fixstr_tag by (powers; lia). powers. lia. }
  destruct (Z.ltb_spec (MsgPack.len (MsgPack.encode obj)) (2 ^ 8)) as [H8 | H8].
  { intros [= <-]. split; [reflexivity |]. split; [powers; lia |].
    exists [MsgPack.byte_of_Z 217; MsgPack.byte_of_Z (MsgPack.len (MsgPack.encode obj))], 217%Z.
    split; [reflexivity |]. split; [reflexivity |]. split; [reflexivity | lia]. }
  destruct (Z.ltb_spec (MsgPack.len (MsgPack.encode obj)) (2 ^ 16)) as [H16 | H16].
  { intros [= <-]. split; [reflexivity |]. split; [powers; lia |].
    exists (MsgPack.byte_of_Z 218 :: MsgPack.big_endian 2 (MsgPack.len (MsgPack.encode obj))), 218%Z.
    split; [reflexivity |]. split; [reflexivity |]. split; [reflexivity | lia]. }
  destruct (Z.ltb_spec (MsgPack.len (MsgPack.encode obj)) (2 ^ 32)) as [H32 | H32].
  { intros [= <-]. split; [reflexivity |]. split; [exact H32 |].
    exists (MsgPack.byte_of_Z 219 :: MsgPack.big_endian 4 (MsgPack.len (MsgPack.encode obj))), 219%Z.
    split; [reflexivity |]. split; [reflexivity |]. split; [reflexivity | lia]. }
  discriminate.
Qed.

(** The same for [pack_bytes]. *)
Lemma pack_bytes_shape (payload b : bytes) :
  MsgPack.pack_bytes payload = Ok b ->
  (MsgPack.len payload < 2 ^ 32)%Z
  /\ exists prefix tag,
       b = prefix ++ payload
       /\ length prefix = bytes_header_size (MsgPack.len payload)
       /\ hd_error prefix = Some (MsgPack.byte_of_Z tag)
       /\ (196 <= tag <= 198)%Z.
Proof.
  unfold MsgPack.pack_bytes, bytes_header_size. cbv zeta.
  destruct (Z.ltb_spec (MsgPack.len payload) (2 ^ 8)) as [H8 | H8].
  { intros [= <-]. split; [powers; lia |].
    exists [MsgPack.byte_of_Z 196; MsgPack.byte_of_Z (MsgPack.len payload)], 196%Z.
    split; [reflexivity |]. split; [reflexivity |]. split; [reflexivity | lia]. }
  destruct (Z.ltb_spec (MsgPack.len payload) (2 ^ 16)) as [H16 | H16].
  { intros [= <-]. split; [powers; lia |].
    exists (MsgPack.byte_of_Z 197 :: MsgPack.big_endian 2 (MsgPack.len payload)), 197%Z.
    split; [reflexivity |]. split; [reflexivity |]. split; [reflexivity | lia]. }
  destruct (Z.ltb_spec (MsgPack.len payload) (2 ^ 32)) as [H32 | H32].
  { intros [= <-]. split; [exact H32 |].
    exists (MsgPack.byte_of_Z 198 :: MsgPack.big_endian 4 (MsgPack.len payload)), 198%Z.
    split; [reflexivity |]. split; [reflexivity |]. split; [reflexivity | lia]. }
  discriminate.
Qed.

Lemma string_header_size_mono (a b : Z) :
  (a <= b)%Z -> (string_header_size a <= string_header_size b)%nat.
Proof.
  intros Hab. unfold string_header_size.
  repeat match goal with
         | |- context [Z.ltb ?x ?y] => destruct (Z.ltb_spec x y)
         end; lia.
Qed.

Lemma bytes_header_size_mono (a b : Z) :
  (a <= b)%Z -> (bytes_header_size a <= bytes_header_size b)%nat.
Proof.
  intros Hab. unfold bytes_header_size.
  repeat match goal with
         | |- context [Z.ltb ?x ?y] => destruct (Z.ltb_spec x y)
         end; lia.
Qed.

(** Two packings of the same total size, each a header whose size grows
    with the payload's length followed by the payload, carry payloads of
    the same length. *)
Lemma same_payload (size : Z -> nat) (p1 p2 h1 h2 : bytes) :
  (forall a b, (a <= b)%Z -> (size a <= size b)%nat) ->
  length h1 = size (MsgPack.len p1) ->
  length h2 = size (MsgPack.len p2) ->
  h1 ++ p1 = h2 ++ p2 -> p1 = p2.
Proof.
  intros Hmono H1 H2 Heq.
  assert (Hl : length (h1 ++ p1) = length (h2 ++ p2)) by (rewrite Heq; reflexivity).
  rewrite !length_app, H1, H2 in Hl.
  assert (Hp : length p1 = length p2).
  { unfold MsgPack.len in Hl.
    destruct (Nat.lt_trichotomy (length p1) (length p2)) as [Hlt | [Heq' | Hgt]];
      [| exact Heq' |].
    - pose proof (Hmono (Z.of_nat (length p1)) (Z.of_nat (length p2)) ltac:(lia)). lia.
    - pose proof (Hmono (Z.of_nat (length p2)) (Z.of_nat (length p1)) ltac:(lia)). lia. }
  apply (app_inj_2 h1 h2 p1 p2 Hp Heq).
Qed.

(** X15. [pack_string] of tests.py returns exactly for ASCII text of fewer
    than 2^32 octets: other text fails in [encode('ASCII')] and a longer
    one in [struct.pack].  What it returns is a header of one, two, three
    or five octets, by the length of the text, followed by the octets of
    the text unchanged. *)
Theorem pack_string_returns_header_and_text (obj : string) :
  let payload := MsgPack.encode obj in
  let header := string_header_size (MsgPack.len payload) in
  ((exists b, MsgPack.pack_string obj = Ok b)
   <-> MsgPack.is_ascii obj = true /\ (MsgPack.len payload < 2 ^ 32)%Z)
  /\ forall b, MsgPack.pack_string obj = Ok b ->
       length b = (header + length payload)%nat /\ drop header b = payload.
Proof.
  cbv zeta. split; [split |].
  - intros [b Hb]. destruct (pack_string_shape obj b Hb) as (Ha & Hl & _).
    split; assumption.
  - intros [Ha Hl]. unfold MsgPack.pack_string. rewrite Ha. cbn [negb]. cbv zeta.
    destruct (_ <? 2 ^ 5)%Z; [eexists; reflexivity |].
    destruct (_ <? 2 ^ 8)%Z; [eexists; reflexivity |].
    destruct (_ <? 2 ^ 16)%Z; [eexists; reflexivity |].
    destruct (Z.ltb_spec (MsgPack.len (MsgPack.encode obj)) (2 ^ 32)) as [H32 | H32];
      [eexists; reflexivity | lia].
  - intros b Hb.
    destruct (pack_string_shape obj b Hb) as (_ & _ & prefix & tag & -> & Hp & _).
    split.
    + rewrite length_app, Hp. reflexivity.
    + rewrite <- Hp. apply drop_app_length.
Qed.

(** X16. [pack_string] of tests.py loses nothing: two texts that it packs
    to the same octets are the same text. *)
Theorem pack_string_is_injective (s1 s2 : string) (b : bytes) :
  MsgPack.pack_string s1 = Ok b -> MsgPack.pack_string s2 = Ok b -> s1 = s2.
Proof.
  intros H1 H2.
  destruct (pack_string_shape s1 b H1) as (_ & _ & h1 & t1 & E1 & L1 & _).
  destruct (pack_string_shape s2 b H2) as (_ & _ & h2 & t2 & E2 & L2 & _).
  apply encode_injective.
  apply (same_payload string_header_size _ _ h1 h2 string_header_size_mono L1 L2).
  congruence.
Qed.

Lemma pack_string_is_injective_witness :
  let packed := [MsgPack.byte_of_Z 163; MsgPack.byte_of_Z 102; MsgPack.byte_of_Z 111;
                 MsgPack.byte_of_Z 111] in
  MsgPack.pack_string "foo" = Ok packed /\ "foo" = "foo".
Proof.
  cbv zeta. split; [vm_compute; reflexivity |].
  apply (pack_string_is_injective "foo" "foo"
           [MsgPack.byte_of_Z 163; MsgPack.byte_of_Z 102; MsgPack.byte_of_Z 111;
            MsgPack.byte_of_Z 111]); vm_compute; reflexivity.
Defined.

(** X17. [pack_bytes] of tests.py returns exactly for fewer than 2^32
    octets, and then a header of two, three or five octets, by the number
    of octets, followed by the octets unchanged; two buffers that it packs
    to the same octets are the same buffer. *)
Theorem pack_bytes_returns_header_and_payload (payload : bytes) :
  let header := bytes_header_size (MsgPack.len payload) in
  ((exists b, MsgPack.pack_bytes payload = Ok b) <-> (MsgPack.len payload < 2 ^ 32)%Z)
  /\ (forall b, MsgPack.pack_bytes payload = Ok b ->
        length b = (header + length payload)%nat /\ drop header b = payload)
  /\ forall other b, MsgPack.pack_bytes payload = Ok b ->
       MsgPack.pack_bytes other = Ok b -> other = payload.
Proof.
  cbv zeta. split; [split | split].
  - intros [b Hb]. destruct (pack_bytes_shape payload b Hb) as (Hl & _). exact Hl.
  - intros Hl. unfold MsgPack.pack_bytes. cbv zeta.
    destruct (_ <? 2 ^ 8)%Z; [eexists; reflexivity |].
    destruct (_ <? 2 ^ 16)%Z; [eexists; reflexivity |].
    destruct (Z.ltb_spec (MsgPack.len payload) (2 ^ 32)) as [H32 | H32];
      [eexists; reflexivity | lia].
  - intros b Hb.
    destruct (pack_bytes_shape payload b Hb) as (_ & prefix & tag & -> & Hp & _).
    split.
    + rewrite length_app, Hp. reflexivity.
    + rewrite <- Hp. apply drop_app_length.
  - intros other b H1 H2.
    destruct (pack_bytes_shape payload b H1) as (_ & h1 & t1 & E1 & L1 & _).
    destruct (pack_bytes_shape other b H2) as (_ & h2 & t2 & E2 & L2 & _).
    apply (same_payload bytes_header_size _ _ h2 h1 bytes_header_size_mono L2 L1).
    congruence.
Qed.

(** X18. The octets [pack_string] returns never equal the octets
    [pack_bytes] returns: the first octet tells a packed text from a
    packed buffer. *)
Theorem packed_text_is_not_a_packed_buffer (obj : string) (payload b1 b2 : bytes) :
  MsgPack.pack_string obj = Ok b1 -> MsgPack.pack_bytes payload = Ok b2 ->
  hd_error b1 <> hd_error b2.
Proof.
  intros H1 H2.
  destruct (pack_string_shape obj b1 H1) as (_ & _ & h1 & t1 & -> & L1 & T1 & R1).
  destruct (pack_bytes_shape payload b2 H2) as (_ & h2 & t2 & -> & L2 & T2 & R2).
  destruct h1 as [| x1 h1]; [discriminate T1 |].
  destruct h2 as [| x2 h2]; [discriminate T2 |].
  cbn in T1, T2 |- *. intros [= Hx]. injection T1 as ->. injection T2 as ->.
  apply byte_of_Z_injective in Hx; lia.
Qed.

Lemma packed_text_is_not_a_packed_buffer_witness :
  let text := [MsgPack.byte_of_Z 163; MsgPack.byte_of_Z 102; MsgPack.byte_of_Z 111;
               MsgPack.byte_of_Z 111] in
  let buffer := [MsgPack.byte_of_Z 196; MsgPack.byte_of_Z 1; MsgPack.byte_of_Z 102] in
  MsgPack.pack_string "foo" = Ok text
  /\ MsgPack.pack_bytes [MsgPack.byte_of_Z 102] = Ok buffer
  /\ (hd_error text = hd_error buffer -> False).
Proof.
  cbv zeta. split; [vm_compute; reflexivity |]. split; [vm_compute; reflexivity |].
  apply (packed_text_is_not_a_packed_buffer "foo" [MsgPack.byte_of_Z 102]);
    vm_compute; reflexivity.
Defined.

(** ** Registry keys are fixed points of the normalization *)

Lemma lower_char_facts (c : ascii) :
  PyStr.lower_char (PyStr.lower_char c) = PyStr.lower_char c
  /\ Ascii.eqb "+" (PyStr.lower_char c) = Ascii.eqb "+" c
  /\ (MediaType.is_tchar c = true ->
      MediaType.is_tchar (PyStr.lower_char c) = true /\ Ascii.eqb "/" c = false).
Proof.
  destruct c as [[] [] [] [] [] [] [] []]; vm_compute;
    (split; [reflexivity |]); (split; [reflexivity |]);
    intros H; first [discriminate H | split; reflexivity].
Qed.

Lemma lower_idempotent (s : string) : PyStr.lower (PyStr.lower s) = PyStr.lower s.
Proof.
  induction s as [| c s IH]; cbn [PyStr.lower]; [reflexivity |].
  rewrite IH. destruct (lower_char_facts c) as (-> & _). reflexivity.
Qed.

Lemma lower_plus (s : string) : PyStr.mem "+" (PyStr.lower s) = PyStr.mem "+" s.
Proof.
  induction s as [| c s IH]; cbn [PyStr.lower PyStr.mem]; [reflexivity |].
  rewrite IH. destruct (lower_char_facts c) as (_ & -> & _). reflexivity.
Qed.

Lemma lower_tchars (s : string) :
  MediaType.all_chars MediaType.is_tchar s = true ->
  MediaType.all_chars MediaType.is_tchar (PyStr.lower s) = true.
Proof.
  induction s as [| c s IH]; cbn [PyStr.lower MediaType.all_chars]; [reflexivity |].
  intros H. apply andb_true_iff in H as [Hc Hs]. rewrite (IH Hs).
  destruct (lower_char_facts c) as (_ & _ & Ht). destruct (Ht Hc) as [-> _]. reflexivity.
Qed.

Lemma tchars_plain (s : string) :
  MediaType.all_chars MediaType.is_tchar s = true ->
  spaceless s /\ PyStr.mem "/" s = false.
Proof.
  intros H. split.
  - unfold spaceless. eapply all_chars_impl; [| exact H].
    intros d Hd. apply tchar_facts in Hd. apply negb_true_iff. tauto.
  - eapply all_chars_mem; [| exact H].
    intros d Hd. destruct (lower_char_facts d) as (_ & _ & Ht). apply Ht, Hd.
Qed.

Lemma lower_token (s : string) :
  MediaType.is_token s = true -> MediaType.is_token (PyStr.lower s) = true.
Proof.
  intros H. apply token_chars in H as [Hne Hall]. unfold MediaType.is_token.
  rewrite (lower_tchars s Hall). destruct s as [| c s]; [congruence | reflexivity].
Qed.

(** A field that is made of token characters is cleaned by lower-casing. *)
Lemma clean_tchars (s : string) :
  MediaType.all_chars MediaType.is_tchar s = true ->
  PyStr.lower (PyStr.strip s) = PyStr.lower s.
Proof. intros H. rewrite strip_spaceless; [reflexivity | apply tchars_plain, H]. Qed.

Lemma split_one (sep : ascii) (s b : string) : PyStr.split sep s = [b] -> s = b.
Proof.
  revert b. induction s as [| c s IH]; cbn [PyStr.split]; intros b.
  - intros [= <-]. reflexivity.
  - destruct (Ascii.eqb c sep).
    + intros [= <- H]. destruct (split_nonempty sep s H).
    + destruct (PyStr.split sep s) as [| p ps] eqn:E.
      * destruct (split_nonempty sep s E).
      * intros [= <- ->]. rewrite (IH p eq_refl). reflexivity.
Qed.

(** A string that splits in two is the two pieces around the separator. *)
Lemma split_two (sep : ascii) (s a b : string) :
  PyStr.split sep s = [a; b] ->
  s = (a ++ String sep b)%string
  /\ PyStr.mem sep a = false /\ PyStr.mem sep b = false.
Proof.
  intros H. split.
  - revert a H. induction s as [| c s IH]; cbn [PyStr.split]; intros a.
    + discriminate.
    + destruct (Ascii.eqb c sep) eqn:Ec.
      * intros [= <- H]. apply Ascii.eqb_eq in Ec. subst c.
        rewrite (split_one sep s b H). reflexivity.
      * destruct (PyStr.split sep s) as [| p ps] eqn:E; [discriminate |].
        intros [= <- ->]. rewrite (IH p eq_refl). reflexivity.
  - split; apply (split_piece_no_sep sep s); rewrite H; simpl; tauto.
Qed.

Lemma essence_piece (s : string) :
  MediaType.all_chars (fun c => MediaType.is_tchar c || Ascii.eqb c "/") s = true ->
  PyStr.mem "/" s = false ->
  MediaType.all_chars MediaType.is_tchar s = true.
Proof.
  induction s as [| c s IH]; cbn [MediaType.all_chars PyStr.mem]; [reflexivity |].
  intros H Hm. apply andb_true_iff in H as [Hc Hs].
  apply orb_false_iff in Hm as [Hm1 Hm2]. rewrite (IH Hs Hm2).
  rewrite Ascii.eqb_sym, Hm1, orb_false_r in Hc. rewrite Hc. reflexivity.
Qed.

Lemma join_two (sep p q : string) (rest : list string) :
  PyStr.join sep (p :: q :: rest) = (p ++ sep ++ PyStr.join sep (q :: rest))%string.
Proof. reflexivity. Qed.

Lemma render_parameters_cons (kv : string * string) (params : list (string * string)) :
  MediaType.render_parameters (kv :: params)
  = ("; " ++ fst kv ++ "=" ++ snd kv ++ MediaType.render_parameters params)%string.
Proof. reflexivity. Qed.

Lemma join_rendered (d : PyDict.t string) (names : list string) :
  names <> [] ->
  ("; " ++ PyStr.join "; " (map (render_parameter d) names))%string
  = MediaType.render_parameters
      (map (fun name => (name, default ""%string (PyDict.get d name))) names).
Proof.
  induction names as [| n names IH]; [congruence |]. intros _.
  destruct names as [| m names].
  - cbn [map PyStr.join MediaType.render_parameters fst snd].
    unfold render_parameter. string_norm. rewrite append_nil_r. reflexivity.
  - specialize (IH ltac:(discriminate)). cbn [map] in IH |- *. rewrite join_two.
    rewrite render_parameters_cons, <- IH. cbn [fst snd].
    unfold render_parameter. string_norm. reflexivity.
Qed.

Lemma sorted_keys_permutation (d : PyDict.t string) :
  Permutation (PyStr.sorted (PyDict.keys d)) (map fst d).
Proof. unfold PyStr.sorted, PyDict.keys. apply merge_sort_Permutation. Qed.

(** [__str__] writes the media type from its fields, the parameters in the
    order of their names. *)
Lemma str_rendered (ty sub : string) (suffix : option string) (d : PyDict.t string) :
  ContentType_str (mkContentType ty sub suffix d)
  = MediaType.render
      (ty ++ "/" ++ sub ++
       match suffix with
       | Some x => if String.eqb x "" then "" else "+" ++ x
       | None => ""
       end)%string
      (written_parameters d).
Proof.
  unfold ContentType_str, MediaType.render, written_parameters.
  cbn [content_type content_subtype content_suffix parameters].
  destruct d as [| kv d].
  - assert (Hs : PyStr.sorted (PyDict.keys (@nil (string * string))) = []).
    { apply Permutation_nil. symmetry. apply (sorted_keys_permutation []). }
    rewrite Hs. cbn [map MediaType.render_parameters]. rewrite append_nil_r. reflexivity.
  - rewrite <- join_rendered; [reflexivity |].
    intros Hs. pose proof (sorted_keys_permutation (kv :: d)) as Hp.
    rewrite Hs in Hp. apply Permutation_nil in Hp. discriminate Hp.
Qed.

Lemma written_parameters_permutation (d : PyDict.t string) :
  List.NoDup (map fst d) -> Permutation (written_parameters d) d.
Proof.
  intros Hnd. unfold written_parameters.
  rewrite (Permutation_map _ (sorted_keys_permutation d)).
  rewrite map_map. rewrite <- (map_id d) at 2.
  apply Permutation_refl'. apply map_ext_in. intros [k v] Hin. cbn [fst].
  apply (pydict_get_in d k v Hnd) in Hin. rewrite Hin. reflexivity.
Qed.

Lemma fold_case_tokens (params : list (string * string)) :
  MediaType.well_formed params ->
  MediaType.well_formed (map MediaType.fold_case params)
  /\ Forall (fun kv => MediaType.fold_case kv = kv) (map MediaType.fold_case params).
Proof.
  unfold MediaType.well_formed. intros H. rewrite !Forall_map. split.
  - eapply Forall_impl; [exact H |]. intros [k v] [Hk Hv].
    cbn [MediaType.fold_case fst snd compose] in *.
    split; apply lower_token; assumption.
  - apply Forall_forall. intros [k v] _. unfold MediaType.fold_case. cbn [fst snd].
    rewrite !lower_idempotent. reflexivity.
Qed.

(** What [__str__] writes of parameters in lower case with distinct names
    is read back as the same parameters. *)
Lemma written_parameters_facts (params : list (string * string)) :
  MediaType.well_formed params ->
  MediaType.distinct_names params ->
  let d := map MediaType.fold_case params in
  MediaType.well_formed (written_parameters d)
  /\ MediaType.distinct_names (written_parameters d)
  /\ map MediaType.fold_case (written_parameters d) = written_parameters d
  /\ List.NoDup (map fst (written_parameters d))
  /\ Permutation (written_parameters d) d.
Proof.
  intros Hwf Hd. cbv zeta.
  destruct (distinct_names_keys params Hd) as [_ Hk].
  destruct (fold_case_tokens params Hwf) as [Hwf' Hfix].
  set (d := map MediaType.fold_case params) in *.
  pose proof (written_parameters_permutation d Hk) as Hp.
  assert (Hfix' : Forall (fun kv => MediaType.fold_case kv = kv) (written_parameters d)).
  { eapply Permutation_Forall; [apply Permutation_sym, Hp | exact Hfix]. }
  assert (Hmap : map MediaType.fold_case (written_parameters d) = written_parameters d).
  { rewrite <- (map_id (written_parameters d)) at 2. apply map_ext_in.
    intros kv Hin. rewrite List.Forall_forall in Hfix'. apply Hfix', Hin. }
  assert (Hnd : List.NoDup (map fst (written_parameters d))).
  { eapply Permutation_NoDup; [| exact Hk].
    apply Permutation_map, Permutation_sym, Hp. }
  split; [| split; [| split; [exact Hmap | split; [exact Hnd | exact Hp]]]].
  - unfold MediaType.well_formed.
    eapply Permutation_Forall; [apply Permutation_sym, Hp | exact Hwf'].
  - unfold MediaType.distinct_names. apply NoDup_ListNoDup.
    replace (map (fun kv => PyStr.lower (fst kv)) (written_parameters d))
      with (map fst (map MediaType.fold_case (written_parameters d)))
      by (rewrite map_map; reflexivity).
    rewrite Hmap. exact Hnd.
Qed.

Lemma str_empty_suffix (ty sub : string) (d : PyDict.t string) :
  ContentType_str (mkContentType ty sub (Some ""%string) d)
  = ContentType_str (mkContentType ty sub None d).
Proof. reflexivity. Qed.

Lemma lower_empty (s : string) : String.eqb (PyStr.lower s) "" = String.eqb s "".
Proof. destruct s; reflexivity. Qed.

Lemma normalized_again_suffix (ty sub : string) (suffix : option string)
    (params : list (string * string)) :
  MediaType.all_chars MediaType.is_tchar ty = true ->
  MediaType.all_chars MediaType.is_tchar sub = true ->
  PyStr.mem "+" sub = false ->
  match suffix with
  | Some x => MediaType.all_chars MediaType.is_tchar x = true /\ PyStr.mem "+" x = false
              /\ String.eqb x "" = false
  | None => True
  end ->
  MediaType.well_formed params ->
  MediaType.distinct_names params ->
  let key := ContentType_str
               (mkContentType (PyStr.lower ty) (PyStr.lower sub)
                  (option_map PyStr.lower suffix) (map MediaType.fold_case params)) in
  MediaType.registry_key key = Ok key.
Proof.
  intros Hty Hsub Hplus Hsuffix Hwf Hd. cbv zeta.
  destruct (written_parameters_facts params Hwf Hd) as (Hwf2 & Hd2 & Hmap & Hnd & Hp).
  set (d := map MediaType.fold_case params) in *.
  pose proof (lower_tchars ty Hty) as Hty'.
  pose proof (lower_tchars sub Hsub) as Hsub'.
  destruct (tchars_plain _ Hty') as [_ Hty_slash].
  destruct (tchars_plain _ Hsub') as [_ Hsub_slash].
  assert (Hq : forall s, MediaType.all_chars MediaType.is_tchar s = true ->
               MediaType.all_chars (fun c => MediaType.is_tchar c || Ascii.eqb c "/") s = true).
  { intros s Hs. eapply all_chars_impl; [| exact Hs]. intros c ->. reflexivity. }
  rewrite (str_rendered _ _ _ d) at 1.
  set (tail := match option_map PyStr.lower suffix with
               | Some x => if String.eqb x "" then ""%string else ("+" ++ x)%string
               | None => ""%string
               end).
  assert (Htail : MediaType.all_chars MediaType.is_tchar tail = true
                  /\ split_suffix (PyStr.lower sub ++ tail)
                     = Ok (PyStr.lower sub, option_map PyStr.lower suffix)).
  { subst tail. destruct suffix as [x |]; cbn [option_map].
    - destruct Hsuffix as (Hx & Hxp & Hne). pose proof (lower_tchars x Hx) as Hx'.
      rewrite lower_empty, Hne. split.
      + string_norm. cbn [MediaType.all_chars]. rewrite Hx'. reflexivity.
      + unfold split_suffix. string_norm. rewrite mem_app. cbn [PyStr.mem].
        rewrite Ascii.eqb_refl, orb_true_r.
        rewrite split_app_sep by (rewrite lower_plus; exact Hplus).
        rewrite split_without_sep by (rewrite lower_plus; exact Hxp). reflexivity.
    - split; [reflexivity |]. rewrite append_nil_r. unfold split_suffix.
      rewrite lower_plus, Hplus. reflexivity. }
  destruct Htail as [Htail Hsplit].
  rewrite registry_key_rendered; [| | exact Hwf2 | exact Hd2].
  - replace (PyStr.lower ty ++ "/" ++ PyStr.lower sub ++ tail)%string
      with (PyStr.lower ty ++ String "/" (PyStr.lower sub ++ tail))%string
      by (string_norm; reflexivity).
    rewrite (split_app_sep "/" _ _ Hty_slash).
    rewrite split_without_sep.
    + rewrite Hsplit. cbn [mbind result_bind rbind fst snd].
      rewrite Hmap, !clean_tchars, !lower_idempotent by assumption.
      f_equal.
      replace (option_map (fun x => PyStr.lower (PyStr.strip x)) (option_map PyStr.lower suffix))
        with (option_map PyStr.lower suffix).
      * apply str_permutation; [exact Hnd | exact Hp].
      * destruct suffix as [x |]; cbn [option_map]; [| reflexivity].
        destruct Hsuffix as (Hx & _).
        rewrite clean_tchars, lower_idempotent by (apply lower_tchars, Hx). reflexivity.
    + rewrite mem_app, Hsub_slash. apply (tchars_plain _ Htail).
  - unfold MediaType.is_essence. rewrite !all_chars_app.
    rewrite (Hq _ Hty'), (Hq _ Hsub'), (Hq _ Htail). reflexivity.
Qed.

(** The string written for normalized fields is normalized to itself. *)
Lemma normalized_again (ty sub : string) (suffix : option string)
    (params : list (string * string)) :
  MediaType.all_chars MediaType.is_tchar ty = true ->
  MediaType.all_chars MediaType.is_tchar sub = true ->
  PyStr.mem "+" sub = false ->
  match suffix with
  | Some x => MediaType.all_chars MediaType.is_tchar x = true /\ PyStr.mem "+" x = false
  | None => True
  end ->
  MediaType.well_formed params ->
  MediaType.distinct_names params ->
  let key := ContentType_str
               (mkContentType (PyStr.lower ty) (PyStr.lower sub)
                  (option_map PyStr.lower suffix) (map MediaType.fold_case params)) in
  MediaType.registry_key key = Ok key.
Proof.
  intros Hty Hsub Hplus Hsuffix Hwf Hd.
  destruct suffix as [[| c x] |].
  - cbn [option_map PyStr.lower]. cbv zeta. rewrite str_empty_suffix.
    apply (normalized_again_suffix ty sub None params); try assumption. exact I.
  - apply (normalized_again_suffix ty sub (Some (String c x)) params); try assumption.
    destruct Hsuffix as [Hx Hp]. split; [exact Hx |]. split; [exact Hp | reflexivity].
  - apply (normalized_again_suffix ty sub None params); assumption.
Qed.

(** The registry key of a media type written from tokens is its own
    registry key. *)
Lemma registry_key_fixed (essence : string) (params : list (string * string))
    (key : string) :
  MediaType.is_essence essence = true ->
  MediaType.well_formed params ->
  MediaType.distinct_names params ->
  MediaType.registry_key (MediaType.render essence params) = Ok key ->
  MediaType.registry_key key = Ok key.
Proof.
  intros He Hwf Hd. rewrite (registry_key_rendered essence params He Hwf Hd).
  destruct (PyStr.split "/" essence) as [| ty [| sub [| ? ?]]] eqn:Es; try discriminate.
  apply split_two in Es as (-> & Hty & Hsub).
  unfold MediaType.is_essence in He. rewrite all_chars_app in He.
  apply andb_true_iff in He as [Hety Hesub]. cbn [MediaType.all_chars] in Hesub.
  apply andb_true_iff in Hesub as [_ Hesub].
  apply essence_piece in Hety; [| exact Hty].
  apply essence_piece in Hesub; [| exact Hsub].
  unfold split_suffix. destruct (PyStr.mem "+" sub) eqn:Hplus.
  - destruct (PyStr.split "+" sub) as [| s [| x [| ? ?]]] eqn:Ep; try discriminate.
    apply split_two in Ep as (-> & Hs & Hx).
    rewrite all_chars_app in Hesub. apply andb_true_iff in Hesub as [Hes Hex].
    cbn [MediaType.all_chars] in Hex. apply andb_true_iff in Hex as [_ Hex].
    cbn [mbind result_bind rbind fst snd option_map]. intros [= <-].
    rewrite !clean_tchars by assumption.
    apply (normalized_again ty s (Some x) params); try assumption. split; assumption.
  - cbn [mbind result_bind rbind fst snd option_map]. intros [= <-].
    rewrite !clean_tchars by assumption.
    apply (normalized_again ty sub None params); try assumption. exact I.
Qed.

(** X19.  The registry key of a media type written from tokens with
    distinct parameter names is normalized to itself: parsing the key and
    writing it again gives the key, so [__getitem__] finds under the key
    what it finds under the string as written. *)
Theorem registry_key_is_a_fixed_point
    (essence : string) (params : list (string * string)) (key : string) :
  MediaType.is_essence essence = true ->
  MediaType.well_formed params ->
  MediaType.distinct_names params ->
  MediaType.registry_key (MediaType.render essence params) = Ok key ->
  MediaType.registry_key key = Ok key
  /\ forall s, Settings.getitem s key = Settings.getitem s (MediaType.render essence params).
Proof.
  intros He Hwf Hd Hk.
  pose proof (registry_key_fixed essence params key He Hwf Hd Hk) as Hfix.
  split; [exact Hfix |].
  intros s. rewrite !getitem_by_key, Hfix, Hk. reflexivity.
Qed.

Lemma registry_key_is_a_fixed_point_witness :
  MediaType.registry_key "Application/Vnd.Thing+JSON; Version=2; Charset=UTF-8"
  = Ok "application/vnd.thing+json; charset=utf-8; version=2"
  /\ MediaType.registry_key "application/vnd.thing+json; charset=utf-8; version=2"
     = Ok "application/vnd.thing+json; charset=utf-8; version=2".
Proof.
  split; [vm_compute; reflexivity |].
  apply (registry_key_is_a_fixed_point "Application/Vnd.Thing+JSON"
           [("Version", "2"); ("Charset", "UTF-8")]).
  - vm_compute; reflexivity.
  - repeat constructor.
  - unfold MediaType.distinct_names. apply NoDup_ListNoDup.
    repeat constructor; vm_compute; intuition discriminate.
  - vm_compute; reflexivity.
Defined.

(** ** Text content types *)

Lemma without_charset_facts (params : list (string * string)) :
  MediaType.well_formed params ->
  MediaType.distinct_names params ->
  MediaType.well_formed (without_charset params)
  /\ MediaType.distinct_names (without_charset params)
  /\ PyDict.pop (map MediaType.fold_case params) "charset"
     = map MediaType.fold_case (without_charset params).
Proof.
  unfold MediaType.well_formed, MediaType.distinct_names, without_charset, PyDict.pop.
  intros Hwf Hd. split; [| split].
  - apply List.Forall_forall. intros kv Hin. apply List.filter_In in Hin as [Hin _].
    rewrite List.Forall_forall in Hwf. apply Hwf, Hin.
  - apply NoDup_ListNoDup in Hd. apply NoDup_ListNoDup.
    clear Hwf. induction params as [| kv params IH]; cbn [List.filter map] in *;
      [constructor |].
    inversion Hd as [| ? ? Hnotin Hd']; subst.
    destruct (negb _); [| apply IH, Hd'].
    cbn [map]. constructor; [| apply IH, Hd'].
    intros Hin. apply Hnotin. apply List.in_map_iff in Hin as (kv' & Heq & Hin).
    apply List.filter_In in Hin as [Hin _]. apply List.in_map_iff. exists kv'. tauto.
  - clear. induction params as [| kv params IH]; cbn [List.filter map]; [reflexivity |].
    rewrite IH. unfold MediaType.fold_case at 1. cbn [fst].
    destruct (negb _); reflexivity.
Qed.

(** The content type that [add_text_content_type] hands to the handler:
    the registry key of the type without its [charset] parameter. *)
Lemma normalized_text_type (essence : string) (params : list (string * string))
    (key : string) :
  MediaType.is_essence essence = true ->
  MediaType.well_formed params ->
  MediaType.distinct_names params ->
  MediaType.registry_key (MediaType.render essence (without_charset params)) = Ok key ->
  exists parsed,
    parse_content_type (MediaType.render essence params) = Ok parsed
    /\ ContentType_str
         (with_parameters parsed (PyDict.pop (parameters parsed) "charset")) = key.
Proof.
  intros He Hwf Hd.
  destruct (without_charset_facts params Hwf Hd) as (Hwf' & Hd' & Hpop).
  rewrite (registry_key_rendered essence _ He Hwf' Hd').
  rewrite (parse_rendered essence params He Hwf).
  destruct (PyStr.split "/" essence) as [| ty [| sub [| ? ?]]]; try discriminate.
  destruct (split_suffix sub) as [ss | e]; [| discriminate].
  cbn [mbind result_bind rbind]. intros [= <-].
  eexists. split; [reflexivity |].
  rewrite (init_parameters _ _ _ _ Hd). unfold with_parameters.
  cbn [content_type content_subtype content_suffix parameters].
  rewrite Hpop. reflexivity.
Qed.

Lemma add_transcoder_present (app : Application) (s : ContentSettings)
    (transcoder : ContentHandler) (content_type : option string) :
  settings app !! SETTINGS_KEY = Some s ->
  add_transcoder app transcoder content_type
  = match Settings.setitem s (transcoder_key transcoder content_type) transcoder with
    | Ok s' => (Ok tt, store_settings app s')
    | Raise e => (Raise e, app)
    end.
Proof.
  intros H. unfold add_transcoder. rewrite (get_settings_present _ _ _ H). reflexivity.
Qed.

Lemma add_transcoder_returns (app : Application) (transcoder : ContentHandler)
    (content_type : option string) (key : string) :
  MediaType.registry_key (transcoder_key transcoder content_type) = Ok key ->
  fst (add_transcoder app transcoder content_type) = Ok tt.
Proof.
  unfold MediaType.registry_key, add_transcoder. rewrite get_settings_forced.
  fold (transcoder_key transcoder content_type).
  destruct (parse_content_type (transcoder_key transcoder content_type))
    as [parsed | e] eqn:Hp; [intros _ | discriminate].
  unfold Settings.setitem. rewrite Hp. cbn [mbind result_bind rbind].
  destruct (_ !! _); reflexivity.
Qed.

(** X20.  [add_text_content_type] drops the [charset] parameter, in any
    letter case: for a media type written from tokens with distinct
    parameter names it is [add_transcoder] of the text handler built for the
    registry key of the type without [charset]; that handler, whose content
    type is the one it was built for, is filed under exactly this key, the
    call returns, and a lookup of the type written without [charset] is a
    lookup of the key. *)
Theorem add_text_content_type_drops_charset
    (TextContentHandler : string -> (Value -> result string) ->
                          (string -> result Value) -> string -> ContentHandler)
    (app : Application) (essence : string) (params : list (string * string))
    (default_encoding : string) (dumps : Value -> result string)
    (loads : string -> result Value) (key : string) :
  (forall ct d l e, handler_content_type (TextContentHandler ct d l e) = ct) ->
  MediaType.is_essence essence = true ->
  MediaType.well_formed params ->
  MediaType.distinct_names params ->
  MediaType.registry_key (MediaType.render essence (without_charset params)) = Ok key ->
  let handler := TextContentHandler key dumps loads default_encoding in
  let call := add_text_content_type TextContentHandler app
                (MediaType.render essence params) default_encoding dumps loads in
  call = add_transcoder app handler None
  /\ fst call = Ok tt
  /\ MediaType.registry_key (transcoder_key handler None) = Ok key
  /\ forall s, Settings.getitem s key
               = Settings.getitem s (MediaType.render essence (without_charset params)).
Proof.
  intros Hct He Hwf Hd Hk. cbv zeta.
  destruct (without_charset_facts params Hwf Hd) as (Hwf' & Hd' & _).
  pose proof (registry_key_fixed essence _ key He Hwf' Hd' Hk) as Hfix.
  destruct (normalized_text_type essence params key He Hwf Hd Hk) as (parsed & Hp & Hn).
  assert (Hkey : MediaType.registry_key
                   (transcoder_key (TextContentHandler key dumps loads default_encoding) None)
                 = Ok key).
  { cbn [transcoder_key]. rewrite Hct. exact Hfix. }
  assert (Hcall : add_text_content_type TextContentHandler app
                    (MediaType.render essence params) default_encoding dumps loads
                  = add_transcoder app
                      (TextContentHandler key dumps loads default_encoding) None).
  { unfold add_text_content_type. rewrite Hp. cbv zeta. rewrite Hn. reflexivity. }
  split; [exact Hcall |]. split; [| split; [exact Hkey |]].
  - rewrite Hcall. apply (add_transcoder_returns _ _ _ key Hkey).
  - intros s. rewrite !getitem_by_key, Hfix, Hk. reflexivity.
Qed.

Lemma add_text_content_type_drops_charset_witness :
  let text_handler :=
    fun (ct : string) (_ : Value -> result string) (_ : string -> result Value)
        (_ : string) => mkContentHandler ct (fun _ _ => Ok (ct, [])) (fun _ _ => Ok VNone) in
  let dumps := fun _ : Value => Ok ""%string in
  let loads := fun _ : string => Ok VNone in
  MediaType.registry_key "application/json" = Ok "application/json"%string
  /\ fst (add_text_content_type text_handler Scenario.empty_application
            "application/json; Charset=UTF-8" "utf-8" dumps loads) = Ok tt.
Proof.
  cbv zeta. split; [vm_compute; reflexivity |].
  refine (proj1 (proj2 (add_text_content_type_drops_charset _ Scenario.empty_application
            "application/json" [("Charset", "UTF-8")] "utf-8" _ _ "application/json"
            _ _ _ _ _))).
  - intros ct d l e. reflexivity.
  - vm_compute. reflexivity.
  - repeat constructor.
  - unfold MediaType.distinct_names. apply NoDup_ListNoDup.
    repeat constructor; simpl; intuition discriminate.
  - vm_compute. reflexivity.
Defined.

(** ** The example application *)

Lemma setitem_defaults (s s' : ContentSettings) (content_type : string)
    (handler : ContentHandler) :
  Settings.setitem s content_type handler = Ok s' ->
  default_content_type s' = default_content_type s
  /\ default_encoding s' = default_encoding s.
Proof.
  intros Hs. apply setitem_outcome in Hs as (parsed & _ & [[_ ->] | [_ ->]]);
    split; reflexivity.
Qed.

(** What a registration under a key that parses leaves in the registry. *)
Lemma setitem_registered (s : ContentSettings) (content_type key : string)
    (handler : ContentHandler) :
  MediaType.registry_key content_type = Ok key ->
  exists s',
    Settings.setitem s content_type handler = Ok s'
    /\ _handlers s' !! key = Some (default handler (_handlers s !! key))
    /\ (_handlers s !! key = None ->
        _handlers s' = <[key := handler]> (_handlers s)
        /\ map ContentType_str (_available_types s')
           = map ContentType_str (_available_types s) ++ [key]).
Proof.
  unfold MediaType.registry_key.
  destruct (parse_content_type content_type) as [parsed | e] eqn:Hp; [| discriminate].
  cbn [mbind result_bind rbind]. intros [= <-].
  destruct (_handlers s !! ContentType_str parsed) as [h0 |] eqn:Hk.
  - exists s. split; [apply (setitem_taken s content_type handler h0 parsed Hp Hk) |].
    split; [exact Hk | discriminate].
  - eexists. split; [apply (setitem_fresh s content_type handler parsed Hp Hk) |].
    cbn [_handlers _available_types]. split; [apply lookup_insert_eq |].
    intros _. split; [reflexivity |]. rewrite map_app. reflexivity.
Qed.

(** X21.  [make_application] of examples.py returns whenever the
    constructor of the application does, whatever the codecs do, and passes
    the constructor's error on otherwise.  The content settings of the
    application it returns have JSON as default content type and utf-8 as
    default encoding, and transcoders for msgpack and for JSON.  When the
    constructed application had no content settings, these are the binary
    handler, registered first, and the text handler, registered second. *)
Theorem make_application_registers_both
    (TextContentHandler : string -> (Value -> result string) ->
                          (string -> result Value) -> string -> ContentHandler)
    (packb : Value -> result bytes) (unpackb : bytes -> result Value)
    (dumps : Value -> result string) (loads : string -> result Value)
    (Kwargs : Type) (web_Application : Kwargs -> result Application)
    (kwargs : Kwargs) :
  (forall ct d l e, handler_content_type (TextContentHandler ct d l e) = ct) ->
  let made := make_application TextContentHandler packb unpackb dumps loads
                Kwargs web_Application kwargs in
  match web_Application kwargs with
  | Raise e => made = Raise e
  | Ok created =>
      exists app after,
        made = Ok app
        /\ settings app !! SETTINGS_KEY = Some after
        /\ default_content_type after = Some "application/json"%string
        /\ default_encoding after = Some "utf-8"%string
        /\ is_Some (_handlers after !! "application/msgpack"%string)
        /\ is_Some (_handlers after !! "application/json"%string)
        /\ (settings created !! SETTINGS_KEY = None ->
            Settings.getitem after "application/msgpack"
            = Ok (BinaryContentHandler "application/msgpack" packb unpackb)
            /\ Settings.getitem after "application/json"
               = Ok (TextContentHandler "application/json" dumps loads "utf-8")
            /\ map ContentType_str (_available_types after)
               = ["application/msgpack"; "application/json"]%string)
  end.
Proof.
  intros Hct. cbv zeta. unfold make_application.
  destruct (web_Application kwargs) as [created | e0]; [| reflexivity].
  cbn [mbind result_bind rbind]. cbv zeta.
  rewrite set_default_content_type_eq.
  set (s1 := Settings.set_defaults (default Settings.init (settings created !! SETTINGS_KEY))
               (Some "application/json"%string) (Some "utf-8"%string)).
  set (app1 := store_settings created s1).
  set (binary := BinaryContentHandler "application/msgpack" packb unpackb).
  set (text := TextContentHandler "application/json" dumps loads "utf-8").
  assert (Hm : MediaType.registry_key "application/msgpack" = Ok "application/msgpack"%string)
    by (vm_compute; reflexivity).
  assert (Hj : MediaType.registry_key "application/json" = Ok "application/json"%string)
    by (vm_compute; reflexivity).
  destruct (setitem_registered s1 "application/msgpack" _ binary Hm)
    as (s2 & Hs2 & Hm2 & Hfresh2).
  destruct (setitem_registered s2 "application/json" _ text Hj)
    as (s3 & Hs3 & Hj3 & Hfresh3).
  assert (H1 : add_binary_content_type app1 "application/msgpack" packb unpackb
               = (Ok tt, store_settings app1 s2)).
  { unfold add_binary_content_type.
    rewrite (add_transcoder_present app1 s1) by apply store_settings_lookup.
    cbn [transcoder_key BinaryContentHandler handler_content_type].
    fold binary. rewrite Hs2. reflexivity. }
  assert (H2 : add_text_content_type TextContentHandler (store_settings app1 s2)
                 "application/json" "utf-8" dumps loads
               = (Ok tt, store_settings (store_settings app1 s2) s3)).
  { unfold add_text_content_type.
    assert (Hp : parse_content_type "application/json"
                 = Ok (mkContentType "application" "json" None []))
      by (vm_compute; reflexivity).
    rewrite Hp. cbv zeta.
    change (ContentType_str
              (with_parameters (mkContentType "application" "json" None [])
                 (PyDict.pop (parameters (mkContentType "application" "json" None []))
                    "charset")))
      with "application/json"%string.
    fold text.
    rewrite (add_transcoder_present _ s2) by apply store_settings_lookup.
    cbn [transcoder_key]. unfold text at 1. rewrite Hct. rewrite Hs3. reflexivity. }
  rewrite H1, H2.
  destruct (setitem_defaults _ _ _ _ Hs2) as [Hd2 He2].
  destruct (setitem_defaults _ _ _ _ Hs3) as [Hd3 He3].
  exists (store_settings (store_settings app1 s2) s3), s3.
  split; [reflexivity |]. split; [apply store_settings_lookup |].
  split; [| split; [| split; [| split]]].
  - rewrite Hd3, Hd2. reflexivity.
  - rewrite He3, He2. reflexivity.
  - rewrite (setitem_keeps_entries s2 s3 _ text _ "application/msgpack" Hs3 Hm2).
    eexists. reflexivity.
  - rewrite Hj3. eexists. reflexivity.
  - intros Hnone.
    assert (Hempty : _handlers s1 = ∅).
    { unfold s1. rewrite Hnone. reflexivity. }
    assert (Hnone1 : _handlers s1 !! "application/msgpack"%string = None)
      by (rewrite Hempty; apply lookup_empty).
    destruct (Hfresh2 Hnone1) as [Hh2 Ha2].
    assert (Hnone2 : _handlers s2 !! "application/json"%string = None).
    { rewrite Hh2, lookup_insert_ne by discriminate. rewrite Hempty. apply lookup_empty. }
    destruct (Hfresh3 Hnone2) as [Hh3 Ha3].
    rewrite !getitem_by_key, Hm, Hj. cbn [mbind result_bind rbind].
    rewrite Hj3, Hnone2. cbn [default].
    rewrite Hh3, lookup_insert_ne by discriminate.
    rewrite Hm2, Hnone1. cbn [default].
    split; [reflexivity |]. split; [reflexivity |].
    rewrite Ha3, Ha2. unfold s1. rewrite Hnone. reflexivity.
Qed.

Lemma make_application_registers_both_witness :
  let text_handler :=
    fun (ct : string) (_ : Value -> result string) (_ : string -> result Value)
        (_ : string) => mkContentHandler ct (fun _ _ => Ok (ct, [])) (fun _ _ => Ok VNone) in
  let dumps := fun _ : Value => Ok ""%string in
  let loads := fun _ : string => Ok VNone in
  let unpackb := fun _ : bytes => Ok VNone in
  let constructor := fun _ : unit => Ok Scenario.empty_application in
  handler_content_type (text_handler "application/json"%string dumps loads "utf-8"%string)
  = "application/json"%string
  /\ exists app after,
       make_application text_handler MsgPack.packb unpackb dumps loads unit constructor tt
       = Ok app
       /\ settings app !! SETTINGS_KEY = Some after
       /\ default_content_type after = Some "application/json"%string
       /\ map ContentType_str (_available_types after)
          = ["application/msgpack"; "application/json"]%string.
Proof.
  cbv zeta. split; [reflexivity |].
  pose proof (make_application_registers_both
                (fun ct _ _ _ => mkContentHandler ct (fun _ _ => Ok (ct, []))
                                   (fun _ _ => Ok VNone))
                MsgPack.packb (fun _ => Ok VNone) (fun _ => Ok ""%string)
                (fun _ => Ok VNone) unit (fun _ => Ok Scenario.empty_application) tt
                ltac:(intros ct d l e; reflexivity)) as H.
  cbv zeta in H. cbv beta in H.
  destruct H as (app & after & Happ & Hafter & Hdefault & _ & _ & _ & Hfresh).
  destruct (Hfresh ltac:(reflexivity)) as (_ & _ & Horder).
  exists app, after. split; [exact Happ |]. split; [exact Hafter |].
  split; [exact Hdefault | exact Horder].
Defined.
